(** * FPC1020 fingerprint sensor platform driver: electrical control

    A shallow embedding of [drivers/input/fingerprint/fpc/fpc1020_platform_tee.c].

    The driver is stateful C code that talks to the kernel (regulators,
    pin control, GPIO, interrupts, sysfs).  It is embedded as functions in a
    small state monad over

    - the driver's private data ([struct fpc1020_data]),
    - the two file-level statics ([irq_enabled] inside [config_irq] and
      [soc_symlink]),
    - the chronological trace of every kernel call made so far.

    The kernel is an oracle: the value a kernel call returns is a function of
    the calls made before it and of the call itself, so every theorem that
    quantifies over the oracle holds for every (deterministic) behaviour of
    the backends, failures included.

    Not modelled: the [dev_err] / [dev_dbg] / [dev_info] / [dev_warn] log
    calls (no effect on control flow or driver state) and the scheduling of
    concurrent callers: the mutex appears as [mutex_lock] / [mutex_unlock]
    calls in the trace, and every function runs to its end before the next
    one starts.  The one exception is [proximity_write_overlapped], a
    proximity write with another entry run between its choice of the target
    and its call of [config_irq], where the source holds no lock. *)

From Stdlib Require Import ZArith List String Ascii Bool Lia.
Import ListNotations.

Open Scope string_scope.
Open Scope Z_scope.
Open Scope list_scope.

(** ** Kernel constants the file uses (from the kernel headers) *)

Module Errno.
Definition ENOMEM : Z := 12.
Definition ENODEV : Z := 19.
Definition EINVAL : Z := 22.
Definition EPROBE_DEFER : Z := 517.
Definition MAX_ERRNO : Z := 4095.
End Errno.
Import Errno.

Definition IRQ_HANDLED : Z := 1.
Definition NOTIFY_OK : Z := 1.
Definition FB_EVENT_BLANK : Z := 9.
Definition FB_BLANK_UNBLANK : Z := 0.
Definition FB_BLANK_NORMAL : Z := 1.
Definition FB_BLANK_POWERDOWN : Z := 4.

(** Pointers are their address read as a signed 64-bit number: [0] is
    [NULL], the top [MAX_ERRNO] addresses are the [ERR_PTR] range. *)
Definition ptr : Type := Z.
Definition NULL : ptr := 0.
Definition IS_ERR (p : ptr) : bool := (- MAX_ERRNO <=? p) && (p <? 0).
Definition IS_ERR_OR_NULL (p : ptr) : bool := (p =? NULL) || IS_ERR p.
Definition PTR_ERR (p : ptr) : Z := p.

(** C truth of an [int]. *)
Definition truthy (z : Z) : bool := negb (z =? 0).

(** ** Constants and tables of the driver *)

Definition FPC_TTW_HOLD_TIME : Z := 400.
Definition RESET_LOW_SLEEP_MIN_US : Z := 5000.
Definition RESET_LOW_SLEEP_MAX_US : Z := RESET_LOW_SLEEP_MIN_US + 100.
Definition RESET_HIGH_SLEEP1_MIN_US : Z := 100.
Definition RESET_HIGH_SLEEP1_MAX_US : Z := RESET_HIGH_SLEEP1_MIN_US + 100.
Definition RESET_HIGH_SLEEP2_MIN_US : Z := 5000.
Definition RESET_HIGH_SLEEP2_MAX_US : Z := RESET_HIGH_SLEEP2_MIN_US + 100.
Definition PWR_ON_SLEEP_MIN_US : Z := 100.
Definition PWR_ON_SLEEP_MAX_US : Z := PWR_ON_SLEEP_MIN_US + 900.
Definition NUM_PARAMS_REG_ENABLE_SET : Z := 2.

Definition pctl_names : list string :=
  [ "fpc1020_reset_reset"; "fpc1020_reset_active"; "fpc1020_irq_active" ].

(** [fpc_rails_t]: an enumeration whose first three enumerators are all
    given the value 0, so that the automatically numbered [FPC_VREG_MAX]
    is 1.  No enumerator is negative: the type is an unsigned 32-bit
    integer, and a value converted to it wraps modulo 2^32. *)
Definition VDD_ANA : Z := 0.
Definition VCC_SPI : Z := 0.
Definition VDD_IO : Z := 0.
Definition FPC_VREG_MAX : Z := VDD_IO + 1.
Definition to_fpc_rails_t (z : Z) : Z := z mod 2 ^ 32.

Record vreg_config := {
  name : string;
  vmin : Z;
  vmax : Z;
  ua_load : Z
}.

Definition vreg_conf : list vreg_config :=
  [ {| name := "vdd_ana"; vmin := 1800000; vmax := 1800000; ua_load := 6000 |};
    {| name := "vcc_spi"; vmin := 1800000; vmax := 1800000; ua_load := 10 |};
    {| name := "vdd_io"; vmin := 1800000; vmax := 1800000; ua_load := 6000 |} ].

(** ** Driver data *)

(** [struct fpc1020_data].  The arrays have [ARRAY_SIZE(pctl_names)] and
    [ARRAY_SIZE(vreg_conf)] slots; [dev], [lock], [fb_notifier] and
    [input_handler] carry no value the functions below branch on. *)
Record fpc1020_data := {
  fingerprint_pinctrl : ptr;
  pinctrl_state : list ptr;
  vreg : list ptr;
  ttw_ws : ptr;
  irq_gpio : Z;
  rst_gpio : Z;
  prepared : bool;
  fb_black : bool;
  wait_finger_down : bool;
  proximity_state : bool;
  wakeup_enabled : Z
}.

(** What [devm_kzalloc] hands out: every field zero. *)
Definition fpc1020_zeroed : fpc1020_data :=
  {| fingerprint_pinctrl := NULL;
     pinctrl_state := [NULL; NULL; NULL];
     vreg := [NULL; NULL; NULL];
     ttw_ws := NULL;
     irq_gpio := 0;
     rst_gpio := 0;
     prepared := false;
     fb_black := false;
     wait_finger_down := false;
     proximity_state := false;
     wakeup_enabled := 0 |}.

Definition set_fingerprint_pinctrl (v : ptr) (d : fpc1020_data) :=
  {| fingerprint_pinctrl := v; pinctrl_state := pinctrl_state d;
     vreg := vreg d; ttw_ws := ttw_ws d; irq_gpio := irq_gpio d;
     rst_gpio := rst_gpio d; prepared := prepared d; fb_black := fb_black d;
     wait_finger_down := wait_finger_down d;
     proximity_state := proximity_state d;
     wakeup_enabled := wakeup_enabled d |}.
Definition set_pinctrl_state (v : list ptr) (d : fpc1020_data) :=
  {| fingerprint_pinctrl := fingerprint_pinctrl d; pinctrl_state := v;
     vreg := vreg d; ttw_ws := ttw_ws d; irq_gpio := irq_gpio d;
     rst_gpio := rst_gpio d; prepared := prepared d; fb_black := fb_black d;
     wait_finger_down := wait_finger_down d;
     proximity_state := proximity_state d;
     wakeup_enabled := wakeup_enabled d |}.
Definition set_vreg (v : list ptr) (d : fpc1020_data) :=
  {| fingerprint_pinctrl := fingerprint_pinctrl d;
     pinctrl_state := pinctrl_state d;
     vreg := v; ttw_ws := ttw_ws d; irq_gpio := irq_gpio d;
     rst_gpio := rst_gpio d; prepared := prepared d; fb_black := fb_black d;
     wait_finger_down := wait_finger_down d;
     proximity_state := proximity_state d;
     wakeup_enabled := wakeup_enabled d |}.
Definition set_ttw_ws (v : ptr) (d : fpc1020_data) :=
  {| fingerprint_pinctrl := fingerprint_pinctrl d;
     pinctrl_state := pinctrl_state d;
     vreg := vreg d; ttw_ws := v; irq_gpio := irq_gpio d;
     rst_gpio := rst_gpio d; prepared := prepared d; fb_black := fb_black d;
     wait_finger_down := wait_finger_down d;
     proximity_state := proximity_state d;
     wakeup_enabled := wakeup_enabled d |}.
Definition set_irq_gpio (v : Z) (d : fpc1020_data) :=
  {| fingerprint_pinctrl := fingerprint_pinctrl d;
     pinctrl_state := pinctrl_state d;
     vreg := vreg d; ttw_ws := ttw_ws d; irq_gpio := v;
     rst_gpio := rst_gpio d; prepared := prepared d; fb_black := fb_black d;
     wait_finger_down := wait_finger_down d;
     proximity_state := proximity_state d;
     wakeup_enabled := wakeup_enabled d |}.
Definition set_rst_gpio (v : Z) (d : fpc1020_data) :=
  {| fingerprint_pinctrl := fingerprint_pinctrl d;
     pinctrl_state := pinctrl_state d;
     vreg := vreg d; ttw_ws := ttw_ws d; irq_gpio := irq_gpio d;
     rst_gpio := v; prepared := prepared d; fb_black := fb_black d;
     wait_finger_down := wait_finger_down d;
     proximity_state := proximity_state d;
     wakeup_enabled := wakeup_enabled d |}.
Definition set_prepared (v : bool) (d : fpc1020_data) :=
  {| fingerprint_pinctrl := fingerprint_pinctrl d;
     pinctrl_state := pinctrl_state d;
     vreg := vreg d; ttw_ws := ttw_ws d; irq_gpio := irq_gpio d;
     rst_gpio := rst_gpio d; prepared := v; fb_black := fb_black d;
     wait_finger_down := wait_finger_down d;
     proximity_state := proximity_state d;
     wakeup_enabled := wakeup_enabled d |}.
Definition set_fb_black (v : bool) (d : fpc1020_data) :=
  {| fingerprint_pinctrl := fingerprint_pinctrl d;
     pinctrl_state := pinctrl_state d;
     vreg := vreg d; ttw_ws := ttw_ws d; irq_gpio := irq_gpio d;
     rst_gpio := rst_gpio d; prepared := prepared d; fb_black := v;
     wait_finger_down := wait_finger_down d;
     proximity_state := proximity_state d;
     wakeup_enabled := wakeup_enabled d |}.
Definition set_wait_finger_down (v : bool) (d : fpc1020_data) :=
  {| fingerprint_pinctrl := fingerprint_pinctrl d;
     pinctrl_state := pinctrl_state d;
     vreg := vreg d; ttw_ws := ttw_ws d; irq_gpio := irq_gpio d;
     rst_gpio := rst_gpio d; prepared := prepared d; fb_black := fb_black d;
     wait_finger_down := v;
     proximity_state := proximity_state d;
     wakeup_enabled := wakeup_enabled d |}.
Definition set_proximity_state (v : bool) (d : fpc1020_data) :=
  {| fingerprint_pinctrl := fingerprint_pinctrl d;
     pinctrl_state := pinctrl_state d;
     vreg := vreg d; ttw_ws := ttw_ws d; irq_gpio := irq_gpio d;
     rst_gpio := rst_gpio d; prepared := prepared d; fb_black := fb_black d;
     wait_finger_down := wait_finger_down d;
     proximity_state := v;
     wakeup_enabled := wakeup_enabled d |}.
Definition set_wakeup_enabled (v : Z) (d : fpc1020_data) :=
  {| fingerprint_pinctrl := fingerprint_pinctrl d;
     pinctrl_state := pinctrl_state d;
     vreg := vreg d; ttw_ws := ttw_ws d; irq_gpio := irq_gpio d;
     rst_gpio := rst_gpio d; prepared := prepared d; fb_black := fb_black d;
     wait_finger_down := wait_finger_down d;
     proximity_state := proximity_state d;
     wakeup_enabled := v |}.

(** ** Kernel calls *)

(** One constructor per kernel function the driver calls, with the
    arguments the call is made with. *)
Inductive kcall : Type :=
| mutex_init
| mutex_lock
| mutex_unlock
| usleep_range (min_us max_us : Z)
| gpio_get_value (gpio : Z)
| gpio_to_irq (gpio : Z)
| enable_irq (irq : Z)
| disable_irq (irq : Z)
| enable_irq_wake (irq : Z)
| pinctrl_select_state (p state : ptr)
| pinctrl_lookup_state (p : ptr) (n : string)
| devm_pinctrl_get
| regulator_count_voltages (r : ptr)
| regulator_set_voltage (r : ptr) (min_uV max_uV : Z)
| regulator_set_load (r : ptr) (uA : Z)
| regulator_enable (r : ptr)
| regulator_is_enabled (r : ptr)
| regulator_disable (r : ptr)
| devm_regulator_get (n : string)
| pm_wakeup_event (ws : ptr) (msec : Z)
| sysfs_notify (attr : string)
| devm_kzalloc
| of_get_named_gpio (label : string)
| devm_gpio_request (gpio : Z) (label : string)
| of_property_read_bool (prop : string)
| device_init_wakeup (enable : Z)
| devm_request_threaded_irq (irq : Z)
| wakeup_source_register (n : string)
| input_register_handler
| sysfs_create_group
| kernfs_get
| kernfs_create_link
| kernfs_put
| fb_register_client
| kernfs_remove_by_name
| fb_unregister_client
| sysfs_remove_group
| mutex_destroy
| wakeup_source_unregister (ws : ptr).

(** The kernel: what a call returns, given the calls made before it. *)
Definition kernel_t : Type := list kcall -> kcall -> Z.

(** ** Machine state and monad *)

Record sys := {
  drv : fpc1020_data;
  irq_enabled : bool;       (* [static bool irq_enabled] of [config_irq] *)
  soc_symlink : ptr;        (* file-level [soc_symlink] *)
  trace : list kcall
}.

(** State when the module is loaded, before [fpc1020_probe]. *)
Definition module_loaded : sys :=
  {| drv := fpc1020_zeroed; irq_enabled := true; soc_symlink := NULL;
     trace := [] |}.

(** A run either returns a value in a new state, or makes an array access
    outside the array, or reads through a [NULL] pointer (both undefined
    behaviour in C): the run stops there. *)
Inductive outcome (A : Type) : Type :=
| Done (a : A) (s : sys)
| OutOfBounds (s : sys)
| NullDeref (s : sys).
Arguments Done {A} a s.
Arguments OutOfBounds {A} s.
Arguments NullDeref {A} s.

Definition M (A : Type) : Type := sys -> outcome A.

Definition ret {A} (a : A) : M A := fun s => Done a s.

Definition bind {A B} (m : M A) (k : A -> M B) : M B :=
  fun s => match m s with
           | Done a s' => k a s'
           | OutOfBounds s' => OutOfBounds s'
           | NullDeref s' => NullDeref s'
           end.

Declare Scope drv_scope.
Delimit Scope drv_scope with drv.
Notation "x <- m ;; k" := (bind m (fun x => k))
  (at level 100, m at next level, right associativity) : drv_scope.
Notation "m ;;; k" := (bind m (fun _ => k))
  (at level 100, right associativity) : drv_scope.
Open Scope drv_scope.

Definition get_drv : M fpc1020_data := fun s => Done (drv s) s.

(** [upd_drv f s]: the state [s] with the driver data changed by [f]. *)
Definition upd_drv (f : fpc1020_data -> fpc1020_data) (s : sys) : sys :=
  {| drv := f (drv s); irq_enabled := irq_enabled s;
     soc_symlink := soc_symlink s; trace := trace s |}.

Definition modify_drv (f : fpc1020_data -> fpc1020_data) : M unit :=
  fun s => Done tt (upd_drv f s).

Definition get_irq_enabled : M bool := fun s => Done (irq_enabled s) s.

(** [upd_irq_enabled b s]: the state [s] with the static [irq_enabled]
    set to [b]. *)
Definition upd_irq_enabled (b : bool) (s : sys) : sys :=
  {| drv := drv s; irq_enabled := b;
     soc_symlink := soc_symlink s; trace := trace s |}.

Definition put_irq_enabled (b : bool) : M unit :=
  fun s => Done tt (upd_irq_enabled b s).

Definition get_soc_symlink : M ptr := fun s => Done (soc_symlink s) s.

Definition put_soc_symlink (p : ptr) : M unit :=
  fun s => Done tt {| drv := drv s; irq_enabled := irq_enabled s;
                      soc_symlink := p; trace := trace s |}.

(** [a[i]] read from an array held as a list: nothing outside the array. *)
Definition lookup {A} (a : list A) (i : Z) : option A :=
  if (0 <=? i) && (i <? Z.of_nat (List.length a))
  then nth_error a (Z.to_nat i)
  else None.

(** The read [a[i]] in a run: outside the array the run stops. *)
Definition index {A} (a : list A) (i : Z) : M A :=
  fun s => match lookup a i with
           | Some x => Done x s
           | None => OutOfBounds s
           end.

(** A read of a member through the pointer [p], as in [p->parent]: through
    [NULL] the run stops. *)
Definition deref (p : ptr) : M unit :=
  fun s => if p =? NULL then NullDeref s else Done tt s.

(** [a[i] = v]. *)
Fixpoint store {A} (a : list A) (i : nat) (v : A) : list A :=
  match a, i with
  | [], _ => []
  | _ :: t, O => v :: t
  | h :: t, S j => h :: store t j v
  end.

(** ** Library functions on strings

    Sysfs hands a store function a NUL-terminated buffer; a [string] here
    is the content of a C string up to its terminating NUL.  [!strcmp(a, b)]
    is [String.eqb a b]. *)

Definition comma : ascii := ","%char.
Definition newline : ascii := "010"%char.

(** The conversion [%15[^,]]: the longest prefix of at most [width]
    characters other than a comma, and what follows it. *)
Fixpoint scan_not_comma (width : nat) (s : string) : string * string :=
  match width, s with
  | S w, String c rest =>
      if Ascii.eqb c comma then (EmptyString, s)
      else let (a, r) := scan_not_comma w rest in (String c a, r)
  | _, _ => (EmptyString, s)
  end.

(** [sscanf(buf, "%15[^,],%c", name, &op)]: the number of conversions made,
    with [name] and [op] (which C leaves unwritten when their conversion
    is not made: shown as the empty string and NUL). *)
Definition sscanf_name_op (buf : string) : Z * string * ascii :=
  match scan_not_comma 15 buf with
  | (EmptyString, _) => (0, EmptyString, zero)
  | (nm, String c (String o _)) =>
      if Ascii.eqb c comma then (2, nm, o) else (1, nm, zero)
  | (nm, _) => (1, nm, zero)
  end.

Definition is_digit (c : ascii) : bool :=
  let n := nat_of_ascii c in (48 <=? n)%nat && (n <=? 57)%nat.

Definition digit_val (c : ascii) : Z := Z.of_nat (nat_of_ascii c) - 48.

(** The value of the leading run of decimal digits, and what follows it. *)
Fixpoint parse_digits (acc : Z) (s : string) : Z * string :=
  match s with
  | String c rest =>
      if is_digit c then parse_digits (10 * acc + digit_val c) rest
      else (acc, s)
  | EmptyString => (acc, s)
  end.

(** A non-empty run of decimal digits, one optional newline, the end. *)
Definition parse_unsigned (s : string) : option Z :=
  match s with
  | String c _ =>
      if is_digit c then
        match parse_digits 0 s with
        | (v, EmptyString) => Some v
        | (v, String n EmptyString) =>
            if Ascii.eqb n newline then Some v else None
        | _ => None
        end
      else None
  | EmptyString => None
  end.

(** [kstrtoint(buf, 10, &val)]: [Some val] when it returns 0, [None] when
    it returns an error ([-EINVAL] for a parse error, [-ERANGE] outside
    [int]).  One leading sign is accepted. *)
Definition kstrtoint (buf : string) : option Z :=
  let signed :=
    match buf with
    | String "-" rest => option_map Z.opp (parse_unsigned rest)
    | String "+" rest => parse_unsigned rest
    | _ => parse_unsigned buf
    end in
  match signed with
  | Some v => if (- 2 ^ 31 <=? v) && (v <=? 2 ^ 31 - 1) then Some v else None
  | None => None
  end.

(** ** What the platform gives [fpc1020_probe] *)

(** The build configuration and the [fpsensor] variable of the board file. *)
Record kconfig := {
  CONFIG_MACH_LONGCHEER : bool;
  CONFIG_TOUCHSCREEN_COMMON : bool;
  fpsensor : Z
}.

(** The platform device: its device-tree node, and the name of the kobject
    of [dev->parent->parent] ([None] when [dev->parent] or
    [dev->parent->parent] is [NULL]). *)
Record platform_device := {
  of_node : ptr;
  grandparent_name : option string
}.

(** [log s cs]: the state [s] after the kernel calls [cs] were made. *)
Definition log (s : sys) (cs : list kcall) : sys :=
  {| drv := drv s; irq_enabled := irq_enabled s;
     soc_symlink := soc_symlink s; trace := trace s ++ cs |}.

Section Driver.

Variable kernel : kernel_t.

(** A kernel call: logged, and answered by the kernel. *)
Definition call (c : kcall) : M Z :=
  fun s => Done (kernel (trace s) c) (log s [c]).

(** *** [vreg_setup] *)
Definition vreg_setup (fpc_rail : Z) (enable : bool) : M Z :=
  d <- get_drv ;;
  vr <- index (vreg d) fpc_rail ;;
  if vr =? NULL then ret (- EINVAL)
  else if enable then
    cnt <- call (regulator_count_voltages vr) ;;
    (if cnt >? 0 then
       conf <- index vreg_conf fpc_rail ;;
       call (regulator_set_voltage vr (vmin conf) (vmax conf)) ;;;
       ret tt
     else ret tt) ;;;
    conf <- index vreg_conf fpc_rail ;;
    call (regulator_set_load vr (ua_load conf)) ;;;
    rc <- call (regulator_enable vr) ;;
    ret rc
  else
    en <- call (regulator_is_enabled vr) ;;
    (if truthy en then call (regulator_disable vr) ;;; ret tt
     else ret tt) ;;;
    ret 0.

(** *** sysfs node [clk_enable] *)
Definition clk_enable_store (buf : string) (count : Z) : M Z := ret count.

(** *** sysfs node [fingerdown_wait] *)
Definition fingerdown_wait_store (buf : string) (count : Z) : M Z :=
  if String.eqb buf "enable" then
    modify_drv (set_wait_finger_down true) ;;; ret count
  else if String.eqb buf "disable" then
    modify_drv (set_wait_finger_down false) ;;; ret count
  else ret (- EINVAL).

(** *** [select_pin_ctl] *)

(** The loop over [pctl_names], from slot [i] on. *)
Fixpoint select_pin_ctl_from (i : Z) (names : list string) (nm : string)
  : M Z :=
  match names with
  | [] => ret (- EINVAL)
  | n :: rest =>
      if String.eqb n nm then
        d <- get_drv ;;
        st <- index (pinctrl_state d) i ;;
        rc <- call (pinctrl_select_state (fingerprint_pinctrl d) st) ;;
        ret rc
      else select_pin_ctl_from (i + 1) rest nm
  end.

Definition select_pin_ctl (nm : string) : M Z :=
  select_pin_ctl_from 0 pctl_names nm.

(** *** sysfs node [pinctl_set] *)
Definition pinctl_set_store (buf : string) (count : Z) : M Z :=
  call mutex_lock ;;;
  rc <- select_pin_ctl buf ;;
  call mutex_unlock ;;;
  ret (if truthy rc then rc else count).

(** *** [name_to_fpc_rail] *)
Definition name_to_fpc_rail (nm : string) : Z :=
  if String.eqb nm "vdd_ana" then VDD_ANA
  else if String.eqb nm "vcc_spi" then VCC_SPI
  else if String.eqb nm "vdd_io" then VDD_IO
  else to_fpc_rails_t (- EINVAL).

(** *** sysfs node [regulator_enable] *)
Definition regulator_enable_store (buf : string) (count : Z) : M Z :=
  let '(n, nm, op) := sscanf_name_op buf in
  if negb (n =? NUM_PARAMS_REG_ENABLE_SET) then ret (- EINVAL)
  else
    let after_op (enable : bool) : M Z :=
      let fpc_rail := name_to_fpc_rail nm in
      call mutex_lock ;;;
      rc <- vreg_setup fpc_rail enable ;;
      call mutex_unlock ;;;
      ret (if truthy rc then rc else count) in
    if Ascii.eqb op "e" then after_op true
    else if Ascii.eqb op "d" then after_op false
    else ret (- EINVAL).

(** *** [hw_reset] *)
Definition hw_reset : M unit :=
  d <- get_drv ;;
  call (gpio_get_value (irq_gpio d)) ;;;
  select_pin_ctl "fpc1020_reset_active" ;;;
  call (usleep_range RESET_HIGH_SLEEP1_MIN_US RESET_HIGH_SLEEP1_MAX_US) ;;;
  select_pin_ctl "fpc1020_reset_reset" ;;;
  call (usleep_range RESET_LOW_SLEEP_MIN_US RESET_LOW_SLEEP_MAX_US) ;;;
  select_pin_ctl "fpc1020_reset_active" ;;;
  call (usleep_range RESET_HIGH_SLEEP2_MIN_US RESET_HIGH_SLEEP2_MAX_US) ;;;
  d <- get_drv ;;
  call (gpio_get_value (irq_gpio d)) ;;;
  ret tt.

(** *** sysfs node [hw_reset] *)
Definition hw_reset_store (buf : string) (count : Z) : M Z :=
  if String.eqb buf "reset" then
    call mutex_lock ;;;
    hw_reset ;;;
    call mutex_unlock ;;;
    ret count
  else ret (- EINVAL).

(** *** [config_irq] *)
Definition config_irq (enabled : bool) : M unit :=
  call mutex_lock ;;;
  irq_en <- get_irq_enabled ;;
  (if negb (Bool.eqb enabled irq_en) then
     d <- get_drv ;;
     irq <- call (gpio_to_irq (irq_gpio d)) ;;
     (if enabled then call (enable_irq irq) else call (disable_irq irq)) ;;;
     put_irq_enabled enabled
   else ret tt) ;;;
  call mutex_unlock ;;;
  ret tt.

(** *** [device_prepare] *)
Definition device_prepare (enable : bool) : M unit :=
  call mutex_lock ;;;
  d <- get_drv ;;
  (if enable && negb (prepared d) then
     modify_drv (set_prepared true) ;;;
     select_pin_ctl "fpc1020_reset_reset" ;;;
     vreg_setup VCC_SPI true ;;;
     vreg_setup VDD_IO true ;;;
     vreg_setup VDD_ANA true ;;;
     call (usleep_range PWR_ON_SLEEP_MIN_US PWR_ON_SLEEP_MAX_US) ;;;
     select_pin_ctl "fpc1020_reset_active" ;;;
     ret tt
   else if negb enable && prepared d then
     select_pin_ctl "fpc1020_reset_reset" ;;;
     call (usleep_range PWR_ON_SLEEP_MIN_US PWR_ON_SLEEP_MAX_US) ;;;
     vreg_setup VDD_ANA false ;;;
     vreg_setup VDD_IO false ;;;
     vreg_setup VCC_SPI false ;;;
     modify_drv (set_prepared false)
   else ret tt) ;;;
  call mutex_unlock ;;;
  ret tt.

(** *** sysfs node [device_prepare] *)
Definition device_prepare_store (buf : string) (count : Z) : M Z :=
  rc <- (if String.eqb buf "enable" then device_prepare true ;;; ret 0
         else if String.eqb buf "disable" then
           device_prepare false ;;; ret 0
         else ret (- EINVAL)) ;;
  ret (if truthy rc then rc else count).

(** *** sysfs node [wakeup_enable] *)
Definition wakeup_enable_store (buf : string) (count : Z) : M Z :=
  call mutex_lock ;;;
  r <- (if String.eqb buf "enable" then
          modify_drv (set_wakeup_enabled 1) ;;; ret count
        else if String.eqb buf "disable" then
          modify_drv (set_wakeup_enabled 0) ;;; ret count
        else ret (- EINVAL)) ;;
  call mutex_unlock ;;;
  ret r.

(** *** sysfs node [irq] *)

(** [irq_get] prints the line level with ["%i\n"]; the level is returned
    here as the number. *)
Definition irq_get : M Z :=
  d <- get_drv ;;
  call (gpio_get_value (irq_gpio d)).

Definition irq_ack (buf : string) (count : Z) : M Z := ret count.

(** *** sysfs node [proximity_state] *)
Definition proximity_state_store (buf : string) (count : Z) : M Z :=
  match kstrtoint buf with
  | None => ret (- EINVAL)
  | Some val =>
      modify_drv (set_proximity_state (truthy val)) ;;;
      d <- get_drv ;;
      (if fb_black d then
         if proximity_state d then config_irq false
         else config_irq true
       else ret tt) ;;;
      ret count
  end.

(** *** [fpc1020_irq_handler] *)
Definition fpc1020_irq_handler (irq : Z) : M Z :=
  d <- get_drv ;;
  call (pm_wakeup_event (ttw_ws d) FPC_TTW_HOLD_TIME) ;;;
  call (sysfs_notify "irq") ;;;
  ret IRQ_HANDLED.

(** *** [fpc1020_request_named_gpio] *)
Definition fpc1020_request_named_gpio
    (label : string) (set_gpio : Z -> fpc1020_data -> fpc1020_data) : M Z :=
  rc <- call (of_get_named_gpio label) ;;
  if rc <? 0 then ret rc
  else
    modify_drv (set_gpio rc) ;;;
    rc' <- call (devm_gpio_request rc label) ;;
    if truthy rc' then ret rc' else ret 0.

(** *** [fpc_fb_notif_callback]

    [evdata] is [None] for a [NULL] [data] argument, [Some None] when
    [evdata->data] is [NULL], [Some (Some b)] when it points to the
    [int] [b].  [fpc1020] comes from [container_of] and is not [NULL]. *)
Definition fpc_fb_notif_callback (val : Z) (evdata : option (option Z))
  : M Z :=
  if negb (val =? FB_EVENT_BLANK) then ret 0
  else
    match evdata with
    | Some (Some b) =>
        let blank := b mod 2 ^ 32 in
        (if blank =? FB_BLANK_POWERDOWN then
           modify_drv (set_fb_black true) ;;;
           d <- get_drv ;;
           if proximity_state d then config_irq false else ret tt
         else if (blank =? FB_BLANK_UNBLANK) || (blank =? FB_BLANK_NORMAL)
         then
           modify_drv (set_fb_black false) ;;;
           config_irq true
         else ret tt) ;;;
        ret NOTIFY_OK
    | _ => ret NOTIFY_OK
    end.

(** *** [fpc1020_get_regulators] *)

(** The loop body for [i], with [n] iterations left. *)
Fixpoint get_regulators_from (i : Z) (n : nat) : M Z :=
  match n with
  | O => ret 0
  | S n' =>
      conf <- index vreg_conf i ;;
      r <- call (devm_regulator_get (name conf)) ;;
      modify_drv (fun d => set_vreg (store (vreg d) (Z.to_nat i) r) d) ;;;
      if IS_ERR_OR_NULL r then
        modify_drv (fun d => set_vreg (store (vreg d) (Z.to_nat i) NULL) d) ;;;
        ret (- EINVAL)
      else get_regulators_from (i + 1) n'
  end.

Definition fpc1020_get_regulators : M Z :=
  get_regulators_from 0 (Z.to_nat FPC_VREG_MAX).

(** *** [fpc1020_probe] *)

Variable cfg : kconfig.

(** The loop that looks up every name of [pctl_names], from slot [i] on. *)
Fixpoint lookup_pin_states_from (i : Z) (names : list string) : M Z :=
  match names with
  | [] => ret 0
  | n :: rest =>
      d <- get_drv ;;
      st <- call (pinctrl_lookup_state (fingerprint_pinctrl d) n) ;;
      if IS_ERR st then ret (- EINVAL)
      else
        modify_drv (fun d =>
          set_pinctrl_state (store (pinctrl_state d) (Z.to_nat i) st) d) ;;;
        lookup_pin_states_from (i + 1) rest
  end.

(** The end of the probe, from the check of the device's ancestors on;
    [rc] is 0 there. *)
Definition probe_soc_symlink (pdev : platform_device) (rc : Z) : M Z :=
  match grandparent_name pdev with
  | None => ret rc
  | Some nm =>
      if negb (String.eqb nm "platform") then ret rc
      else
        call kernfs_get ;;;
        link <- call kernfs_create_link ;;
        put_soc_symlink link ;;;
        call kernfs_put ;;;
        hw_reset ;;;
        modify_drv (set_fb_black false) ;;;
        modify_drv (set_wait_finger_down false) ;;;
        call fb_register_client ;;;
        ret 0
  end.

(** From the request of the interrupt on. *)
Definition probe_irq_and_sysfs (pdev : platform_device) : M Z :=
  modify_drv (set_wakeup_enabled 0) ;;;
  wk <- call (of_property_read_bool "fpc,enable-wakeup") ;;
  (if truthy wk then call (device_init_wakeup 1) ;;; ret tt else ret tt) ;;;
  call mutex_init ;;;
  d <- get_drv ;;
  irq <- call (gpio_to_irq (irq_gpio d)) ;;
  rc <- call (devm_request_threaded_irq irq) ;;
  if truthy rc then ret rc
  else
    irq <- call (gpio_to_irq (irq_gpio d)) ;;
    call (enable_irq_wake irq) ;;;
    ws <- call (wakeup_source_register "fpc_ttw_ws") ;;
    modify_drv (set_ttw_ws ws) ;;;
    rc <- (if CONFIG_TOUCHSCREEN_COMMON cfg then call input_register_handler
           else ret rc) ;;
    if truthy rc then ret rc
    else
      rc <- call sysfs_create_group ;;
      if truthy rc then ret rc
      else
        boot <- call (of_property_read_bool "fpc,enable-on-boot") ;;
        (if truthy boot then device_prepare true else ret tt) ;;;
        probe_soc_symlink pdev rc.

Definition fpc1020_probe (pdev : platform_device) : M Z :=
  mem <- call devm_kzalloc ;;
  if mem =? NULL then ret (- ENOMEM)
  else
    modify_drv (fun _ => fpc1020_zeroed) ;;;
    if CONFIG_MACH_LONGCHEER cfg && negb (fpsensor cfg =? 1) then ret (- 1)
    else if of_node pdev =? NULL then ret (- EINVAL)
    else
      rc <- fpc1020_get_regulators ;;
      if truthy rc then ret rc
      else
        rc <- fpc1020_request_named_gpio "fpc,gpio_irq" set_irq_gpio ;;
        if truthy rc then ret (- EINVAL)
        else
          rc <- fpc1020_request_named_gpio "fpc,gpio_rst" set_rst_gpio ;;
          if truthy rc then ret (- EINVAL)
          else
            pc <- call devm_pinctrl_get ;;
            modify_drv (set_fingerprint_pinctrl pc) ;;;
            if IS_ERR pc then
              if PTR_ERR pc =? - EPROBE_DEFER then ret (- EPROBE_DEFER)
              else
                modify_drv (set_fingerprint_pinctrl NULL) ;;;
                ret (- EINVAL)
            else
              rc <- lookup_pin_states_from 0 pctl_names ;;
              if truthy rc then ret rc
              else
                select_pin_ctl "fpc1020_reset_reset" ;;;
                select_pin_ctl "fpc1020_irq_active" ;;;
                probe_irq_and_sysfs pdev.

(** *** [fpc1020_remove]

    The link is removed unless [soc_symlink] is an error pointer: its
    [parent] and [name] are read through the pointer, also when it is
    [NULL].  The rails are switched off whatever [prepared] says.  The
    interrupt, the GPIOs and the regulators were obtained with the [devm_]
    functions and are released by the device core after [fpc1020_remove]
    returned, not by the driver. *)
Definition fpc1020_remove : M Z :=
  link <- get_soc_symlink ;;
  (if negb (IS_ERR link) then
     deref link ;;;
     call kernfs_remove_by_name ;;;
     ret tt
   else ret tt) ;;;
  call fb_unregister_client ;;;
  call sysfs_remove_group ;;;
  call mutex_destroy ;;;
  d <- get_drv ;;
  call (wakeup_source_unregister (ttw_ws d)) ;;;
  vreg_setup VDD_ANA false ;;;
  vreg_setup VDD_IO false ;;;
  vreg_setup VCC_SPI false ;;;
  ret 0.

End Driver.

(** ** Reading a trace *)

(** The pin-control states selected, in order. *)
Fixpoint pin_selects (cs : list kcall) : list ptr :=
  match cs with
  | [] => []
  | pinctrl_select_state _ st :: t => st :: pin_selects t
  | _ :: t => pin_selects t
  end.

(** The regulators handed to [regulator_enable], in order. *)
Fixpoint rail_enables (cs : list kcall) : list ptr :=
  match cs with
  | [] => []
  | regulator_enable r :: t => r :: rail_enables t
  | _ :: t => rail_enables t
  end.

(** The regulators handed to [regulator_disable], in order. *)
Fixpoint rail_disables (cs : list kcall) : list ptr :=
  match cs with
  | [] => []
  | regulator_disable r :: t => r :: rail_disables t
  | _ :: t => rail_disables t
  end.

(** The regulators asked [regulator_is_enabled], in order. *)
Fixpoint rail_queries (cs : list kcall) : list ptr :=
  match cs with
  | [] => []
  | regulator_is_enabled r :: t => r :: rail_queries t
  | _ :: t => rail_queries t
  end.

(** The load requested of each regulator, in order. *)
Fixpoint rail_loads (cs : list kcall) : list (ptr * Z) :=
  match cs with
  | [] => []
  | regulator_set_load r ua :: t => (r, ua) :: rail_loads t
  | _ :: t => rail_loads t
  end.

(** The interrupt-line primitives called, in order: [true] for
    [enable_irq], [false] for [disable_irq]. *)
Fixpoint irq_toggles (cs : list kcall) : list bool :=
  match cs with
  | [] => []
  | enable_irq _ :: t => true :: irq_toggles t
  | disable_irq _ :: t => false :: irq_toggles t
  | _ :: t => irq_toggles t
  end.

(** The pin selections and the sleeps, in order. *)
Fixpoint pulse (cs : list kcall) : list kcall :=
  match cs with
  | [] => []
  | pinctrl_select_state p st :: t => pinctrl_select_state p st :: pulse t
  | usleep_range a b :: t => usleep_range a b :: pulse t
  | _ :: t => pulse t
  end.

Definition kcall_eq_dec (a b : kcall) : {a = b} + {a <> b}.
Proof. repeat decide equality. Defined.

(** ** Concrete kernels and states, for evaluation *)

Definition count_occ_call (h : list kcall) (c : kcall) : Z :=
  Z.of_nat (count_occ kcall_eq_dec h c).

(** A board where everything is present and every call succeeds.  A
    regulator is enabled while it was enabled more often than disabled. *)
Definition kernel_ok : kernel_t := fun h c =>
  match c with
  | devm_kzalloc => 4096
  | devm_regulator_get n =>
      if String.eqb n "vdd_ana" then 8192
      else if String.eqb n "vcc_spi" then 8208
      else 8224
  | devm_pinctrl_get => 12288
  | pinctrl_lookup_state _ n =>
      if String.eqb n "fpc1020_reset_reset" then 12304
      else if String.eqb n "fpc1020_reset_active" then 12320
      else 12336
  | of_get_named_gpio l => if String.eqb l "fpc,gpio_irq" then 72 else 20
  | gpio_to_irq g => 300 + g
  | wakeup_source_register _ => 16384
  | kernfs_create_link => 20480
  | regulator_count_voltages _ => 1
  | regulator_is_enabled r =>
      if count_occ_call h (regulator_disable r)
         <? count_occ_call h (regulator_enable r) then 1 else 0
  | _ => 0
  end.

(** The same board with every regulator and pin-control request failing
    with [-EIO]. *)
Definition kernel_io_errors : kernel_t := fun h c =>
  match c with
  | pinctrl_select_state _ _ => - 5
  | regulator_set_voltage _ _ _ => - 5
  | regulator_set_load _ _ => - 5
  | regulator_enable _ => - 5
  | regulator_disable _ => - 5
  | _ => kernel_ok h c
  end.

(** The same board with the pin configuration [fpc1020_irq_active] left out
    of the device tree. *)
Definition kernel_no_irq_active : kernel_t := fun h c =>
  match c with
  | pinctrl_lookup_state _ n =>
      if String.eqb n "fpc1020_irq_active" then - ENODEV else kernel_ok h c
  | _ => kernel_ok h c
  end.

Definition board_cfg : kconfig :=
  {| CONFIG_MACH_LONGCHEER := true; CONFIG_TOUCHSCREEN_COMMON := true;
     fpsensor := 1 |}.

Definition board_pdev : platform_device :=
  {| of_node := 2048; grandparent_name := Some "platform" |}.

Definition state_of {A} (o : outcome A) : sys :=
  match o with Done _ s => s | OutOfBounds s => s | NullDeref s => s end.

(** The driver attached on the board where everything succeeds, with the
    trace cleared. *)
Definition attached : sys :=
  Eval vm_compute in
    let s := state_of (fpc1020_probe kernel_ok board_cfg board_pdev
                         module_loaded) in
    {| drv := drv s; irq_enabled := irq_enabled s;
       soc_symlink := soc_symlink s; trace := [] |}.

(** ** Runs of several calls, and the statements they are compared with *)

(** [config_irq] called with each of [targets] in turn. *)
Fixpoint config_irq_seq (k : kernel_t) (targets : list bool) : M unit :=
  match targets with
  | [] => ret tt
  | t :: rest => config_irq k t ;;; config_irq_seq k rest
  end.

(** The targets that differ from the value applied before them, starting
    from [applied]. *)
Fixpoint value_changes (applied : bool) (targets : list bool) : list bool :=
  match targets with
  | [] => []
  | t :: rest =>
      if Bool.eqb t applied then value_changes applied rest
      else t :: value_changes t rest
  end.

(** The reset pulse in the words of the specification: four selections,
    reset-low, reset-high, reset-low, reset-high, with 5000-5100 us after
    each reset-low and 100-200 us after each reset-high.  [lo] is the state
    of [fpc1020_reset_reset], [hi] the state of [fpc1020_reset_active]. *)
Definition hw_reset_spec_pulse (p lo hi : ptr) : list kcall :=
  [ pinctrl_select_state p lo; usleep_range 5000 5100;
    pinctrl_select_state p hi; usleep_range 100 200;
    pinctrl_select_state p lo; usleep_range 5000 5100;
    pinctrl_select_state p hi; usleep_range 100 200 ].

(** [hw_reset] run from [s] makes the selections and sleeps of the
    specification's pulse. *)
Definition hw_reset_as_specified (k : kernel_t) (s : sys) : Prop :=
  exists s' calls,
    hw_reset k s = Done tt s'
    /\ trace s' = trace s ++ calls
    /\ pulse calls =
       hw_reset_spec_pulse (fingerprint_pinctrl (drv s))
         (nth 0 (pinctrl_state (drv s)) NULL)
         (nth 1 (pinctrl_state (drv s)) NULL).

(** The calls [vreg_setup] makes to enable the regulator [r] with the
    configuration [conf], after the calls [h]. *)
Definition vreg_enable_calls (k : kernel_t) (h : list kcall) (r : ptr)
    (conf : vreg_config) : list kcall :=
  regulator_count_voltages r
  :: (if k h (regulator_count_voltages r) >? 0
      then [regulator_set_voltage r (vmin conf) (vmax conf)] else [])
  ++ [regulator_set_load r (ua_load conf); regulator_enable r].

(** The calls [vreg_setup] makes to disable the regulator [r], after the
    calls [h]. *)
Definition vreg_disable_calls (k : kernel_t) (h : list kcall) (r : ptr)
  : list kcall :=
  regulator_is_enabled r
  :: (if truthy (k h (regulator_is_enabled r))
      then [regulator_disable r] else []).

(** The fusion table of the specification: the target of the gate for a
    display that is [blanked] or not and a sensor that is [covered] or not. *)
Definition fusion (blanked covered : bool) : bool :=
  match blanked, covered with
  | true, true => false
  | true, false => true
  | false, true => true
  | false, false => true
  end.

(** The gate is where the table puts it. *)
Definition gate_agrees (s : sys) : Prop :=
  irq_enabled s = fusion (fb_black (drv s)) (proximity_state (drv s)).

(** An update of the policy inputs in the words of the specification: the
    input is recorded, the target is computed by the table, and
    [config_irq] is called with it. *)
Definition policy_update_spec (k : kernel_t)
    (record : fpc1020_data -> fpc1020_data) : M unit :=
  modify_drv record ;;;
  d <- get_drv ;;
  config_irq k (fusion (fb_black d) (proximity_state d)).

(** From [s], every update of either input is such an update. *)
Definition policy_as_specified (k : kernel_t) (s : sys) : Prop :=
  (forall buf count val,
      kstrtoint buf = Some val ->
      proximity_state_store k buf count s =
      (policy_update_spec k (set_proximity_state (truthy val)) ;;;
       ret count) s)
  /\ fpc_fb_notif_callback k FB_EVENT_BLANK (Some (Some FB_BLANK_POWERDOWN)) s
     = (policy_update_spec k (set_fb_black true) ;;; ret NOTIFY_OK) s
  /\ (forall b,
        b = FB_BLANK_UNBLANK \/ b = FB_BLANK_NORMAL ->
        fpc_fb_notif_callback k FB_EVENT_BLANK (Some (Some b)) s
        = (policy_update_spec k (set_fb_black false) ;;; ret NOTIFY_OK) s).

(** The calls by which [fpc1020_probe] obtains its resources, up to and
    including the look-up of the pin-control states. *)
Definition resource_lookup_call (c : kcall) : bool :=
  match c with
  | devm_kzalloc | devm_regulator_get _ | of_get_named_gpio _
  | devm_gpio_request _ _ | devm_pinctrl_get | pinctrl_lookup_state _ _ => true
  | _ => false
  end.

(** ** The ways into the attached driver *)

(** The sysfs attributes of [attributes[]], by the names [DEVICE_ATTR]
    gives them. *)
Inductive attribute : Type :=
| dev_attr_pinctl_set
| dev_attr_device_prepare
| dev_attr_regulator_enable
| dev_attr_hw_reset
| dev_attr_wakeup_enable
| dev_attr_clk_enable
| dev_attr_irq
| dev_attr_fingerdown_wait
| dev_attr_proximity_state.

Definition attributes : list attribute :=
  [ dev_attr_pinctl_set; dev_attr_device_prepare; dev_attr_regulator_enable;
    dev_attr_hw_reset; dev_attr_wakeup_enable; dev_attr_clk_enable;
    dev_attr_irq; dev_attr_fingerdown_wait; dev_attr_proximity_state ].

(** The [store] method [DEVICE_ATTR_WO] and [DEVICE_ATTR] bind to each
    attribute. *)
Definition attr_store (k : kernel_t) (a : attribute) : string -> Z -> M Z :=
  match a with
  | dev_attr_pinctl_set => pinctl_set_store k
  | dev_attr_device_prepare => device_prepare_store k
  | dev_attr_regulator_enable => regulator_enable_store k
  | dev_attr_hw_reset => hw_reset_store k
  | dev_attr_wakeup_enable => wakeup_enable_store k
  | dev_attr_clk_enable => clk_enable_store
  | dev_attr_irq => irq_ack
  | dev_attr_fingerdown_wait => fingerdown_wait_store
  | dev_attr_proximity_state => proximity_state_store k
  end.

(** One entry into the driver after it is attached: a write to an
    attribute, a read of [irq] (the only attribute with a [show] method), a
    hardware interrupt, a notification of the framebuffer chain. *)
Inductive entry : Type :=
| sysfs_write (a : attribute) (buf : string) (count : Z)
| sysfs_read_irq
| interrupt (irq : Z)
| fb_notify (val : Z) (evdata : option (option Z)).

Definition enter (k : kernel_t) (e : entry) : M Z :=
  match e with
  | sysfs_write a buf count => attr_store k a buf count
  | sysfs_read_irq => irq_get k
  | interrupt irq => fpc1020_irq_handler k irq
  | fb_notify val evdata => fpc_fb_notif_callback k val evdata
  end.

(** The entries of a list, one after the other. *)
Fixpoint enter_all (k : kernel_t) (es : list entry) : M unit :=
  match es with
  | [] => ret tt
  | e :: rest => enter k e ;;; enter_all k rest
  end.

Definition rail_names : list string := [ "vdd_ana"; "vcc_spi"; "vdd_io" ].

(** A write to [regulator_enable] that either does not parse into a name
    and [e] or [d], or names one of the three rails. *)
Definition names_rail (buf : string) : bool :=
  let '(n, nm, op) := sscanf_name_op buf in
  negb (n =? NUM_PARAMS_REG_ENABLE_SET)
  || negb (Ascii.eqb op "e" || Ascii.eqb op "d")
  || existsb (String.eqb nm) rail_names.

Definition names_rail_entry (e : entry) : bool :=
  match e with
  | sysfs_write dev_attr_regulator_enable buf _ => names_rail buf
  | _ => true
  end.

(** Both arrays of the driver data have their three slots. *)
Definition wf_arrays (s : sys) : Prop :=
  List.length (pinctrl_state (drv s)) = 3%nat
  /\ List.length (vreg (drv s)) = 3%nat.

(** The mutex along a trace: [held] says whether it is held before the
    calls; the result is whether it is held after them, and [None] when
    the mutex is locked while held or unlocked while free. *)
Fixpoint well_locked (held : bool) (cs : list kcall) : option bool :=
  match cs with
  | [] => Some held
  | mutex_lock :: t => if held then None else well_locked true t
  | mutex_unlock :: t => if held then well_locked false t else None
  | _ :: t => well_locked held t
  end.

(** The interrupt line along a trace: [enabled] is its state before the
    calls; the result is its state after them, and [None] when the line is
    enabled while enabled or disabled while disabled. *)
Fixpoint line_toggled (enabled : bool) (cs : list kcall) : option bool :=
  match cs with
  | [] => Some enabled
  | enable_irq _ :: t => if enabled then None else line_toggled true t
  | disable_irq _ :: t => if enabled then line_toggled false t else None
  | _ :: t => line_toggled enabled t
  end.

(** What a successful [fpc1020_probe] leaves in the driver data. *)
Definition attached_data (d : fpc1020_data) : Prop :=
  exists r0 lo hi irq,
    vreg d = [r0; NULL; NULL]
    /\ IS_ERR_OR_NULL r0 = false
    /\ pinctrl_state d = [lo; hi; irq]
    /\ IS_ERR lo = false /\ IS_ERR hi = false /\ IS_ERR irq = false
    /\ IS_ERR (fingerprint_pinctrl d) = false
    /\ 0 <= irq_gpio d /\ 0 <= rst_gpio d
    /\ wakeup_enabled d = 0
    /\ fb_black d = false
    /\ proximity_state d = false
    /\ wait_finger_down d = false.

(** [returns o Q]: the run [o] returned, with a value and a state in [Q]. *)
Definition returns {A} (o : outcome A) (Q : A -> sys -> Prop) : Prop :=
  match o with
  | Done a s => Q a s
  | OutOfBounds _ => False
  | NullDeref _ => False
  end.

(** [completes h h' m]: run from a state whose arrays have their slots,
    with the mutex held or not as [h] says, [m] returns (it reads no array
    out of bounds), leaves the arrays with their slots, and uses the mutex
    in order, leaving it as [h'] says. *)
Definition completes (h h' : bool) {A} (m : M A) : Prop :=
  forall s, wf_arrays s ->
    exists a s' calls,
      m s = Done a s'
      /\ wf_arrays s'
      /\ trace s' = trace s ++ calls
      /\ well_locked h calls = Some h'.

(** The calls other than those on the mutex. *)
Definition lock_free (c : kcall) : bool :=
  match c with
  | mutex_lock | mutex_unlock => false
  | _ => true
  end.

(** A session on the attached board, for evaluation. *)
Definition session : list entry :=
  [ sysfs_write dev_attr_device_prepare "enable" 6;
    fb_notify FB_EVENT_BLANK (Some (Some FB_BLANK_POWERDOWN));
    sysfs_write dev_attr_proximity_state "1" 1;
    sysfs_write dev_attr_regulator_enable "vcc_spi,d" 9;
    sysfs_write dev_attr_pinctl_set "no_such_state" 13;
    interrupt 372;
    fb_notify FB_EVENT_BLANK (Some (Some FB_BLANK_UNBLANK));
    sysfs_write dev_attr_hw_reset "reset" 5 ].

(** The sensor is covered and the display is then blanked: on an attached
    driver whose gate is enabled this disables it. *)
Definition covered_and_blanked : list entry :=
  [ sysfs_write dev_attr_proximity_state "1" 1;
    fb_notify FB_EVENT_BLANK (Some (Some FB_BLANK_POWERDOWN)) ].

(** [tracks_line m]: along the calls of a run of [m] (up to where it
    stops), the interrupt line is only enabled while disabled and disabled
    while enabled, when its state before the run is what the static
    [irq_enabled] says; and [irq_enabled] says its state after the run. *)
Definition tracks_line {A} (m : M A) : Prop :=
  forall s, exists calls,
    trace (state_of (m s)) = trace s ++ calls
    /\ line_toggled (irq_enabled s) calls = Some (irq_enabled (state_of (m s))).

(** What the policy goes by: the gate, the display and the proximity
    state. *)
Definition policy_inputs (s : sys) : bool * bool * bool :=
  (irq_enabled s, fb_black (drv s), proximity_state (drv s)).

(** [quiet m]: a run of [m] leaves the gate, the display state and the
    proximity state as it found them. *)
Definition quiet {A} (m : M A) : Prop :=
  forall s, policy_inputs (state_of (m s)) = policy_inputs s.

(** [only_calls allowed m]: every call of a run of [m], up to where it
    stops, is in [allowed]. *)
Definition only_calls (allowed : kcall -> bool) {A} (m : M A) : Prop :=
  forall s, exists calls,
    trace (state_of (m s)) = trace s ++ calls
    /\ forallb allowed calls = true.

(** Any call but a request for a regulator other than [vdd_ana]. *)
Definition no_other_regulator (c : kcall) : bool :=
  match c with
  | devm_regulator_get n => String.eqb n "vdd_ana"
  | _ => true
  end.

(** Any call but those of the end of the probe: the link under the
    devices directory, the reset pulse (the only reader of the interrupt
    line in the probe) and the registration for display notifications. *)
Definition no_probe_tail (c : kcall) : bool :=
  match c with
  | kernfs_get | kernfs_create_link | kernfs_put | gpio_get_value _
  | fb_register_client => false
  | _ => true
  end.

(** A board whose device has no parent. *)
Definition orphan_pdev : platform_device :=
  {| of_node := 2048; grandparent_name := None |}.

(** Whether a string ends with the character [c]. *)
Fixpoint ends_with (c : ascii) (s : string) : bool :=
  match s with
  | EmptyString => false
  | String a EmptyString => Ascii.eqb a c
  | String _ rest => ends_with c rest
  end.

(** Two driver data that agree in every field but [wakeup_enabled]. *)
Definition same_but_wake (d1 d2 : fpc1020_data) : Prop :=
  fingerprint_pinctrl d1 = fingerprint_pinctrl d2
  /\ pinctrl_state d1 = pinctrl_state d2
  /\ vreg d1 = vreg d2
  /\ ttw_ws d1 = ttw_ws d2
  /\ irq_gpio d1 = irq_gpio d2
  /\ rst_gpio d1 = rst_gpio d2
  /\ prepared d1 = prepared d2
  /\ fb_black d1 = fb_black d2
  /\ wait_finger_down d1 = wait_finger_down d2
  /\ proximity_state d1 = proximity_state d2.

(** Two states that agree in everything but the wake flag. *)
Definition same_but_wake_sys (s1 s2 : sys) : Prop :=
  same_but_wake (drv s1) (drv s2)
  /\ irq_enabled s1 = irq_enabled s2
  /\ soc_symlink s1 = soc_symlink s2
  /\ trace s1 = trace s2.

(** Two runs that end the same way, with the same value, in states that
    agree in everything but the wake flag. *)
Definition same_outcome {A} (o1 o2 : outcome A) : Prop :=
  match o1, o2 with
  | Done a1 s1, Done a2 s2 => a1 = a2 /\ same_but_wake_sys s1 s2
  | OutOfBounds s1, OutOfBounds s2 => same_but_wake_sys s1 s2
  | NullDeref s1, NullDeref s2 => same_but_wake_sys s1 s2
  | _, _ => False
  end.

(** [m1] and [m2] cannot tell two such states apart. *)
Definition wake_blind {A} (m1 m2 : M A) : Prop :=
  forall s1 s2, same_but_wake_sys s1 s2 -> same_outcome (m1 s1) (m2 s2).

(** The attached board after a power-up in which every pin-control and
    regulator request failed. *)
Definition powered_up : sys :=
  Eval vm_compute in
    state_of (device_prepare kernel_io_errors true attached).

(** ** Updates of the policy that overlap

    [proximity_state_store] records its input and chooses the target of the
    gate before [config_irq] takes the mutex, so that another entry can run
    between the choice and the call.  The write is split at that point. *)

(** Up to the call of [config_irq]: the value is recorded and the target
    chosen; [None] when [config_irq] is not called. *)
Definition proximity_state_chosen (val : Z) : M (option bool) :=
  modify_drv (set_proximity_state (truthy val)) ;;;
  d <- get_drv ;;
  ret (if fb_black d
       then if proximity_state d then Some false else Some true
       else None).

(** From the call of [config_irq] on. *)
Definition proximity_state_applied (k : kernel_t) (target : option bool)
    (count : Z) : M Z :=
  match target with
  | Some t => config_irq k t
  | None => ret tt
  end ;;;
  ret count.

(** The write of [val] with the entry [e] run between the two halves. *)
Definition proximity_write_overlapped (k : kernel_t) (val count : Z)
    (e : entry) : M Z :=
  target <- proximity_state_chosen val ;;
  enter k e ;;;
  proximity_state_applied k target count.

(** [keeps_link m]: a run of [m] leaves the file-level [soc_symlink] as it
    found it. *)
Definition keeps_link {A} (m : M A) : Prop :=
  forall s, soc_symlink (state_of (m s)) = soc_symlink s.

(** * Properties *)

(** ** The state and the trace *)

Lemma log_log (s : sys) (a b : list kcall) :
  log (log s a) b = log s (a ++ b).
Proof. unfold log; simpl. now rewrite app_assoc. Qed.

Lemma last_nonempty {A} (l : list A) (a d d' : A) :
  last (a :: l) d = last (a :: l) d'.
Proof.
  revert a; induction l as [|b l IH]; intros a; [reflexivity|].
  change (last (b :: l) d = last (b :: l) d'). apply IH.
Qed.

(** ** The interrupt gate *)

(** What one call of [config_irq] does, by cases on the target. *)
Lemma config_irq_run (k : kernel_t) (target : bool) (s : sys) :
  config_irq k target s =
  if Bool.eqb target (irq_enabled s)
  then Done tt (log s [mutex_lock; mutex_unlock])
  else
    let irq := k (trace s ++ [mutex_lock]) (gpio_to_irq (irq_gpio (drv s))) in
    Done tt (upd_irq_enabled target
               (log s [mutex_lock; gpio_to_irq (irq_gpio (drv s));
                       if target then enable_irq irq else disable_irq irq;
                       mutex_unlock])).
Proof.
  unfold config_irq, bind, call, get_irq_enabled, get_drv, put_irq_enabled, ret.
  simpl.
  destruct (Bool.eqb target (irq_enabled s)) eqn:E; simpl.
  - now rewrite log_log.
  - destruct target; simpl; unfold upd_irq_enabled, log; simpl;
      rewrite <- !app_assoc; reflexivity.
Qed.

Lemma config_irq_seq_run (k : kernel_t) (targets : list bool) :
  forall s, exists s' calls,
    config_irq_seq k targets s = Done tt s'
    /\ trace s' = trace s ++ calls
    /\ irq_toggles calls = value_changes (irq_enabled s) targets
    /\ irq_enabled s' = last targets (irq_enabled s)
    /\ drv s' = drv s.
Proof.
  induction targets as [|t rest IH]; intros s.
  - exists s, []. simpl. rewrite app_nil_r. auto.
  - cbn [config_irq_seq value_changes]. unfold bind.
    rewrite config_irq_run.
    destruct (Bool.eqb t (irq_enabled s)) eqn:E.
    + destruct (IH (log s [mutex_lock; mutex_unlock]))
        as (s' & calls & Hrun & Htr & Htog & Hlast & Hdrv).
      exists s', ([mutex_lock; mutex_unlock] ++ calls).
      rewrite Hrun. split; [reflexivity|]. simpl in *.
      rewrite Htr, <- app_assoc. split; [reflexivity|].
      split; [exact Htog|]. split; [|exact Hdrv].
      rewrite Hlast. apply Bool.eqb_prop in E. subst t.
      destruct rest; reflexivity.
    + cbv zeta.
      match goal with
      | |- context [upd_irq_enabled t (log s ?cs)] =>
          destruct (IH (upd_irq_enabled t (log s cs)))
            as (s' & calls & Hrun & Htr & Htog & Hlast & Hdrv);
          exists s', (cs ++ calls)
      end.
      rewrite Hrun. split; [reflexivity|]. simpl in *.
      rewrite Htr, <- app_assoc. split; [reflexivity|].
      split; [|split; [|exact Hdrv]].
      * rewrite <- Htog. destruct t; reflexivity.
      * rewrite Hlast. destruct rest; [reflexivity|].
        change (last (t :: b :: rest) (irq_enabled s))
          with (last (b :: rest) (irq_enabled s)).
        apply last_nonempty.
Qed.

(** *** Only [config_irq] writes the gate

    [keeps_gate m]: a run of [m] leaves the static [irq_enabled] as it
    found it. *)
Definition keeps_gate {A} (m : M A) : Prop :=
  forall s, irq_enabled (state_of (m s)) = irq_enabled s.

Lemma keeps_ret {A} (a : A) : keeps_gate (ret a).
Proof. intros s; reflexivity. Qed.

Lemma keeps_bind {A B} (m : M A) (f : A -> M B) :
  keeps_gate m -> (forall a, keeps_gate (f a)) -> keeps_gate (bind m f).
Proof.
  intros Hm Hf s. unfold bind. specialize (Hm s).
  destruct (m s) as [a s1|s1|s1]; simpl in *; [|exact Hm..].
  rewrite Hf. exact Hm.
Qed.

Lemma keeps_call (k : kernel_t) (c : kcall) : keeps_gate (call k c).
Proof. intros s; reflexivity. Qed.

Lemma keeps_get_drv : keeps_gate get_drv.
Proof. intros s; reflexivity. Qed.

Lemma keeps_modify_drv (f : fpc1020_data -> fpc1020_data) :
  keeps_gate (modify_drv f).
Proof. intros s; reflexivity. Qed.

Lemma keeps_put_soc_symlink (p : ptr) : keeps_gate (put_soc_symlink p).
Proof. intros s; reflexivity. Qed.

Lemma keeps_index {A} (a : list A) (i : Z) : keeps_gate (index a i).
Proof.
  intros s. unfold index. destruct (lookup a i); reflexivity.
Qed.

Create HintDb gate.
#[local] Hint Resolve keeps_ret keeps_call keeps_get_drv keeps_modify_drv
  keeps_put_soc_symlink keeps_index : gate.

(** Walks through a monadic term, one bind or one branch at a time. *)
Ltac keeps_step :=
  match goal with
  | |- keeps_gate (bind _ _) => apply keeps_bind; [|intros]
  | |- keeps_gate (if ?c then _ else _) => destruct c
  | |- keeps_gate (match ?c with _ => _ end) => destruct c
  | |- keeps_gate _ => solve [auto with gate]
  end.
Ltac keeps := repeat keeps_step.

Lemma keeps_select_pin_ctl (k : kernel_t) (nm : string) :
  keeps_gate (select_pin_ctl k nm).
Proof.
  unfold select_pin_ctl. generalize 0 as i. generalize pctl_names as names.
  induction names as [|n rest IH]; intros i; cbn [select_pin_ctl_from].
  - keeps.
  - destruct (String.eqb n nm); [keeps | apply IH].
Qed.

Lemma keeps_vreg_setup (k : kernel_t) (rail : Z) (enable : bool) :
  keeps_gate (vreg_setup k rail enable).
Proof. unfold vreg_setup. keeps. Qed.

#[local] Hint Resolve keeps_select_pin_ctl keeps_vreg_setup : gate.

Lemma keeps_hw_reset (k : kernel_t) : keeps_gate (hw_reset k).
Proof. unfold hw_reset. keeps. Qed.

Lemma keeps_device_prepare (k : kernel_t) (enable : bool) :
  keeps_gate (device_prepare k enable).
Proof. unfold device_prepare. keeps. Qed.

Lemma keeps_get_regulators (k : kernel_t) : keeps_gate (fpc1020_get_regulators k).
Proof.
  unfold fpc1020_get_regulators. generalize 0 as i.
  induction (Z.to_nat FPC_VREG_MAX) as [|n IH]; intros i;
    cbn [get_regulators_from].
  - keeps.
  - keeps.
Qed.

Lemma keeps_request_named_gpio (k : kernel_t) (label : string)
    (set_gpio : Z -> fpc1020_data -> fpc1020_data) :
  keeps_gate (fpc1020_request_named_gpio k label set_gpio).
Proof. unfold fpc1020_request_named_gpio. keeps. Qed.

Lemma keeps_lookup_pin_states (k : kernel_t) (names : list string) :
  forall i, keeps_gate (lookup_pin_states_from k i names).
Proof.
  induction names as [|n rest IH]; intros i; cbn [lookup_pin_states_from].
  - keeps.
  - keeps.
Qed.

#[local] Hint Resolve keeps_hw_reset keeps_device_prepare keeps_get_regulators
  keeps_request_named_gpio keeps_lookup_pin_states : gate.

Lemma keeps_probe (k : kernel_t) (cfg : kconfig) (pdev : platform_device) :
  keeps_gate (fpc1020_probe k cfg pdev).
Proof.
  unfold fpc1020_probe, probe_irq_and_sysfs, probe_soc_symlink. keeps.
Qed.

(** C1 (the code at the failing input).  The last-applied state is the
    static [irq_enabled] of [config_irq].  It is [true] when the module is
    loaded and still [true] after the first [fpc1020_probe]; but the probe
    never writes it, so it is not set to [true] at attach: it keeps the
    value the previous attachment left.  On the board, cover the sensor and
    blank the display (the gate is disabled), detach the driver and attach
    it again: the probe returns 0, [devm_request_threaded_irq] hands over an
    enabled line and the probe calls no [disable_irq], yet the last-applied
    state is [false].  From there [config_irq] with [true] calls
    [enable_irq] on the enabled line, and covering the sensor and blanking
    the display calls no [disable_irq]: the line stays enabled.

    The rest of the claim holds from every state: one call of [config_irq]
    leaves the last-applied state equal to its target, calls no primitive
    when the target is the last-applied state and otherwise calls exactly
    the one primitive of the target ([enable_irq] for [true], [disable_irq]
    for [false]); over any sequence of calls the primitives called are, in
    order, exactly the targets that changed the value. *)
Theorem config_irq_single_transition :
  irq_enabled module_loaded = true
  /\ (forall k cfg pdev,
        irq_enabled (state_of (fpc1020_probe k cfg pdev module_loaded)) = true)
  /\ (forall k cfg pdev s,
        irq_enabled (state_of (fpc1020_probe k cfg pdev s)) = irq_enabled s)
  /\ (exists s1 s2 s3 s4,
        fpc1020_probe kernel_ok board_cfg board_pdev module_loaded = Done 0 s1
        /\ enter_all kernel_ok covered_and_blanked s1 = Done tt s2
        /\ irq_enabled s2 = false
        /\ fpc1020_remove kernel_ok s2 = Done 0 s3
        /\ fpc1020_probe kernel_ok board_cfg board_pdev s3 = Done 0 s4
        /\ irq_enabled s4 = false
        /\ (exists calls,
              trace s4 = trace s3 ++ calls
              /\ In (devm_request_threaded_irq 372) calls
              /\ irq_toggles calls = [])
        /\ (exists calls,
              trace (state_of (config_irq kernel_ok true s4))
              = trace s4 ++ calls
              /\ irq_toggles calls = [true])
        /\ (exists s5 calls,
              enter_all kernel_ok covered_and_blanked s4 = Done tt s5
              /\ trace s5 = trace s4 ++ calls
              /\ fb_black (drv s5) = true
              /\ proximity_state (drv s5) = true
              /\ irq_toggles calls = []))
  /\ (forall k target s,
        exists s' calls,
          config_irq k target s = Done tt s'
          /\ trace s' = trace s ++ calls
          /\ irq_enabled s' = target
          /\ drv s' = drv s
          /\ irq_toggles calls =
             if Bool.eqb target (irq_enabled s) then [] else [target])
  /\ (forall k targets s,
        exists s' calls,
          config_irq_seq k targets s = Done tt s'
          /\ trace s' = trace s ++ calls
          /\ irq_toggles calls = value_changes (irq_enabled s) targets
          /\ irq_enabled s' = last targets (irq_enabled s)
          /\ drv s' = drv s).
Proof.
  split; [reflexivity|]. split; [|split; [|split; [|split]]].
  - intros k cfg pdev. now rewrite keeps_probe.
  - intros k cfg pdev s. apply keeps_probe.
  - do 4 eexists.
    do 6 (split; [vm_compute; reflexivity|]).
    split; [|split].
    + eexists. split; [vm_compute; reflexivity|].
      split; [|reflexivity]. vm_compute. tauto.
    + eexists. split; [vm_compute; reflexivity|]. reflexivity.
    + do 2 eexists. split; [vm_compute; reflexivity|].
      split; [vm_compute; reflexivity|]. repeat split.
  - intros k target s. rewrite config_irq_run.
    destruct (Bool.eqb target (irq_enabled s)) eqn:E.
    + exists (log s [mutex_lock; mutex_unlock]), [mutex_lock; mutex_unlock].
      apply Bool.eqb_prop in E. repeat split; simpl; auto.
    + cbv zeta.
      match goal with
      | |- context [upd_irq_enabled target (log s ?cs)] =>
          exists (upd_irq_enabled target (log s cs)), cs
      end.
      repeat split. destruct target; reflexivity.
  - intros k targets s. apply config_irq_seq_run.
Qed.

(** ** Pin selection and the reset pulse *)

(** Unfolds the monad, so that a run computes. *)
Ltac run_monad :=
  unfold bind, call, ret, get_drv, modify_drv, get_irq_enabled,
    put_irq_enabled, put_soc_symlink, index in *.

(** With the three states looked up at probe time in their slots, a
    selection by name is one [pinctrl_select_state] call, whose result is
    returned. *)
Lemma select_pin_ctl_run (k : kernel_t) (s : sys) (lo hi irq : ptr) :
  pinctrl_state (drv s) = [lo; hi; irq] ->
  let p := fingerprint_pinctrl (drv s) in
  select_pin_ctl k "fpc1020_reset_reset" s =
    Done (k (trace s) (pinctrl_select_state p lo))
         (log s [pinctrl_select_state p lo])
  /\ select_pin_ctl k "fpc1020_reset_active" s =
    Done (k (trace s) (pinctrl_select_state p hi))
         (log s [pinctrl_select_state p hi])
  /\ select_pin_ctl k "fpc1020_irq_active" s =
    Done (k (trace s) (pinctrl_select_state p irq))
         (log s [pinctrl_select_state p irq]).
Proof.
  intros H p. unfold select_pin_ctl. cbn. run_monad. rewrite H. cbn.
  repeat split.
Qed.

Lemma select_reset_reset (k : kernel_t) (s : sys) (lo hi irq : ptr) :
  pinctrl_state (drv s) = [lo; hi; irq] ->
  select_pin_ctl k "fpc1020_reset_reset" s =
    Done (k (trace s) (pinctrl_select_state (fingerprint_pinctrl (drv s)) lo))
         (log s [pinctrl_select_state (fingerprint_pinctrl (drv s)) lo]).
Proof. intros H. apply (select_pin_ctl_run k s lo hi irq H). Qed.

Lemma select_reset_active (k : kernel_t) (s : sys) (lo hi irq : ptr) :
  pinctrl_state (drv s) = [lo; hi; irq] ->
  select_pin_ctl k "fpc1020_reset_active" s =
    Done (k (trace s) (pinctrl_select_state (fingerprint_pinctrl (drv s)) hi))
         (log s [pinctrl_select_state (fingerprint_pinctrl (drv s)) hi]).
Proof. intros H. apply (select_pin_ctl_run k s lo hi irq H). Qed.

(** A name outside [pctl_names] selects nothing. *)
Lemma select_pin_ctl_unknown (k : kernel_t) (nm : string) (s : sys) :
  ~ In nm pctl_names -> select_pin_ctl k nm s = Done (- EINVAL) s.
Proof.
  intros H. unfold select_pin_ctl, pctl_names in *. cbn [select_pin_ctl_from].
  repeat match goal with
  | |- context [String.eqb ?a nm] =>
      destruct (String.eqb_spec a nm) as [?|?];
        [exfalso; apply H; simpl; tauto|]
  end.
  reflexivity.
Qed.

Lemma hw_reset_run (k : kernel_t) (s : sys) (lo hi irq : ptr) :
  pinctrl_state (drv s) = [lo; hi; irq] ->
  let p := fingerprint_pinctrl (drv s) in
  let g := irq_gpio (drv s) in
  hw_reset k s =
  Done tt (log s [ gpio_get_value g;
                   pinctrl_select_state p hi;
                   usleep_range 100 200;
                   pinctrl_select_state p lo;
                   usleep_range 5000 5100;
                   pinctrl_select_state p hi;
                   usleep_range 5000 5100;
                   gpio_get_value g ]).
Proof.
  intros H p g. unfold hw_reset, bind at 1 2. unfold get_drv at 1, call at 1.
  unfold bind at 1.
  rewrite (select_reset_active k _ lo hi irq) by exact H.
  unfold bind at 1, call at 1. unfold bind at 1.
  rewrite (select_reset_reset k _ lo hi irq) by exact H.
  unfold bind at 1, call at 1. unfold bind at 1.
  rewrite (select_reset_active k _ lo hi irq) by exact H.
  run_monad. cbn. rewrite !log_log. reflexivity.
Qed.

(** C2 (as stated, refuted).  On the attached board [hw_reset] does not make
    the four selections low, high, low, high of the specification: it makes
    three, high, low, high. *)
Lemma hw_reset_not_four_selections :
  ~ hw_reset_as_specified kernel_ok attached.
Proof.
  intros (s' & calls & Hrun & Htr & Hpulse).
  vm_compute in Hrun. injection Hrun as <-.
  simpl in Htr. subst calls. vm_compute in Hpulse. discriminate Hpulse.
Qed.

(** C2 (amended).  Whatever the kernel answers, [hw_reset] reads the
    interrupt line, selects reset-high ([fpc1020_reset_active]) and holds
    100-200 us, selects reset-low ([fpc1020_reset_reset]) and holds
    5000-5100 us, selects reset-high again and holds 5000-5100 us, and reads
    the interrupt line again: three selections, none of them skipped when a
    call fails. *)
Theorem hw_reset_three_step_pulse (k : kernel_t) (s : sys) (lo hi irq : ptr) :
  pinctrl_state (drv s) = [lo; hi; irq] ->
  let p := fingerprint_pinctrl (drv s) in
  let g := irq_gpio (drv s) in
  let calls := [ gpio_get_value g;
                 pinctrl_select_state p hi;
                 usleep_range RESET_HIGH_SLEEP1_MIN_US RESET_HIGH_SLEEP1_MAX_US;
                 pinctrl_select_state p lo;
                 usleep_range RESET_LOW_SLEEP_MIN_US RESET_LOW_SLEEP_MAX_US;
                 pinctrl_select_state p hi;
                 usleep_range RESET_HIGH_SLEEP2_MIN_US RESET_HIGH_SLEEP2_MAX_US;
                 gpio_get_value g ] in
  hw_reset k s = Done tt (log s calls)
  /\ pin_selects calls = [hi; lo; hi]
  /\ pulse calls = [ pinctrl_select_state p hi; usleep_range 100 200;
                     pinctrl_select_state p lo; usleep_range 5000 5100;
                     pinctrl_select_state p hi; usleep_range 5000 5100 ].
Proof.
  intros H p g calls. split; [|split; reflexivity].
  apply (hw_reset_run k s lo hi irq H).
Qed.

Lemma hw_reset_three_step_pulse_witness :
  pinctrl_state (drv attached) = [12304; 12320; 12336]
  /\ hw_reset kernel_io_errors attached =
     Done tt (log attached
       [ gpio_get_value 72; pinctrl_select_state 12288 12320;
         usleep_range 100 200; pinctrl_select_state 12288 12304;
         usleep_range 5000 5100; pinctrl_select_state 12288 12320;
         usleep_range 5000 5100; gpio_get_value 72 ]).
Proof.
  split; [reflexivity|].
  apply (hw_reset_three_step_pulse kernel_io_errors attached
           12304 12320 12336 eq_refl).
Defined.

(** ** Rails and the power state *)

Ltac normalize_trace :=
  unfold upd_drv, log; cbn [drv irq_enabled soc_symlink trace];
  rewrite <- ?app_assoc; cbn [app].

(** Enabling the rail in slot [rail]: the regulator's voltage is set when
    it can be, its load is set, it is enabled, and the result of
    [regulator_enable] is returned. *)
Lemma vreg_setup_enable_run (k : kernel_t) (s : sys) (rail : Z) (r : ptr)
    (conf : vreg_config) :
  lookup (vreg (drv s)) rail = Some r ->
  lookup vreg_conf rail = Some conf ->
  r <> NULL ->
  exists rc,
    vreg_setup k rail true s =
    Done rc (log s (vreg_enable_calls k (trace s) r conf)).
Proof.
  intros Hr Hc Hnz. apply Z.eqb_neq in Hnz.
  unfold vreg_setup, vreg_enable_calls. run_monad.
  rewrite Hr, Hnz, Hc.
  destruct (k (trace s) (regulator_count_voltages r) >? 0);
    eexists; rewrite ?Hc; normalize_trace; reflexivity.
Qed.

(** The value of that run: what the kernel answered to [regulator_enable],
    the last of the calls. *)
Lemma vreg_setup_enable_result (k : kernel_t) (s : sys) (rail : Z) (r : ptr)
    (conf : vreg_config) :
  lookup (vreg (drv s)) rail = Some r ->
  lookup vreg_conf rail = Some conf ->
  r <> NULL ->
  let calls := vreg_enable_calls k (trace s) r conf in
  vreg_setup k rail true s =
  Done (k (trace s ++ removelast calls) (regulator_enable r)) (log s calls).
Proof.
  intros Hr Hc Hnz calls. subst calls. apply Z.eqb_neq in Hnz.
  unfold vreg_setup, vreg_enable_calls. run_monad.
  rewrite Hr, Hnz, Hc.
  destruct (k (trace s) (regulator_count_voltages r) >? 0);
    rewrite ?Hc; cbn [app removelast]; normalize_trace; reflexivity.
Qed.

(** Disabling the rail in slot [rail]: [regulator_disable] is called only
    when the kernel reports the regulator enabled, and the result is 0. *)
Lemma vreg_setup_disable_run (k : kernel_t) (s : sys) (rail : Z) (r : ptr) :
  lookup (vreg (drv s)) rail = Some r ->
  r <> NULL ->
  vreg_setup k rail false s =
  Done 0 (log s (vreg_disable_calls k (trace s) r)).
Proof.
  intros Hr Hnz. apply Z.eqb_neq in Hnz.
  unfold vreg_setup, vreg_disable_calls. run_monad.
  rewrite Hr, Hnz.
  destruct (truthy (k (trace s) (regulator_is_enabled r)));
    normalize_trace; reflexivity.
Qed.

(** A slot that holds no regulator: [-EINVAL], and no call. *)
Lemma vreg_setup_null (k : kernel_t) (s : sys) (rail : Z) (enable : bool) :
  lookup (vreg (drv s)) rail = Some NULL ->
  vreg_setup k rail enable s = Done (- EINVAL) s.
Proof.
  intros Hr. unfold vreg_setup. run_monad. rewrite Hr. reflexivity.
Qed.

(** A slot outside the array: the read is out of bounds. *)
Lemma vreg_setup_out_of_bounds (k : kernel_t) (s : sys) (rail : Z)
    (enable : bool) :
  lookup (vreg (drv s)) rail = None ->
  vreg_setup k rail enable s = OutOfBounds s.
Proof.
  intros Hr. unfold vreg_setup. run_monad. rewrite Hr. reflexivity.
Qed.

Lemma bind_Done {A B} (m : M A) (f : A -> M B) (s s1 : sys) (a : A) :
  m s = Done a s1 -> bind m f s = f a s1.
Proof. intros H. unfold bind. now rewrite H. Qed.

(** Equations of the primitive steps, used as rewrite rules. *)
Lemma run_bind_assoc {A B C} (m : M A) (f : A -> M B) (g : B -> M C) (s : sys) :
  bind (bind m f) g s = bind m (fun a => bind (f a) g) s.
Proof. unfold bind. destruct (m s); reflexivity. Qed.

Lemma run_call {B} (k : kernel_t) (c : kcall) (f : Z -> M B) (s : sys) :
  bind (call k c) f s = f (k (trace s) c) (log s [c]).
Proof. reflexivity. Qed.

Lemma run_modify_drv {B} (g : fpc1020_data -> fpc1020_data) (f : unit -> M B)
    (s : sys) :
  bind (modify_drv g) f s = f tt (upd_drv g s).
Proof. reflexivity. Qed.

Lemma run_get_drv {B} (f : fpc1020_data -> M B) (s : sys) :
  bind get_drv f s = f (drv s) s.
Proof. reflexivity. Qed.

Lemma run_ret {A B} (a : A) (f : A -> M B) (s : sys) :
  bind (ret a) f s = f a s.
Proof. reflexivity. Qed.

Lemma drv_log (s : sys) (cs : list kcall) : drv (log s cs) = drv s.
Proof. reflexivity. Qed.

Lemma drv_upd_drv (g : fpc1020_data -> fpc1020_data) (s : sys) :
  drv (upd_drv g s) = g (drv s).
Proof. reflexivity. Qed.

Lemma upd_drv_log (g : fpc1020_data -> fpc1020_data) (s : sys)
    (cs : list kcall) :
  log (upd_drv g s) cs = upd_drv g (log s cs).
Proof. reflexivity. Qed.

Create Rewrite HintDb run.
#[local] Hint Rewrite @run_bind_assoc @run_call @run_modify_drv @run_get_drv
  @run_ret drv_log drv_upd_drv upd_drv_log log_log : run.

(** Runs the primitive steps at the head of a run. *)
Ltac run_prims := repeat progress (autorewrite with run; cbn [andb negb app]).

(** Runs a pin selection or a rail switch at the head of a run. *)
Ltac run_select Hpin :=
  first [ erewrite bind_Done by (eapply select_reset_reset; exact Hpin)
        | erewrite bind_Done by (eapply select_reset_active; exact Hpin) ].

Ltac run_enable Hslot Hconf Hnz :=
  match goal with
  | |- context [bind (vreg_setup ?k ?rail true) _ ?st] =>
      let rc := fresh "rc" in
      let E := fresh "E" in
      destruct (vreg_setup_enable_run k st rail _ _ Hslot Hconf Hnz)
        as [rc E];
      rewrite (bind_Done _ _ _ _ _ E); clear E
  end.

Ltac run_disable Hslot Hnz :=
  match goal with
  | |- context [bind (vreg_setup ?k ?rail false) _ ?st] =>
      rewrite (bind_Done _ _ _ _ _
                 (vreg_setup_disable_run k st rail _ Hslot Hnz))
  end.

Lemma device_prepare_enable_run (k : kernel_t) (s : sys)
    (lo hi irq r0 r1 r2 : ptr) (conf : vreg_config) :
  pinctrl_state (drv s) = [lo; hi; irq] ->
  vreg (drv s) = [r0; r1; r2] ->
  r0 <> NULL ->
  prepared (drv s) = false ->
  lookup vreg_conf 0 = Some conf ->
  let p := fingerprint_pinctrl (drv s) in
  exists h1 h2 h3,
    device_prepare k true s =
    Done tt (upd_drv (set_prepared true)
      (log s ([mutex_lock; pinctrl_select_state p lo]
              ++ vreg_enable_calls k h1 r0 conf
              ++ vreg_enable_calls k h2 r0 conf
              ++ vreg_enable_calls k h3 r0 conf
              ++ [usleep_range PWR_ON_SLEEP_MIN_US PWR_ON_SLEEP_MAX_US;
                  pinctrl_select_state p hi; mutex_unlock]))).
Proof.
  intros Hpin Hvreg Hr0 Hprep Hconf p.
  assert (Hslot : lookup (vreg (drv s)) 0 = Some r0)
    by (rewrite Hvreg; reflexivity).
  do 3 eexists.
  unfold device_prepare. run_prims. rewrite Hprep. run_prims.
  run_select Hpin. run_prims.
  run_enable Hslot Hconf Hr0. run_prims.
  run_enable Hslot Hconf Hr0. run_prims.
  run_enable Hslot Hconf Hr0. run_prims.
  run_select Hpin. run_prims.
  unfold ret. rewrite <- ?app_assoc. reflexivity.
Qed.

Lemma device_prepare_disable_run (k : kernel_t) (s : sys)
    (lo hi irq r0 r1 r2 : ptr) :
  pinctrl_state (drv s) = [lo; hi; irq] ->
  vreg (drv s) = [r0; r1; r2] ->
  r0 <> NULL ->
  prepared (drv s) = true ->
  let p := fingerprint_pinctrl (drv s) in
  exists h1 h2 h3,
    device_prepare k false s =
    Done tt (upd_drv (set_prepared false)
      (log s ([mutex_lock; pinctrl_select_state p lo;
               usleep_range PWR_ON_SLEEP_MIN_US PWR_ON_SLEEP_MAX_US]
              ++ vreg_disable_calls k h1 r0
              ++ vreg_disable_calls k h2 r0
              ++ vreg_disable_calls k h3 r0
              ++ [mutex_unlock]))).
Proof.
  intros Hpin Hvreg Hr0 Hprep p.
  assert (Hslot : lookup (vreg (drv s)) 0 = Some r0)
    by (rewrite Hvreg; reflexivity).
  do 3 eexists.
  unfold device_prepare. run_prims. rewrite Hprep. run_prims.
  run_select Hpin. run_prims.
  run_disable Hslot Hr0. run_prims.
  run_disable Hslot Hr0. run_prims.
  run_disable Hslot Hr0. run_prims.
  unfold modify_drv. rewrite <- ?app_assoc. reflexivity.
Qed.

(** The power-down sequence call by call: each query of the rail is made
    after the calls before it, and is followed by [regulator_disable] when
    the kernel answers that the rail is enabled. *)
Lemma device_prepare_disable_trace (k : kernel_t) (s : sys)
    (lo hi irq r0 r1 r2 : ptr) :
  pinctrl_state (drv s) = [lo; hi; irq] ->
  vreg (drv s) = [r0; r1; r2] ->
  r0 <> NULL ->
  prepared (drv s) = true ->
  let pre := [mutex_lock;
              pinctrl_select_state (fingerprint_pinctrl (drv s)) lo;
              usleep_range PWR_ON_SLEEP_MIN_US PWR_ON_SLEEP_MAX_US] in
  let d1 := vreg_disable_calls k (trace s ++ pre) r0 in
  let d2 := vreg_disable_calls k (trace s ++ pre ++ d1) r0 in
  let d3 := vreg_disable_calls k (trace s ++ pre ++ d1 ++ d2) r0 in
  device_prepare k false s =
  Done tt (upd_drv (set_prepared false)
             (log s (pre ++ d1 ++ d2 ++ d3 ++ [mutex_unlock]))).
Proof.
  intros Hpin Hvreg Hr0 Hprep pre d1 d2 d3.
  assert (Hslot : lookup (vreg (drv s)) 0 = Some r0)
    by (rewrite Hvreg; reflexivity).
  unfold device_prepare. run_prims. rewrite Hprep. run_prims.
  run_select Hpin. run_prims.
  run_disable Hslot Hr0. run_prims.
  run_disable Hslot Hr0. run_prims.
  run_disable Hslot Hr0. run_prims.
  unfold modify_drv, ret. subst d1 d2 d3 pre.
  cbn [trace log app]. rewrite <- ?app_assoc. cbn [app]. reflexivity.
Qed.

(** The regulators a switch-off disables: the one it asks after, when the
    kernel answers that it is enabled. *)
Lemma rail_disables_vreg_disable_calls (k : kernel_t) (h : list kcall)
    (r : ptr) :
  rail_disables (vreg_disable_calls k h r) =
  if truthy (k h (regulator_is_enabled r)) then [r] else [].
Proof.
  unfold vreg_disable_calls.
  destruct (truthy (k h (regulator_is_enabled r))); reflexivity.
Qed.

Lemma rail_disables_app (a b : list kcall) :
  rail_disables (a ++ b) = rail_disables a ++ rail_disables b.
Proof.
  induction a as [|c a IH]; cbn; [reflexivity|].
  destruct c; cbn; rewrite ?IH; reflexivity.
Qed.

(** A call for the power state the driver is already in only takes and
    releases the lock. *)
Lemma device_prepare_idle (k : kernel_t) (enable : bool) (s : sys) :
  prepared (drv s) = enable ->
  device_prepare k enable s = Done tt (log s [mutex_lock; mutex_unlock]).
Proof.
  intros Hprep. unfold device_prepare. run_prims. rewrite Hprep.
  destruct enable; run_prims; reflexivity.
Qed.

(** The readings of a trace distribute over concatenation. *)
Lemma pin_selects_app (a b : list kcall) :
  pin_selects (a ++ b) = pin_selects a ++ pin_selects b.
Proof.
  induction a as [|c a IH]; cbn; [reflexivity|].
  destruct c; cbn; rewrite ?IH; reflexivity.
Qed.

Lemma rail_enables_app (a b : list kcall) :
  rail_enables (a ++ b) = rail_enables a ++ rail_enables b.
Proof.
  induction a as [|c a IH]; cbn; [reflexivity|].
  destruct c; cbn; rewrite ?IH; reflexivity.
Qed.

(** Splits on what the kernel answered in each rail switch of a trace. *)
Ltac split_rail_answers :=
  unfold vreg_enable_calls, vreg_disable_calls;
  repeat match goal with
  | |- context [if ?c then [_] else []] => destruct c
  end;
  cbn [app].

(** What the power-up sequence selects and enables, whatever the kernel
    answers. *)
Lemma device_prepare_enable_read (k : kernel_t) (s : sys)
    (lo hi irq r0 r1 r2 : ptr) :
  pinctrl_state (drv s) = [lo; hi; irq] ->
  vreg (drv s) = [r0; r1; r2] ->
  r0 <> NULL ->
  prepared (drv s) = false ->
  exists calls,
    device_prepare k true s =
      Done tt (upd_drv (set_prepared true) (log s calls))
    /\ pin_selects calls = [lo; hi]
    /\ rail_enables calls = [r0; r0; r0]
    /\ rail_loads calls = [(r0, 6000); (r0, 6000); (r0, 6000)]
    /\ rail_disables calls = []
    /\ pulse calls = [ pinctrl_select_state (fingerprint_pinctrl (drv s)) lo;
                       usleep_range 100 1000;
                       pinctrl_select_state (fingerprint_pinctrl (drv s)) hi ].
Proof.
  intros Hpin Hvreg Hr0 Hprep.
  destruct (device_prepare_enable_run k s lo hi irq r0 r1 r2 _
              Hpin Hvreg Hr0 Hprep eq_refl) as (h1 & h2 & h3 & Hrun).
  eexists. split; [exact Hrun|].
  clear Hrun. split_rail_answers; repeat split.
Qed.

(** What the power-down sequence selects and asks, whatever the kernel
    answers: a rail is disabled exactly when the kernel reports it
    enabled. *)
Lemma device_prepare_disable_read (k : kernel_t) (s : sys)
    (lo hi irq r0 r1 r2 : ptr) :
  pinctrl_state (drv s) = [lo; hi; irq] ->
  vreg (drv s) = [r0; r1; r2] ->
  r0 <> NULL ->
  prepared (drv s) = true ->
  exists calls,
    device_prepare k false s =
      Done tt (upd_drv (set_prepared false) (log s calls))
    /\ pin_selects calls = [lo]
    /\ rail_queries calls = [r0; r0; r0]
    /\ rail_enables calls = []
    /\ pulse calls = [ pinctrl_select_state (fingerprint_pinctrl (drv s)) lo;
                       usleep_range 100 1000 ].
Proof.
  intros Hpin Hvreg Hr0 Hprep.
  destruct (device_prepare_disable_run k s lo hi irq r0 r1 r2
              Hpin Hvreg Hr0 Hprep) as (h1 & h2 & h3 & Hrun).
  eexists. split; [exact Hrun|].
  clear Hrun. split_rail_answers; repeat split.
Qed.

(** C3 (the code at the failing input).  The three enumerators [VCC_SPI],
    [VDD_IO] and [VDD_ANA] are one value, the slot of [vdd_ana]: on the
    attached board, where only that regulator was obtained, powering up
    enables the regulator of [vdd_ana] three times, with the load of
    [vdd_ana] each time, and powering down disables that one regulator three
    times.  No second or third rail is switched. *)
Theorem device_prepare_switches_one_rail_three_times :
  VCC_SPI = VDD_ANA /\ VDD_IO = VDD_ANA
  /\ kernel_ok [] (devm_regulator_get "vdd_ana") = 8192
  /\ vreg (drv attached) = [8192; NULL; NULL]
  /\ exists s1,
       device_prepare kernel_ok true attached = Done tt s1
       /\ rail_enables (trace s1) = [8192; 8192; 8192]
       /\ rail_loads (trace s1) = [(8192, 6000); (8192, 6000); (8192, 6000)]
       /\ exists s2,
            device_prepare kernel_ok false s1 = Done tt s2
            /\ rail_disables (trace s2) = [8192; 8192; 8192].
Proof.
  repeat (split; [reflexivity|]).
  eexists. split; [vm_compute; reflexivity|].
  repeat (split; [reflexivity|]).
  eexists. split; [vm_compute; reflexivity|]. reflexivity.
Qed.

(** C6.  [device_prepare] is idempotent.  Called with [true] on a prepared
    driver, or with [false] on an unprepared one, it takes and releases the
    lock and does nothing else: no pin selection, no rail call, the driver
    data and the gate as before.  Two calls with [true] in a row on an
    unprepared driver make the rail-enable sequence of the first call and
    nothing more. *)
Theorem device_prepare_idempotent (k : kernel_t) (s : sys) :
  (prepared (drv s) = true ->
     device_prepare k true s = Done tt (log s [mutex_lock; mutex_unlock]))
  /\ (prepared (drv s) = false ->
        device_prepare k false s = Done tt (log s [mutex_lock; mutex_unlock]))
  /\ (forall lo hi irq r0 r1 r2,
        pinctrl_state (drv s) = [lo; hi; irq] ->
        vreg (drv s) = [r0; r1; r2] ->
        r0 <> NULL ->
        prepared (drv s) = false ->
        exists calls,
          device_prepare k true s =
            Done tt (upd_drv (set_prepared true) (log s calls))
          /\ rail_enables calls = [r0; r0; r0]
          /\ (device_prepare k true ;;; device_prepare k true) s =
             Done tt (upd_drv (set_prepared true)
                        (log s (calls ++ [mutex_lock; mutex_unlock])))
          /\ rail_enables (calls ++ [mutex_lock; mutex_unlock]) = [r0; r0; r0]
          /\ pin_selects (calls ++ [mutex_lock; mutex_unlock]) = [lo; hi]).
Proof.
  split; [|split].
  - intros Hprep. now apply device_prepare_idle.
  - intros Hprep. now apply device_prepare_idle.
  - intros lo hi irq r0 r1 r2 Hpin Hvreg Hr0 Hprep.
    destruct (device_prepare_enable_read k s lo hi irq r0 r1 r2
                Hpin Hvreg Hr0 Hprep)
      as (calls & Hrun & Hsel & Hen & _).
    exists calls. split; [exact Hrun|]. split; [exact Hen|].
    split; [|split].
    + rewrite (bind_Done _ _ _ _ _ Hrun).
      rewrite device_prepare_idle by reflexivity.
      now rewrite upd_drv_log, log_log.
    + now rewrite rail_enables_app, Hen.
    + now rewrite pin_selects_app, Hsel.
Qed.

Lemma device_prepare_idempotent_witness :
  pinctrl_state (drv attached) = [12304; 12320; 12336]
  /\ vreg (drv attached) = [8192; NULL; NULL]
  /\ 8192 <> NULL
  /\ device_prepare kernel_ok false attached =
     Done tt (log attached [mutex_lock; mutex_unlock])
  /\ exists calls,
       rail_enables calls = [8192; 8192; 8192]
       /\ (device_prepare kernel_ok true ;;; device_prepare kernel_ok true)
            attached =
          Done tt (upd_drv (set_prepared true)
                     (log attached (calls ++ [mutex_lock; mutex_unlock])))
       /\ rail_enables (calls ++ [mutex_lock; mutex_unlock])
          = [8192; 8192; 8192].
Proof.
  assert (Hnz : 8192 <> NULL) by discriminate.
  destruct (device_prepare_idempotent kernel_ok attached)
    as (_ & Hoff & Hon).
  destruct (Hon 12304 12320 12336 8192 NULL NULL eq_refl eq_refl Hnz eq_refl)
    as (calls & _ & Hen & Htwice & Hen2 & _).
  repeat (split; [first [reflexivity | exact Hnz | exact (Hoff eq_refl)]|]).
  exists calls. repeat split; assumption.
Defined.



(** ** The screen and proximity policy *)


Lemma proximity_state_store_run (k : kernel_t) (s : sys) (buf : string)
    (count val : Z) :
  kstrtoint buf = Some val ->
  proximity_state_store k buf count s =
  if fb_black (drv s)
  then (policy_update_spec k (set_proximity_state (truthy val)) ;;;
        ret count) s
  else Done count (upd_drv (set_proximity_state (truthy val)) s).
Proof.
  intros Hparse. unfold proximity_state_store, policy_update_spec.
  rewrite Hparse. run_prims.
  cbn [fb_black proximity_state set_proximity_state].
  destruct (fb_black (drv s)); [|reflexivity].
  destruct (truthy val); reflexivity.
Qed.

Lemma fb_blank_powerdown_run (k : kernel_t) (s : sys) :
  fpc_fb_notif_callback k FB_EVENT_BLANK (Some (Some FB_BLANK_POWERDOWN)) s =
  if proximity_state (drv s)
  then (policy_update_spec k (set_fb_black true) ;;; ret NOTIFY_OK) s
  else Done NOTIFY_OK (upd_drv (set_fb_black true) s).
Proof.
  unfold fpc_fb_notif_callback, policy_update_spec.
  change (FB_BLANK_POWERDOWN mod 2 ^ 32) with FB_BLANK_POWERDOWN.
  cbn [Z.eqb FB_EVENT_BLANK FB_BLANK_POWERDOWN Pos.eqb negb].
  run_prims. cbn [fb_black proximity_state set_fb_black].
  destruct (proximity_state (drv s)); reflexivity.
Qed.

Lemma fb_unblank_run (k : kernel_t) (s : sys) (b : Z) :
  b = FB_BLANK_UNBLANK \/ b = FB_BLANK_NORMAL ->
  fpc_fb_notif_callback k FB_EVENT_BLANK (Some (Some b)) s =
  (policy_update_spec k (set_fb_black false) ;;; ret NOTIFY_OK) s.
Proof.
  intros [-> | ->]; unfold fpc_fb_notif_callback, policy_update_spec.
  - change (FB_BLANK_UNBLANK mod 2 ^ 32) with FB_BLANK_UNBLANK.
    cbn [Z.eqb FB_EVENT_BLANK FB_BLANK_POWERDOWN FB_BLANK_UNBLANK Pos.eqb
         negb orb].
    run_prims. cbn [fb_black proximity_state set_fb_black].
    destruct (proximity_state (drv s)); reflexivity.
  - change (FB_BLANK_NORMAL mod 2 ^ 32) with FB_BLANK_NORMAL.
    cbn [Z.eqb FB_EVENT_BLANK FB_BLANK_POWERDOWN FB_BLANK_UNBLANK
         FB_BLANK_NORMAL Pos.eqb negb orb].
    run_prims. cbn [fb_black proximity_state set_fb_black].
    destruct (proximity_state (drv s)); reflexivity.
Qed.

Lemma config_irq_post (k : kernel_t) (target : bool) (s : sys) :
  exists s',
    config_irq k target s = Done tt s'
    /\ irq_enabled s' = target /\ drv s' = drv s.
Proof.
  rewrite config_irq_run.
  destruct (Bool.eqb target (irq_enabled s)) eqn:E.
  - apply Bool.eqb_prop in E. eexists. split; [reflexivity|]. auto.
  - eexists. split; [reflexivity|]. auto.
Qed.

(** An update in the words of the specification records the input and
    leaves the gate where the table puts it. *)
Lemma policy_update_spec_run {A} (k : kernel_t)
    (record : fpc1020_data -> fpc1020_data) (x : A) (s : sys) :
  exists s',
    (policy_update_spec k record ;;; ret x) s = Done x s'
    /\ drv s' = record (drv s) /\ gate_agrees s'.
Proof.
  unfold policy_update_spec. run_prims.
  match goal with
  | |- context [bind (config_irq k ?t) _ ?st] =>
      destruct (config_irq_post k t st) as (s' & Hrun & Hgate & Hdrv);
      rewrite (bind_Done _ _ _ _ _ Hrun)
  end.
  exists s'. split; [reflexivity|]. split; [exact Hdrv|].
  unfold gate_agrees. rewrite Hgate, Hdrv. reflexivity.
Qed.



(** *** Updates that overlap

    The two halves of the proximity write make up the write. *)
Lemma proximity_state_store_halves (k : kernel_t) (s : sys) (buf : string)
    (count val : Z) :
  kstrtoint buf = Some val ->
  proximity_state_store k buf count s =
  (target <- proximity_state_chosen val ;;
   proximity_state_applied k target count) s.
Proof.
  intros Hparse.
  unfold proximity_state_store, proximity_state_chosen,
    proximity_state_applied.
  rewrite Hparse. run_prims.
  destruct (fb_black _); [|reflexivity].
  destruct (proximity_state _); reflexivity.
Qed.

(** The gate does not follow the table over updates that overlap.  The
    display is blanked, the sensor uncovered, the gate enabled.  A write
    that covers the sensor chooses the target [false]; before it calls
    [config_irq] the display is unblanked, which leaves the gate enabled;
    the write then disables the interrupt: the display is on, and the gate
    is disabled. *)
Lemma overlap_breaks_gate_agreement (k : kernel_t) (s : sys)
    (val count b : Z) :
  fb_black (drv s) = true ->
  irq_enabled s = true ->
  truthy val = true ->
  b = FB_BLANK_UNBLANK \/ b = FB_BLANK_NORMAL ->
  exists s' calls,
    proximity_write_overlapped k val count
      (fb_notify FB_EVENT_BLANK (Some (Some b))) s = Done count s'
    /\ trace s' = trace s ++ calls
    /\ irq_toggles calls = [false]
    /\ irq_enabled s' = false
    /\ fb_black (drv s') = false
    /\ proximity_state (drv s') = true
    /\ ~ gate_agrees s'.
Proof.
  intros Hfb Hen Hval Hb.
  unfold proximity_write_overlapped, proximity_state_chosen,
    proximity_state_applied.
  run_prims. cbn [drv upd_drv fb_black proximity_state set_proximity_state].
  rewrite Hfb, Hval. cbn [enter].
  unfold bind at 1. rewrite (fb_unblank_run k _ b Hb).
  unfold policy_update_spec. run_prims.
  cbn [drv upd_drv fb_black proximity_state set_fb_black
       set_proximity_state fusion].
  unfold bind. rewrite config_irq_run.
  cbn [irq_enabled upd_drv]. rewrite Hen. cbn [Bool.eqb ret].
  rewrite config_irq_run. cbn [irq_enabled upd_drv log]. rewrite Hen.
  cbn [Bool.eqb]. cbv zeta.
  do 2 eexists. split; [reflexivity|].
  cbn [irq_enabled drv trace upd_irq_enabled log upd_drv fb_black
       proximity_state set_fb_black set_proximity_state].
  split; [rewrite <- app_assoc; reflexivity|].
  repeat (split; [reflexivity|]).
  unfold gate_agrees. cbn. discriminate.
Qed.

(** ** The interrupt handler and the wake flag *)

(** The handler never reads [wakeup_enabled]. *)
Lemma fpc1020_irq_handler_run (k : kernel_t) (irq : Z) (s : sys) :
  fpc1020_irq_handler k irq s =
  Done IRQ_HANDLED
    (log s [pm_wakeup_event (ttw_ws (drv s)) FPC_TTW_HOLD_TIME;
            sysfs_notify "irq"]).
Proof. unfold fpc1020_irq_handler. run_prims. reflexivity. Qed.

(** C5 (the code at the failing input).  The handler arms the 400 ms
    wake-up event and notifies the [irq] attribute in every state, whatever
    [wakeup_enabled] holds: after [disable] is written to [wakeup_enable]
    the flag is 0, and an interrupt still arms the wake-up event. *)
Theorem irq_handler_arms_wake_with_flag_clear :
  (forall k irq s,
      fpc1020_irq_handler k irq s =
      Done IRQ_HANDLED
        (log s [pm_wakeup_event (ttw_ws (drv s)) 400; sysfs_notify "irq"]))
  /\ exists s,
       wakeup_enable_store kernel_ok "disable" 7 attached = Done 7 s
       /\ wakeup_enabled (drv s) = 0
       /\ fpc1020_irq_handler kernel_ok 372 s =
          Done IRQ_HANDLED
            (log s [pm_wakeup_event 16384 400; sysfs_notify "irq"]).
Proof.
  split; [intros k irq s; apply fpc1020_irq_handler_run|].
  eexists. split; [vm_compute; reflexivity|].
  split; [reflexivity|]. apply fpc1020_irq_handler_run.
Qed.

(** ** Malformed writes to the command nodes *)

(** Every malformed write is answered [-EINVAL] with the driver data and the
    gate untouched, as long as the write to [regulator_enable] does not parse
    into a name and [e] or [d]. *)
Lemma malformed_write_rejected (k : kernel_t) (s : sys) (buf : string)
    (count : Z) :
  (buf <> "enable" -> buf <> "disable" ->
     device_prepare_store k buf count s = Done (- EINVAL) s
     /\ fingerdown_wait_store buf count s = Done (- EINVAL) s
     /\ wakeup_enable_store k buf count s =
        Done (- EINVAL) (log s [mutex_lock; mutex_unlock]))
  /\ (buf <> "reset" -> hw_reset_store k buf count s = Done (- EINVAL) s)
  /\ (kstrtoint buf = None ->
        proximity_state_store k buf count s = Done (- EINVAL) s)
  /\ (fst (fst (sscanf_name_op buf)) <> NUM_PARAMS_REG_ENABLE_SET ->
        regulator_enable_store k buf count s = Done (- EINVAL) s)
  /\ (snd (sscanf_name_op buf) <> "e"%char ->
      snd (sscanf_name_op buf) <> "d"%char ->
        regulator_enable_store k buf count s = Done (- EINVAL) s).
Proof.
  split; [|repeat split].
  - intros He Hd. apply String.eqb_neq in He, Hd.
    unfold device_prepare_store, fingerdown_wait_store, wakeup_enable_store.
    run_prims. rewrite He, Hd. run_prims. repeat split.
  - intros H. unfold hw_reset_store.
    apply String.eqb_neq in H. rewrite H. reflexivity.
  - intros H. unfold proximity_state_store. rewrite H. reflexivity.
  - intros H. unfold regulator_enable_store.
    destruct (sscanf_name_op buf) as [[n nm] op]. cbn [fst] in H.
    apply Z.eqb_neq in H. rewrite H. reflexivity.
  - intros He Hd. unfold regulator_enable_store.
    destruct (sscanf_name_op buf) as [[n nm] op]. cbn [snd] in He, Hd.
    apply Ascii.eqb_neq in He, Hd. rewrite He, Hd.
    destruct (negb (n =? NUM_PARAMS_REG_ENABLE_SET)); reflexivity.
Qed.

(** A rail name that is none of the three gives the slot [-EINVAL]
    converted to the enumeration type, far outside the three slots of the
    regulator array: [vreg_setup] reads outside the array, and so does a
    write of that name to [regulator_enable]. *)
Lemma unknown_rail_out_of_bounds (k : kernel_t) (s : sys) (nm : string) :
  nm <> "vdd_ana" -> nm <> "vcc_spi" -> nm <> "vdd_io" ->
  List.length (vreg (drv s)) = 3%nat ->
  name_to_fpc_rail nm = 4294967274
  /\ (forall enable,
        vreg_setup k (name_to_fpc_rail nm) enable s = OutOfBounds s)
  /\ (forall buf count op,
        sscanf_name_op buf = (2, nm, op) ->
        op = "e"%char \/ op = "d"%char ->
        regulator_enable_store k buf count s = OutOfBounds (log s [mutex_lock])).
Proof.
  intros Ha Hs Hi Hlen.
  assert (Hrail : name_to_fpc_rail nm = 4294967274).
  { unfold name_to_fpc_rail.
    apply String.eqb_neq in Ha, Hs, Hi. rewrite Ha, Hs, Hi. reflexivity. }
  assert (Hoob : forall s', drv s' = drv s -> forall enable,
             vreg_setup k (name_to_fpc_rail nm) enable s' = OutOfBounds s').
  { intros s' Hd enable. apply vreg_setup_out_of_bounds.
    rewrite Hrail, Hd. unfold lookup. rewrite Hlen. reflexivity. }
  split; [exact Hrail|]. split; [exact (Hoob s eq_refl)|].
  intros buf count op Hscan Hop.
  unfold regulator_enable_store. rewrite Hscan.
  cbn [Z.eqb NUM_PARAMS_REG_ENABLE_SET Pos.eqb negb].
  destruct Hop as [-> | ->]; cbn [Ascii.eqb Bool.eqb];
    run_prims; unfold bind; rewrite Hoob by reflexivity; reflexivity.
Qed.

(** C8 (the code at the failing input).  The write [vdd_foo,e] to
    [regulator_enable] names no rail, and is not answered [-EINVAL]: the run
    takes the lock and reads the regulator array out of bounds. *)
Theorem regulator_enable_store_unknown_rail_not_rejected :
  sscanf_name_op "vdd_foo,e" = (2, "vdd_foo", "e"%char)
  /\ regulator_enable_store kernel_ok "vdd_foo,e" 9 attached =
     OutOfBounds (log attached [mutex_lock])
  /\ regulator_enable_store kernel_ok "vdd_foo,e" 9 attached <>
     Done (- EINVAL) attached.
Proof.
  split; [reflexivity|]. split; [vm_compute; reflexivity|].
  vm_compute. discriminate.
Qed.

(** C9 (the code at the failing input).  For the name [vdd_foo],
    [name_to_fpc_rail] returns [-EINVAL] as a rail, 4294967274, and
    [vreg_setup] uses it as the index into the three regulator slots: the
    read is out of bounds, for enabling and for disabling. *)
Theorem vreg_setup_indexes_with_einval :
  name_to_fpc_rail "vdd_foo" = 4294967274
  /\ List.length (vreg (drv attached)) = 3%nat
  /\ lookup (vreg (drv attached)) (name_to_fpc_rail "vdd_foo") = None
  /\ vreg_setup kernel_ok (name_to_fpc_rail "vdd_foo") true attached =
     OutOfBounds attached
  /\ vreg_setup kernel_ok (name_to_fpc_rail "vdd_foo") false attached =
     OutOfBounds attached.
Proof. repeat split. Qed.

(** ** Attaching *)

(** [stage Q m]: a run of [m] returns, with a value in [Q], having made
    only resource look-ups. *)
Definition stage {A} (Q : A -> Prop) (m : M A) : Prop :=
  forall s, exists a s' calls,
    m s = Done a s' /\ Q a /\ trace s' = trace s ++ calls
    /\ Forall (fun c => resource_lookup_call c = true) calls.

(** [fails_early m]: a run of [m] returns an error, having made only
    resource look-ups. *)
Definition fails_early (m : M Z) : Prop := stage (fun rc => rc < 0) m.

Lemma stage_bind {A B} (Q : A -> Prop) (R : B -> Prop) (m : M A)
    (f : A -> M B) :
  stage Q m -> (forall a, Q a -> stage R (f a)) -> stage R (bind m f).
Proof.
  intros Hm Hf s.
  destruct (Hm s) as (a & s1 & c1 & Hrun & Hq & Htr & Hc).
  destruct (Hf a Hq s1) as (b & s2 & c2 & Hrun2 & Hr & Htr2 & Hc2).
  exists b, s2, (c1 ++ c2). rewrite (bind_Done _ _ _ _ _ Hrun).
  split; [exact Hrun2|]. split; [exact Hr|].
  split; [now rewrite Htr2, Htr, app_assoc|].
  apply Forall_app; auto.
Qed.

Lemma stage_ret {A} (Q : A -> Prop) (a : A) : Q a -> stage Q (ret a).
Proof.
  intros Hq s. exists a, s, []. rewrite app_nil_r. repeat split; auto.
Qed.

Lemma stage_call (k : kernel_t) (c : kcall) :
  resource_lookup_call c = true -> stage (fun _ => True) (call k c).
Proof.
  intros Hc s. exists (k (trace s) c), (log s [c]), [c].
  repeat split; auto.
Qed.

Lemma stage_modify_drv (f : fpc1020_data -> fpc1020_data) :
  stage (fun _ => True) (modify_drv f).
Proof.
  intros s. exists tt, (upd_drv f s), []. cbn. rewrite app_nil_r.
  repeat split; auto.
Qed.

Lemma stage_get_drv : stage (fun _ => True) get_drv.
Proof.
  intros s. exists (drv s), s, []. rewrite app_nil_r. repeat split; auto.
Qed.

(** Walks through a run that stays within the resource look-ups. *)
Ltac stage_step :=
  match goal with
  | |- stage _ (ret _) => apply stage_ret; first [exact I | reflexivity | auto]
  | |- stage _ (bind (call _ _) _) =>
      eapply stage_bind; [apply stage_call; reflexivity | intros ? _]
  | |- stage _ (bind (modify_drv _) _) =>
      eapply stage_bind; [apply stage_modify_drv | intros ? _]
  | |- stage _ (bind get_drv _) =>
      eapply stage_bind; [apply stage_get_drv | intros ? _]
  | |- stage _ (if ?c then _ else _) => destruct c eqn:?
  end.

Lemma stage_get_regulators (k : kernel_t) :
  stage (fun rc => rc = 0 \/ rc = - EINVAL) (fpc1020_get_regulators k).
Proof.
  unfold fpc1020_get_regulators.
  change (Z.to_nat FPC_VREG_MAX) with 1%nat.
  cbn [get_regulators_from].
  change (index vreg_conf 0) with
    (ret (A := vreg_config)
       {| name := "vdd_ana"; vmin := 1800000; vmax := 1800000;
          ua_load := 6000 |}).
  apply (stage_bind (fun _ => True)); [apply stage_ret; exact I | intros conf _].
  repeat stage_step.
Qed.

Lemma stage_request_named_gpio (k : kernel_t) (label : string)
    (set_gpio : Z -> fpc1020_data -> fpc1020_data) :
  stage (fun _ => True) (fpc1020_request_named_gpio k label set_gpio).
Proof. unfold fpc1020_request_named_gpio. repeat stage_step. Qed.

(** With a name of the list missing, the look-up loop returns [-EINVAL]. *)
Lemma stage_lookup_pin_states (k : kernel_t) (n : string) :
  (forall h p, IS_ERR (k h (pinctrl_lookup_state p n)) = true) ->
  forall names i,
    In n names ->
    stage (fun rc => rc = - EINVAL) (lookup_pin_states_from k i names).
Proof.
  intros Hmiss names. induction names as [|n' rest IH]; intros i Hin.
  - destruct Hin.
  - cbn [lookup_pin_states_from].
    eapply stage_bind; [apply stage_get_drv | intros d _].
    intros s.
    destruct (IS_ERR (k (trace s) (pinctrl_lookup_state
                                     (fingerprint_pinctrl d) n'))) eqn:E.
    + exists (- EINVAL), (log s [pinctrl_lookup_state (fingerprint_pinctrl d) n']),
        [pinctrl_lookup_state (fingerprint_pinctrl d) n'].
      rewrite run_call, E. repeat split; auto.
    + destruct Hin as [-> | Hin]; [rewrite Hmiss in E; discriminate E|].
      rewrite run_call, E. rewrite run_modify_drv.
      destruct (IH (i + 1) Hin
                  (upd_drv (fun d0 => set_pinctrl_state
                     (store (pinctrl_state d0) (Z.to_nat i)
                        (k (trace s) (pinctrl_lookup_state
                                        (fingerprint_pinctrl d) n'))) d0)
                     (log s [pinctrl_lookup_state (fingerprint_pinctrl d) n'])))
        as (rc & s' & calls & Hrun & Hrc & Htr & Hcalls).
      exists rc, s', (pinctrl_lookup_state (fingerprint_pinctrl d) n' :: calls).
      split; [exact Hrun|]. split; [exact Hrc|].
      split; [rewrite Htr; cbn; now rewrite <- app_assoc|].
      constructor; auto.
Qed.

Lemma truthy_zero : truthy 0 = false.
Proof. reflexivity. Qed.

Lemma truthy_EINVAL : truthy (- EINVAL) = true.
Proof. reflexivity. Qed.

Lemma probe_fails_early (k : kernel_t) (cfg : kconfig) (pdev : platform_device)
    (n : string) :
  In n pctl_names ->
  (forall h p, IS_ERR (k h (pinctrl_lookup_state p n)) = true) ->
  fails_early (fpc1020_probe k cfg pdev).
Proof.
  intros Hin Hmiss. unfold fails_early, fpc1020_probe.
  repeat stage_step.
  eapply stage_bind; [apply stage_get_regulators | intros rc [-> | ->]].
  - rewrite truthy_zero.
    eapply stage_bind; [apply stage_request_named_gpio | intros rc1 _].
    stage_step; [stage_step|].
    eapply stage_bind; [apply stage_request_named_gpio | intros rc2 _].
    stage_step; [stage_step|].
    repeat stage_step.
    eapply stage_bind;
      [apply (stage_lookup_pin_states k n Hmiss); exact Hin | intros rc3 ->].
    rewrite truthy_EINVAL. stage_step.
  - rewrite truthy_EINVAL. stage_step.
Qed.

Lemma resource_lookups_select_no_pin (calls : list kcall) :
  Forall (fun c => resource_lookup_call c = true) calls ->
  pin_selects calls = [].
Proof.
  induction 1 as [|c calls Hc _ IH]; [reflexivity|].
  destruct c; try discriminate Hc; exact IH.
Qed.

(** C10.  Attaching fails when a required pin configuration is missing.
    If the look-up of any one of the three names of [pctl_names] fails,
    [fpc1020_probe] returns a negative error code and has made nothing but
    resource look-ups: no pin state was selected, the interrupt was not
    requested, the sysfs group was not created and the driver was not
    registered for display notifications. *)
Theorem probe_fails_when_pin_state_missing (k : kernel_t) (cfg : kconfig)
    (pdev : platform_device) (n : string) (s : sys) :
  In n pctl_names ->
  (forall h p, IS_ERR (k h (pinctrl_lookup_state p n)) = true) ->
  exists rc s' calls,
    fpc1020_probe k cfg pdev s = Done rc s'
    /\ rc < 0
    /\ trace s' = trace s ++ calls
    /\ Forall (fun c => resource_lookup_call c = true) calls
    /\ pin_selects calls = []
    /\ (forall irq, ~ In (devm_request_threaded_irq irq) calls)
    /\ ~ In sysfs_create_group calls
    /\ ~ In fb_register_client calls.
Proof.
  intros Hin Hmiss.
  destruct (probe_fails_early k cfg pdev n Hin Hmiss s)
    as (rc & s' & calls & Hrun & Hrc & Htr & Hcalls).
  exists rc, s', calls. repeat (split; [assumption|]).
  split; [now apply resource_lookups_select_no_pin|].
  rewrite Forall_forall in Hcalls.
  repeat split; unfold not; intros;
    match goal with
    | Hc : In _ calls |- _ => apply Hcalls in Hc; discriminate Hc
    end.
Qed.

Lemma probe_fails_when_pin_state_missing_witness :
  In "fpc1020_irq_active" pctl_names
  /\ (forall h p,
        IS_ERR (kernel_no_irq_active h
                  (pinctrl_lookup_state p "fpc1020_irq_active")) = true)
  /\ exists rc s',
       fpc1020_probe kernel_no_irq_active board_cfg board_pdev module_loaded
       = Done rc s' /\ rc < 0 /\ pin_selects (trace s') = [].
Proof.
  assert (Hin : In "fpc1020_irq_active" pctl_names) by (simpl; auto).
  assert (Hmiss : forall h p,
             IS_ERR (kernel_no_irq_active h
                       (pinctrl_lookup_state p "fpc1020_irq_active")) = true)
    by (intros h p; reflexivity).
  split; [exact Hin|]. split; [exact Hmiss|].
  destruct (probe_fails_when_pin_state_missing kernel_no_irq_active
              board_cfg board_pdev "fpc1020_irq_active" module_loaded
              Hin Hmiss)
    as (rc & s' & calls & Hrun & Hrc & Htr & _ & Hsel & _).
  exists rc, s'. split; [exact Hrun|]. split; [exact Hrc|].
  rewrite Htr. exact Hsel.
Defined.

(** ** Array bounds and the mutex, over every entry *)

Lemma well_locked_app (h : bool) (a b : list kcall) :
  well_locked h (a ++ b) =
  match well_locked h a with
  | Some h1 => well_locked h1 b
  | None => None
  end.
Proof.
  revert h; induction a as [|c a IH]; intros h; [reflexivity|].
  destruct c; cbn; try apply IH; destruct h; try reflexivity; apply IH.
Qed.

Lemma completes_bind {A B} (h h1 h2 : bool) (m : M A) (f : A -> M B) :
  completes h h1 m -> (forall a, completes h1 h2 (f a)) ->
  completes h h2 (bind m f).
Proof.
  intros Hm Hf s Hwf.
  destruct (Hm s Hwf) as (a & s1 & c1 & Hrun & Hwf1 & Htr & Hl).
  destruct (Hf a s1 Hwf1) as (b & s2 & c2 & Hrun2 & Hwf2 & Htr2 & Hl2).
  exists b, s2, (c1 ++ c2). rewrite (bind_Done _ _ _ _ _ Hrun).
  split; [exact Hrun2|]. split; [exact Hwf2|].
  split; [now rewrite Htr2, Htr, app_assoc|].
  now rewrite well_locked_app, Hl.
Qed.

Lemma completes_ret {A} (h : bool) (a : A) : completes h h (ret a).
Proof.
  intros s Hwf. exists a, s, []. rewrite app_nil_r. auto.
Qed.

Lemma completes_call (k : kernel_t) (h : bool) (c : kcall) :
  lock_free c = true -> completes h h (call k c).
Proof.
  intros Hc s Hwf. exists (k (trace s) c), (log s [c]), [c].
  repeat split; try apply Hwf. destruct c; try discriminate Hc; reflexivity.
Qed.

Lemma completes_lock (k : kernel_t) : completes false true (call k mutex_lock).
Proof.
  intros s Hwf. exists (k (trace s) mutex_lock), (log s [mutex_lock]),
    [mutex_lock].
  repeat split; apply Hwf.
Qed.

Lemma completes_unlock (k : kernel_t) :
  completes true false (call k mutex_unlock).
Proof.
  intros s Hwf. exists (k (trace s) mutex_unlock), (log s [mutex_unlock]),
    [mutex_unlock].
  repeat split; apply Hwf.
Qed.

Lemma completes_get_drv (h : bool) : completes h h get_drv.
Proof.
  intros s Hwf. exists (drv s), s, []. rewrite app_nil_r. auto.
Qed.

Lemma completes_get_irq_enabled (h : bool) : completes h h get_irq_enabled.
Proof.
  intros s Hwf. exists (irq_enabled s), s, []. rewrite app_nil_r. auto.
Qed.

Lemma completes_put_irq_enabled (h b : bool) :
  completes h h (put_irq_enabled b).
Proof.
  intros s Hwf. exists tt, (upd_irq_enabled b s), []. cbn.
  rewrite app_nil_r. auto.
Qed.

(** A change of the driver data that leaves both arrays their length. *)
Lemma completes_modify_drv (h : bool) (f : fpc1020_data -> fpc1020_data) :
  (forall d, List.length (pinctrl_state (f d)) = List.length (pinctrl_state d)
             /\ List.length (vreg (f d)) = List.length (vreg d)) ->
  completes h h (modify_drv f).
Proof.
  intros Hf s [Hp Hv]. exists tt, (upd_drv f s), []. cbn.
  rewrite app_nil_r. repeat split; auto.
  - unfold wf_arrays; cbn. now rewrite (proj1 (Hf (drv s))).
  - unfold wf_arrays; cbn. now rewrite (proj2 (Hf (drv s))).
Qed.

(** Every name, known or not, is handled within the three slots. *)
Lemma completes_select_pin_ctl (k : kernel_t) (h : bool) (nm : string) :
  completes h h (select_pin_ctl k nm).
Proof.
  intros s Hwf. pose proof Hwf as [Hp _].
  destruct (pinctrl_state (drv s)) as [|lo [|hi [|irq [|]]]] eqn:Hpin;
    try discriminate Hp.
  unfold select_pin_ctl, pctl_names. cbn [select_pin_ctl_from].
  repeat match goal with
  | |- context [String.eqb ?a nm] => destruct (String.eqb a nm)
  end;
  run_prims; unfold index; rewrite ?Hpin; cbn;
  first [ eexists _, _, [_]; repeat split; solve [apply Hwf | reflexivity]
        | exists (- EINVAL), s, []; rewrite app_nil_r; auto ].
Qed.

(** The rail slot 0, the one every rail name stands for. *)
Lemma completes_vreg_setup (k : kernel_t) (h : bool) (enable : bool) :
  completes h h (vreg_setup k 0 enable).
Proof.
  intros s Hwf. pose proof Hwf as [_ Hv].
  destruct (vreg (drv s)) as [|r0 [|r1 [|r2 [|]]]] eqn:Hvreg;
    try discriminate Hv.
  assert (Hslot : lookup (vreg (drv s)) 0 = Some r0)
    by (rewrite Hvreg; reflexivity).
  destruct (Z.eqb_spec r0 NULL) as [-> | Hnz].
  - rewrite (vreg_setup_null k s 0 enable Hslot).
    exists (- EINVAL), s, []. rewrite app_nil_r. auto.
  - destruct enable.
    + destruct (vreg_setup_enable_run k s 0 r0 _ Hslot eq_refl Hnz)
        as (rc & Hrun).
      rewrite Hrun. eexists _, _, _. split; [reflexivity|].
      split; [apply Hwf|]. split; [reflexivity|].
      split_rail_answers; destruct h; reflexivity.
    + rewrite (vreg_setup_disable_run k s 0 r0 Hslot Hnz).
      eexists _, _, _. split; [reflexivity|].
      split; [apply Hwf|]. split; [reflexivity|].
      split_rail_answers; destruct h; reflexivity.
Qed.

Create HintDb locks.
#[local] Hint Resolve completes_ret completes_lock completes_unlock
  completes_get_drv completes_get_irq_enabled completes_put_irq_enabled
  completes_select_pin_ctl completes_vreg_setup : locks.

Lemma completes_assoc {A B C} (h h' : bool) (m : M A) (f : A -> M B)
    (g : B -> M C) :
  completes h h' (bind m (fun a => bind (f a) g)) ->
  completes h h' (bind (bind m f) g).
Proof.
  intros H s Hwf. rewrite run_bind_assoc. exact (H s Hwf).
Qed.

(** Walks through a run in program order, following the mutex: a branch is
    split before the step after it is looked at. *)
Ltac completes_go :=
  lazymatch goal with
  | |- completes _ _ (ret _) => apply completes_ret
  | |- completes _ _ (bind (if ?c then _ else _) _) =>
      destruct c; completes_go
  | |- completes _ _ (bind (match ?c with _ => _ end) _) =>
      destruct c; completes_go
  | |- completes _ _ (bind (bind _ _) _) =>
      apply completes_assoc; completes_go
  | |- completes _ _ (bind _ _) =>
      eapply completes_bind; [completes_go | intros ?; completes_go]
  | |- completes _ _ (call _ mutex_lock) => apply completes_lock
  | |- completes _ _ (call _ mutex_unlock) => apply completes_unlock
  | |- completes _ _ (call _ _) => apply completes_call; reflexivity
  | |- completes _ _ (modify_drv _) =>
      apply completes_modify_drv; intros ?; split; reflexivity
  | |- completes _ _ (if ?c then _ else _) => destruct c; completes_go
  | |- completes _ _ (match ?c with _ => _ end) => destruct c; completes_go
  | |- completes _ _ _ => solve [eauto with locks]
  end.

Lemma completes_hw_reset (k : kernel_t) (h : bool) : completes h h (hw_reset k).
Proof. unfold hw_reset. completes_go. Qed.

Lemma completes_config_irq (k : kernel_t) (enabled : bool) :
  completes false false (config_irq k enabled).
Proof. unfold config_irq. completes_go. Qed.

Lemma completes_device_prepare (k : kernel_t) (enable : bool) :
  completes false false (device_prepare k enable).
Proof.
  unfold device_prepare, VCC_SPI, VDD_IO, VDD_ANA. completes_go.
Qed.

#[local] Hint Resolve completes_hw_reset completes_config_irq
  completes_device_prepare : locks.

(** The three rail names all stand for slot 0. *)
Lemma name_to_fpc_rail_known (nm : string) :
  existsb (String.eqb nm) rail_names = true -> name_to_fpc_rail nm = 0.
Proof.
  unfold name_to_fpc_rail, rail_names. cbn [existsb].
  destruct (String.eqb nm "vdd_ana"); [reflexivity|].
  destruct (String.eqb nm "vcc_spi"); [reflexivity|].
  destruct (String.eqb nm "vdd_io"); [reflexivity|].
  discriminate.
Qed.

Lemma completes_regulator_enable_store (k : kernel_t) (buf : string)
    (count : Z) :
  names_rail buf = true ->
  completes false false (regulator_enable_store k buf count).
Proof.
  unfold names_rail, regulator_enable_store.
  destruct (sscanf_name_op buf) as [[n nm] op].
  destruct (negb (n =? NUM_PARAMS_REG_ENABLE_SET)); [intros _; completes_go|].
  cbn [orb].
  destruct (Ascii.eqb op "e") eqn:He; cbn [orb negb].
  - intros Hnm. rewrite (name_to_fpc_rail_known nm Hnm). completes_go.
  - destruct (Ascii.eqb op "d") eqn:Hd; cbn [orb negb].
    + intros Hnm. rewrite (name_to_fpc_rail_known nm Hnm). completes_go.
    + intros _. completes_go.
Qed.

Lemma completes_enter (k : kernel_t) (e : entry) :
  names_rail_entry e = true -> completes false false (enter k e).
Proof.
  destruct e as [a buf count| |irq|val evdata]; cbn [enter names_rail_entry].
  - destruct a; cbn [attr_store]; intros Hrail;
      try (apply completes_regulator_enable_store; exact Hrail).
    + unfold pinctl_set_store. completes_go.
    + unfold device_prepare_store. completes_go.
    + unfold hw_reset_store. completes_go.
    + unfold wakeup_enable_store. completes_go.
    + unfold clk_enable_store. completes_go.
    + unfold irq_ack. completes_go.
    + unfold fingerdown_wait_store. completes_go.
    + unfold proximity_state_store. completes_go.
  - intros _. unfold irq_get. completes_go.
  - intros _. unfold fpc1020_irq_handler. completes_go.
  - intros _. unfold fpc_fb_notif_callback. completes_go.
Qed.

(** X1.  Array bounds and lock order over every entry.  From a state whose
    two arrays have their three slots, any list of sysfs writes, reads of
    [irq], interrupts and framebuffer notifications runs to its end without
    an out-of-bounds read, as long as no write to [regulator_enable] parses
    into a name that is none of the three rails; the arrays keep their
    slots, and along the calls made the mutex is never locked while held,
    never unlocked while free, and is free at the end. *)
Theorem entries_stay_in_bounds_and_lock_in_order (k : kernel_t)
    (es : list entry) (s : sys) :
  wf_arrays s ->
  forallb names_rail_entry es = true ->
  exists s' calls,
    enter_all k es s = Done tt s'
    /\ wf_arrays s'
    /\ trace s' = trace s ++ calls
    /\ well_locked false calls = Some false.
Proof.
  intros Hwf Hes.
  assert (H : completes false false (enter_all k es)).
  { induction es as [|e es IH]; cbn [enter_all]; [apply completes_ret|].
    cbn [forallb] in Hes. apply andb_prop in Hes as [He Hes].
    eapply completes_bind; [apply completes_enter; exact He|].
    intros _. apply IH. exact Hes. }
  destruct (H s Hwf) as ([] & s' & calls & Hrun & Hwf' & Htr & Hl).
  exists s', calls. auto.
Qed.

Lemma entries_stay_in_bounds_and_lock_in_order_witness :
  wf_arrays attached
  /\ forallb names_rail_entry session = true
  /\ exists s' calls,
       enter_all kernel_io_errors session attached = Done tt s'
       /\ wf_arrays s'
       /\ trace s' = trace attached ++ calls
       /\ well_locked false calls = Some false.
Proof.
  assert (Hwf : wf_arrays attached) by (split; reflexivity).
  split; [exact Hwf|]. split; [reflexivity|].
  apply (entries_stay_in_bounds_and_lock_in_order kernel_io_errors session
           attached Hwf eq_refl).
Defined.

(** ** The interrupt line over every entry *)

Lemma line_toggled_app (b : bool) (x y : list kcall) :
  line_toggled b (x ++ y) =
  match line_toggled b x with
  | Some b1 => line_toggled b1 y
  | None => None
  end.
Proof.
  revert b; induction x as [|c x IH]; intros b; [reflexivity|].
  destruct c; cbn; try apply IH; destruct b; try reflexivity; apply IH.
Qed.

Lemma tracks_bind {A B} (m : M A) (f : A -> M B) :
  tracks_line m -> (forall a, tracks_line (f a)) -> tracks_line (bind m f).
Proof.
  intros Hm Hf s. unfold bind.
  destruct (Hm s) as (c1 & Htr & Hl). destruct (m s) as [a s1|s1|s1].
  - destruct (Hf a s1) as (c2 & Htr2 & Hl2). cbn [state_of] in *.
    exists (c1 ++ c2). split; [now rewrite Htr2, Htr, app_assoc|].
    now rewrite line_toggled_app, Hl.
  - exists c1. auto.
  - exists c1. auto.
Qed.

Lemma tracks_ret {A} (a : A) : tracks_line (ret a).
Proof. intros s. exists []. cbn. now rewrite app_nil_r. Qed.

(** Any call but [enable_irq] and [disable_irq]. *)
Lemma tracks_call (k : kernel_t) (c : kcall) :
  (forall b, line_toggled b [c] = Some b) -> tracks_line (call k c).
Proof. intros Hc s. exists [c]. split; [reflexivity | apply Hc]. Qed.

Lemma tracks_get_drv : tracks_line get_drv.
Proof. intros s. exists []. cbn. now rewrite app_nil_r. Qed.

Lemma tracks_modify_drv (f : fpc1020_data -> fpc1020_data) :
  tracks_line (modify_drv f).
Proof. intros s. exists []. cbn. now rewrite app_nil_r. Qed.

Lemma tracks_put_soc_symlink (p : ptr) : tracks_line (put_soc_symlink p).
Proof. intros s. exists []. cbn. now rewrite app_nil_r. Qed.

Lemma tracks_index {A} (a : list A) (i : Z) : tracks_line (index a i).
Proof.
  intros s. exists []. rewrite app_nil_r. unfold index.
  destruct (lookup a i); auto.
Qed.

(** The one place where the line is switched. *)
Lemma tracks_config_irq (k : kernel_t) (enabled : bool) :
  tracks_line (config_irq k enabled).
Proof.
  intros s. rewrite config_irq_run.
  destruct (Bool.eqb enabled (irq_enabled s)) eqn:E.
  - exists [mutex_lock; mutex_unlock]. auto.
  - cbv zeta. eexists. split; [reflexivity|].
    destruct enabled, (irq_enabled s); try discriminate E; reflexivity.
Qed.

Create HintDb line.
#[local] Hint Resolve tracks_ret tracks_get_drv tracks_modify_drv
  tracks_put_soc_symlink tracks_index tracks_config_irq : line.

Ltac tracks_step :=
  match goal with
  | |- tracks_line (bind _ _) => apply tracks_bind; [|intros]
  | |- tracks_line (call _ _) => apply tracks_call; intros []; reflexivity
  | |- tracks_line (if ?c then _ else _) => destruct c
  | |- tracks_line (match ?c with _ => _ end) => destruct c
  | |- tracks_line _ => solve [auto with line]
  end.
Ltac tracks := repeat tracks_step.

Lemma tracks_select_pin_ctl (k : kernel_t) (nm : string) :
  tracks_line (select_pin_ctl k nm).
Proof.
  unfold select_pin_ctl. generalize 0 as i. generalize pctl_names as names.
  induction names as [|n rest IH]; intros i; cbn [select_pin_ctl_from].
  - tracks.
  - destruct (String.eqb n nm); [tracks | apply IH].
Qed.

Lemma tracks_vreg_setup (k : kernel_t) (rail : Z) (enable : bool) :
  tracks_line (vreg_setup k rail enable).
Proof. unfold vreg_setup. tracks. Qed.

#[local] Hint Resolve tracks_select_pin_ctl tracks_vreg_setup : line.

Lemma tracks_hw_reset (k : kernel_t) : tracks_line (hw_reset k).
Proof. unfold hw_reset. tracks. Qed.

Lemma tracks_device_prepare (k : kernel_t) (enable : bool) :
  tracks_line (device_prepare k enable).
Proof. unfold device_prepare. tracks. Qed.

#[local] Hint Resolve tracks_hw_reset tracks_device_prepare : line.

Lemma tracks_enter (k : kernel_t) (e : entry) : tracks_line (enter k e).
Proof.
  destruct e as [a buf count| |irq|val evdata]; cbn [enter].
  - destruct a; cbn [attr_store].
    + unfold pinctl_set_store. tracks.
    + unfold device_prepare_store. tracks.
    + unfold regulator_enable_store. tracks.
    + unfold hw_reset_store. tracks.
    + unfold wakeup_enable_store. tracks.
    + unfold clk_enable_store. tracks.
    + unfold irq_ack. tracks.
    + unfold fingerdown_wait_store. tracks.
    + unfold proximity_state_store. tracks.
  - unfold irq_get. tracks.
  - unfold fpc1020_irq_handler. tracks.
  - unfold fpc_fb_notif_callback. tracks.
Qed.

Lemma tracks_enter_all (k : kernel_t) (es : list entry) :
  tracks_line (enter_all k es).
Proof.
  induction es as [|e es IH]; cbn [enter_all]; [apply tracks_ret|].
  apply tracks_bind; [apply tracks_enter | intros _; exact IH].
Qed.

Lemma tracks_get_regulators (k : kernel_t) :
  tracks_line (fpc1020_get_regulators k).
Proof.
  unfold fpc1020_get_regulators. generalize 0 as i.
  induction (Z.to_nat FPC_VREG_MAX) as [|n IH]; intros i;
    cbn [get_regulators_from]; tracks.
Qed.

Lemma tracks_request_named_gpio (k : kernel_t) (label : string)
    (set_gpio : Z -> fpc1020_data -> fpc1020_data) :
  tracks_line (fpc1020_request_named_gpio k label set_gpio).
Proof. unfold fpc1020_request_named_gpio. tracks. Qed.

Lemma tracks_lookup_pin_states (k : kernel_t) (names : list string) :
  forall i, tracks_line (lookup_pin_states_from k i names).
Proof.
  induction names as [|n rest IH]; intros i; cbn [lookup_pin_states_from];
    tracks.
Qed.

#[local] Hint Resolve tracks_get_regulators tracks_request_named_gpio
  tracks_lookup_pin_states tracks_enter_all : line.

Lemma tracks_probe (k : kernel_t) (cfg : kconfig) (pdev : platform_device) :
  tracks_line (fpc1020_probe k cfg pdev).
Proof.
  unfold fpc1020_probe, probe_irq_and_sysfs, probe_soc_symlink. tracks.
Qed.

(** X2.  The interrupt line over the life of the driver.  From the loaded
    module, attach the driver and make any entries, in any order, with any
    arguments and any kernel answers: along all the calls made, up to the
    end or to where the run stops, [enable_irq] is only called while the
    line is disabled and [disable_irq] only while it is enabled, starting
    from the enabled line [devm_request_threaded_irq] hands over; and the
    static [irq_enabled] ends as the state of the line.  The same holds
    from any state on for the entries alone. *)
Theorem irq_line_never_switched_twice (k : kernel_t) (es : list entry) :
  (forall cfg pdev,
      let s' := state_of ((fpc1020_probe k cfg pdev ;;; enter_all k es)
                            module_loaded) in
      line_toggled true (trace s') = Some (irq_enabled s'))
  /\ (forall s,
        let s' := state_of (enter_all k es s) in
        exists calls,
          trace s' = trace s ++ calls
          /\ line_toggled (irq_enabled s) calls = Some (irq_enabled s')).
Proof.
  split.
  - intros cfg pdev s'. subst s'.
    assert (H : tracks_line (fpc1020_probe k cfg pdev ;;; enter_all k es)).
    { apply tracks_bind; [apply tracks_probe|]. intros _.
      apply tracks_enter_all. }
    destruct (H module_loaded) as (calls & Htr & Hl).
    rewrite Htr. exact Hl.
  - intros s. apply tracks_enter_all.
Qed.

(** ** The gate and the policy over every entry *)

Lemma quiet_ret {A} (a : A) : quiet (ret a).
Proof. intros s; reflexivity. Qed.

Lemma quiet_bind {A B} (m : M A) (f : A -> M B) :
  quiet m -> (forall a, quiet (f a)) -> quiet (bind m f).
Proof.
  intros Hm Hf s. unfold bind. specialize (Hm s).
  destruct (m s) as [a s1|s1|s1]; cbn [state_of] in *; [|exact Hm..].
  rewrite Hf. exact Hm.
Qed.

Lemma quiet_call (k : kernel_t) (c : kcall) : quiet (call k c).
Proof. intros s; reflexivity. Qed.

Lemma quiet_get_drv : quiet get_drv.
Proof. intros s; reflexivity. Qed.

Lemma quiet_index {A} (a : list A) (i : Z) : quiet (index a i).
Proof. intros s. unfold index. destruct (lookup a i); reflexivity. Qed.

(** A change of the driver data that leaves the display state and the
    proximity state alone. *)
Lemma quiet_modify_drv (f : fpc1020_data -> fpc1020_data) :
  (forall d, fb_black (f d) = fb_black d
             /\ proximity_state (f d) = proximity_state d) ->
  quiet (modify_drv f).
Proof.
  intros Hf s. unfold policy_inputs. cbn.
  destruct (Hf (drv s)) as [-> ->]. reflexivity.
Qed.

Create HintDb quiet.
#[local] Hint Resolve quiet_ret quiet_call quiet_get_drv quiet_index : quiet.

Ltac quiet_step :=
  match goal with
  | |- quiet (bind _ _) => apply quiet_bind; [|intros]
  | |- quiet (modify_drv _) =>
      apply quiet_modify_drv; intros ?; split; reflexivity
  | |- quiet (if ?c then _ else _) => destruct c
  | |- quiet (match ?c with _ => _ end) => destruct c
  | |- quiet _ => solve [auto with quiet]
  end.
Ltac quiets := repeat quiet_step.

Lemma quiet_select_pin_ctl (k : kernel_t) (nm : string) :
  quiet (select_pin_ctl k nm).
Proof.
  unfold select_pin_ctl. generalize 0 as i. generalize pctl_names as names.
  induction names as [|n rest IH]; intros i; cbn [select_pin_ctl_from].
  - quiets.
  - destruct (String.eqb n nm); [quiets | apply IH].
Qed.

Lemma quiet_vreg_setup (k : kernel_t) (rail : Z) (enable : bool) :
  quiet (vreg_setup k rail enable).
Proof. unfold vreg_setup. quiets. Qed.

#[local] Hint Resolve quiet_select_pin_ctl quiet_vreg_setup : quiet.

Lemma quiet_hw_reset (k : kernel_t) : quiet (hw_reset k).
Proof. unfold hw_reset. quiets. Qed.

Lemma quiet_device_prepare (k : kernel_t) (enable : bool) :
  quiet (device_prepare k enable).
Proof. unfold device_prepare. quiets. Qed.

#[local] Hint Resolve quiet_hw_reset quiet_device_prepare : quiet.

(** Every entry but a proximity write and a framebuffer notification. *)
Lemma quiet_enter (k : kernel_t) (e : entry) :
  match e with
  | sysfs_write dev_attr_proximity_state _ _ | fb_notify _ _ => True
  | _ => quiet (enter k e)
  end.
Proof.
  destruct e as [a buf count| |irq|val evdata]; cbn [enter]; [|..|exact I].
  - destruct a; cbn [attr_store]; try exact I.
    + unfold pinctl_set_store. quiets.
    + unfold device_prepare_store. quiets.
    + unfold regulator_enable_store. quiets.
    + unfold hw_reset_store. quiets.
    + unfold wakeup_enable_store. quiets.
    + unfold clk_enable_store. quiets.
    + unfold irq_ack. quiets.
    + unfold fingerdown_wait_store. quiets.
  - unfold irq_get. quiets.
  - unfold fpc1020_irq_handler. quiets.
Qed.

(** [config_irq] with the table's target, after the input was recorded. *)
Lemma gate_agrees_after_config_irq (k : kernel_t) (s : sys) :
  gate_agrees
    (state_of (config_irq k (fusion (fb_black (drv s))
                                    (proximity_state (drv s))) s)).
Proof.
  destruct (config_irq_post k (fusion (fb_black (drv s))
                                      (proximity_state (drv s))) s)
    as (s' & Hrun & Hgate & Hdrv).
  rewrite Hrun. unfold gate_agrees. cbn [state_of].
  now rewrite Hgate, Hdrv.
Qed.

Lemma gate_agrees_proximity_state_store (k : kernel_t) (buf : string)
    (count : Z) (s : sys) :
  gate_agrees s ->
  gate_agrees (state_of (proximity_state_store k buf count s)).
Proof.
  intros Hgate. unfold proximity_state_store.
  destruct (kstrtoint buf) as [val|]; [|exact Hgate].
  run_prims. cbn [fb_black proximity_state set_proximity_state].
  destruct (fb_black (drv s)) eqn:Hfb.
  - set (s1 := upd_drv (set_proximity_state (truthy val)) s).
    assert (Hfb1 : fb_black (drv s1) = true) by exact Hfb.
    pose proof (gate_agrees_after_config_irq k s1) as H.
    rewrite Hfb1 in H. change (proximity_state (drv s1)) with (truthy val) in H.
    destruct (truthy val); cbn [fusion] in H; unfold bind;
      match goal with
      | |- context [config_irq k ?b s1] =>
          destruct (config_irq k b s1); exact H
      end.
  - unfold gate_agrees in *.
    cbn [bind ret state_of upd_drv irq_enabled drv fb_black proximity_state
         set_proximity_state].
    rewrite Hgate, Hfb. destruct (proximity_state (drv s)), (truthy val);
      reflexivity.
Qed.

Lemma gate_agrees_fb_notif_callback (k : kernel_t) (val : Z)
    (evdata : option (option Z)) (s : sys) :
  gate_agrees s ->
  gate_agrees (state_of (fpc_fb_notif_callback k val evdata s)).
Proof.
  intros Hgate. unfold fpc_fb_notif_callback.
  destruct (negb (val =? FB_EVENT_BLANK)); [exact Hgate|].
  destruct evdata as [[b|]|]; [|exact Hgate|exact Hgate].
  destruct (b mod 2 ^ 32 =? FB_BLANK_POWERDOWN).
  - run_prims. cbn [fb_black proximity_state set_fb_black].
    set (s1 := upd_drv (set_fb_black true) s).
    destruct (proximity_state (drv s)) eqn:Hprox.
    + pose proof (gate_agrees_after_config_irq k s1) as H.
      change (fb_black (drv s1)) with true in H.
      change (proximity_state (drv s1)) with (proximity_state (drv s)) in H.
      rewrite Hprox in H. cbn [fusion] in H. unfold bind.
      destruct (config_irq k false s1); exact H.
    + unfold gate_agrees in *. cbn. rewrite Hgate, Hprox.
      destruct (fb_black (drv s)); reflexivity.
  - destruct ((b mod 2 ^ 32 =? FB_BLANK_UNBLANK)
              || (b mod 2 ^ 32 =? FB_BLANK_NORMAL)).
    + run_prims.
      set (s1 := upd_drv (set_fb_black false) s).
      pose proof (gate_agrees_after_config_irq k s1) as H.
      change (fb_black (drv s1)) with false in H.
      assert (Hf : forall c, fusion false c = true) by (intros []; reflexivity).
      rewrite Hf in H. unfold bind.
      destruct (config_irq k true s1); exact H.
    + exact Hgate.
Qed.

Lemma gate_agrees_quiet {A} (m : M A) (s : sys) :
  quiet m -> gate_agrees s -> gate_agrees (state_of (m s)).
Proof.
  intros Hq Hgate. specialize (Hq s). unfold policy_inputs in Hq.
  injection Hq as Hi Hf Hp. unfold gate_agrees. now rewrite Hi, Hf, Hp.
Qed.

(** X3.  The gate follows the policy over entries that do not overlap.
    From a state where the gate is where the fusion table puts it, it is
    there again after any list of entries made one after the other, each
    run to its end before the next starts, whatever their arguments and the
    kernel's answers: the interrupt is disabled exactly while the display
    is blanked and the sensor is covered.  (The driver holds its mutex only
    inside [config_irq]: for updates that overlap, see
    [overlap_breaks_gate_agreement].) *)
Theorem gate_agrees_after_entries (k : kernel_t) (es : list entry) (s : sys) :
  gate_agrees s ->
  let s' := state_of (enter_all k es s) in
  gate_agrees s'
  /\ (irq_enabled s' = false <->
      fb_black (drv s') = true /\ proximity_state (drv s') = true).
Proof.
  intros Hgate s'.
  assert (H : gate_agrees s').
  { subst s'. revert s Hgate.
    induction es as [|e es IH]; intros s Hgate; [exact Hgate|].
    cbn [enter_all]. unfold bind.
    assert (He : gate_agrees (state_of (enter k e s))).
    { pose proof (quiet_enter k e) as Hq.
      destruct e as [a buf count| |irq|val evdata];
        [destruct a|..];
        try (apply gate_agrees_quiet; [exact Hq | exact Hgate]).
      - now apply gate_agrees_proximity_state_store.
      - now apply gate_agrees_fb_notif_callback. }
    destruct (enter k e s) as [a s1|s1|s1]; [|exact He..].
    apply IH. exact He. }
  split; [exact H|]. unfold gate_agrees in H. rewrite H.
  destruct (fb_black (drv s')), (proximity_state (drv s')); cbn;
    split; try discriminate; try tauto; intros [? ?]; discriminate.
Qed.

Lemma gate_agrees_after_entries_witness :
  gate_agrees attached
  /\ gate_agrees (state_of (enter_all kernel_ok session attached)).
Proof.
  assert (Hgate : gate_agrees attached) by reflexivity.
  split; [exact Hgate|].
  exact (proj1 (gate_agrees_after_entries kernel_ok session attached Hgate)).
Defined.

(** ** What attaching leaves behind *)

Lemma returns_bind {A B} (m : M A) (f : A -> M B) (s : sys)
    (Q : B -> sys -> Prop) :
  returns (m s) (fun a s1 => returns (f a s1) Q) -> returns (bind m f s) Q.
Proof. unfold bind. destruct (m s); [auto | intros [] ..]. Qed.

Lemma returns_weaken {A} (o : outcome A) (Q R : A -> sys -> Prop) :
  returns o Q -> (forall a s, Q a s -> R a s) -> returns o R.
Proof. destruct o; cbn; auto. Qed.

Lemma run_index_vreg_conf {B} (f : vreg_config -> M B) (s : sys) :
  bind (index vreg_conf 0) f s =
  f {| name := "vdd_ana"; vmin := 1800000; vmax := 1800000;
       ua_load := 6000 |} s.
Proof. reflexivity. Qed.

Lemma attached_data_slots (d : fpc1020_data) :
  attached_data d ->
  exists r0 lo hi irq,
    vreg d = [r0; NULL; NULL] /\ r0 <> NULL
    /\ pinctrl_state d = [lo; hi; irq].
Proof.
  intros (r0 & lo & hi & irq & Hv & Hr & Hp & _).
  exists r0, lo, hi, irq. repeat split; auto.
  intros ->. discriminate Hr.
Qed.

(** The fields a successful probe is judged by are untouched by a change
    of the other fields. *)
Lemma attached_data_frame (d d' : fpc1020_data) :
  attached_data d ->
  vreg d' = vreg d -> pinctrl_state d' = pinctrl_state d ->
  fingerprint_pinctrl d' = fingerprint_pinctrl d ->
  irq_gpio d' = irq_gpio d -> rst_gpio d' = rst_gpio d ->
  wakeup_enabled d' = 0 -> fb_black d' = false ->
  proximity_state d' = proximity_state d ->
  wait_finger_down d' = false ->
  attached_data d'.
Proof.
  intros (r0 & lo & hi & irq & Hv & Hr & Hp & Hlo & Hhi & Hirq & Hpc & Hg1
          & Hg2 & Hw & Hfb & Hpr & Hwf) E1 E2 E3 E4 E5 E6 E7 E8 E9.
  exists r0, lo, hi, irq.
  rewrite E1, E2, E3, E4, E5, E6, E7, E8, E9. repeat split; assumption.
Qed.

Lemma device_prepare_boot_returns (k : kernel_t) (s : sys) :
  attached_data (drv s) -> prepared (drv s) = false ->
  returns (device_prepare k true s)
    (fun _ s' => attached_data (drv s')).
Proof.
  intros Hd Hprep.
  destruct (attached_data_slots _ Hd)
    as (r0 & lo & hi & irq & Hv & Hr & Hp).
  destruct (device_prepare_enable_run k s lo hi irq r0 NULL NULL _
              Hp Hv Hr Hprep eq_refl) as (h1 & h2 & h3 & Hrun).
  rewrite Hrun. cbn [returns].
  apply (attached_data_frame (drv s)); try reflexivity; try exact Hd;
    destruct Hd as (? & ? & ? & ? & ? & ? & ? & ? & ? & ? & ? & ? & ? & ?
                    & ? & ? & ?); assumption.
Qed.

Lemma hw_reset_returns (k : kernel_t) (s : sys) :
  attached_data (drv s) ->
  returns (hw_reset k s) (fun _ s' => drv s' = drv s).
Proof.
  intros Hd.
  destruct (attached_data_slots _ Hd)
    as (r0 & lo & hi & irq & Hv & Hr & Hp).
  rewrite (hw_reset_run k s lo hi irq Hp). reflexivity.
Qed.

Lemma attached_data_flags (d : fpc1020_data) :
  attached_data d ->
  wakeup_enabled d = 0 /\ fb_black d = false /\ wait_finger_down d = false.
Proof.
  intros (? & ? & ? & ? & ? & ? & ? & ? & ? & ? & ? & ? & ? & ? & ? & ? & ?).
  auto.
Qed.

Lemma run_put_soc_symlink {B} (p : ptr) (f : unit -> M B) (s : sys) :
  bind (put_soc_symlink p) f s =
  f tt {| drv := drv s; irq_enabled := irq_enabled s; soc_symlink := p;
          trace := trace s |}.
Proof. reflexivity. Qed.

(** Closes a leaf of the probe: the driver data differs from data known to
    be attached only in fields the judgement does not read, or reads as
    set. *)
Ltac attached_leaf Hd :=
  apply (attached_data_frame _ _ Hd);
  cbn [drv log upd_drv vreg pinctrl_state fingerprint_pinctrl irq_gpio
       rst_gpio wakeup_enabled fb_black proximity_state wait_finger_down
       prepared ttw_ws set_fb_black set_wait_finger_down set_wakeup_enabled
       set_ttw_ws set_prepared];
  first [ reflexivity
        | apply (attached_data_flags _ Hd) ].

Lemma probe_soc_symlink_returns (k : kernel_t) (pdev : platform_device)
    (rc : Z) (s : sys) :
  attached_data (drv s) ->
  returns (probe_soc_symlink k pdev rc s)
    (fun rc' s' =>
       (rc' = rc \/ rc' = 0) /\ attached_data (drv s')
       /\ (grandparent_name pdev = Some "platform" ->
           exists h, trace s' = h ++ [fb_register_client])).
Proof.
  intros Hd. unfold probe_soc_symlink.
  destruct (grandparent_name pdev) as [nm|];
    [|cbn; repeat split; auto; discriminate].
  destruct (String.eqb_spec nm "platform") as [-> | Hnm]; cbn [negb].
  - run_prims. rewrite run_put_soc_symlink. run_prims.
    apply returns_bind.
    eapply returns_weaken; [apply hw_reset_returns; exact Hd|].
    intros [] s1 Hdrv. run_prims. cbn [returns ret drv log upd_drv].
    split; [auto|]. split; [rewrite Hdrv; attached_leaf Hd|].
    intros _. eexists. reflexivity.
  - cbn. repeat split; auto. intros Heq. injection Heq as ->. now elim Hnm.
Qed.

Lemma truthy_false_zero (z : Z) : truthy z = false -> z = 0.
Proof. unfold truthy. intros H. apply negb_false_iff in H. now apply Z.eqb_eq. Qed.

(** Steps of a run whose driver data is known to be in [I]: the value a
    call returns and the trace are forgotten. *)
Lemma returns_call {B} (I : fpc1020_data -> Prop) (k : kernel_t) (c : kcall)
    (f : Z -> M B) (s : sys) (Q : B -> sys -> Prop) :
  I (drv s) ->
  (forall v s1, I (drv s1) -> returns (f v s1) Q) ->
  returns (bind (call k c) f s) Q.
Proof. intros Hi H. rewrite run_call. apply H. exact Hi. Qed.

Lemma returns_modify_drv {B} (I : fpc1020_data -> Prop)
    (g : fpc1020_data -> fpc1020_data) (f : unit -> M B) (s : sys)
    (Q : B -> sys -> Prop) :
  I (g (drv s)) ->
  (forall s1, I (drv s1) -> returns (f tt s1) Q) ->
  returns (bind (modify_drv g) f s) Q.
Proof. intros Hi H. rewrite run_modify_drv. apply H. exact Hi. Qed.

Lemma returns_get_drv {B} (I : fpc1020_data -> Prop)
    (f : fpc1020_data -> M B) (s : sys) (Q : B -> sys -> Prop) :
  I (drv s) ->
  (forall d, I d -> returns (f d s) Q) ->
  returns (bind get_drv f s) Q.
Proof. intros Hi H. rewrite run_get_drv. apply H. exact Hi. Qed.

Lemma returns_put_soc_symlink {B} (I : fpc1020_data -> Prop) (p : ptr)
    (f : unit -> M B) (s : sys) (Q : B -> sys -> Prop) :
  I (drv s) ->
  (forall s1, I (drv s1) -> returns (f tt s1) Q) ->
  returns (bind (put_soc_symlink p) f s) Q.
Proof. intros Hi H. rewrite run_put_soc_symlink. apply H. exact Hi. Qed.

(** Attached, and not yet powered. *)
Definition ready (d : fpc1020_data) : Prop :=
  attached_data d /\ prepared d = false.

Lemma ready_frame (d d' : fpc1020_data) :
  ready d ->
  vreg d' = vreg d -> pinctrl_state d' = pinctrl_state d ->
  fingerprint_pinctrl d' = fingerprint_pinctrl d ->
  irq_gpio d' = irq_gpio d -> rst_gpio d' = rst_gpio d ->
  wakeup_enabled d' = 0 -> fb_black d' = false ->
  proximity_state d' = proximity_state d ->
  wait_finger_down d' = false ->
  prepared d' = false ->
  ready d'.
Proof.
  intros [Hd Hp] E1 E2 E3 E4 E5 E6 E7 E8 E9 E10. split; [|exact E10].
  now apply (attached_data_frame d d' Hd).
Qed.

(** One step of a run whose driver data is [ready], kept in the hypothesis
    [H] about the current state. *)
Ltac ready_step H :=
  lazymatch goal with
  | |- returns (bind (bind _ _) _ _) _ => rewrite run_bind_assoc
  | |- returns (bind (ret _) _ _) _ => rewrite run_ret
  | |- returns (bind (call _ _) _ ?s) _ =>
      apply (returns_call ready _ _ _ _ _ H); clear dependent s;
      intros ? s H
  | |- returns (bind get_drv _ ?s) _ =>
      apply (returns_get_drv ready _ _ _ H); intros ? _
  | |- returns (bind (modify_drv _) _ ?s) _ =>
      apply (returns_modify_drv ready);
      [ apply (ready_frame _ _ H);
        first [ reflexivity | apply (attached_data_flags _ (proj1 H))
              | apply (proj2 H) ]
      | clear dependent s; intros s H ]
  | |- returns (bind (if ?c then _ else _) _ _) _ => destruct c eqn:?
  | |- returns ((if ?c then _ else _) _) _ => destruct c eqn:?
  end.

Lemma probe_irq_and_sysfs_returns (k : kernel_t) (cfg : kconfig)
    (pdev : platform_device) (s : sys) :
  ready (drv s) ->
  returns (probe_irq_and_sysfs k cfg pdev s)
    (fun rc s' =>
       rc = 0 ->
       attached_data (drv s')
       /\ (grandparent_name pdev = Some "platform" ->
           exists h, trace s' = h ++ [fb_register_client])).
Proof.
  intros H. unfold probe_irq_and_sysfs.
  repeat ready_step H.
  all: lazymatch goal with
       | Ht : truthy ?v = true |- returns (ret ?v _) _ =>
           cbn [returns ret]; intros Hz; rewrite Hz in Ht; discriminate Ht
       | |- returns (bind (device_prepare _ true) _ _) _ =>
           apply returns_bind;
           eapply returns_weaken;
             [apply device_prepare_boot_returns; apply H|];
           intros [] s1 Hd1;
           eapply returns_weaken;
             [apply probe_soc_symlink_returns; exact Hd1|];
           intros rc' s' [_ Hd'] _; exact Hd'
       | |- returns (probe_soc_symlink _ _ _ _) _ =>
           eapply returns_weaken;
             [apply probe_soc_symlink_returns; apply H|];
           intros rc' s' [_ Hd'] _; exact Hd'
       end.
Qed.

Lemma truthy_negative (z : Z) : (z <? 0) = true -> truthy z = true.
Proof.
  intros H. apply Z.ltb_lt in H. unfold truthy.
  destruct (Z.eqb_spec z 0); [lia | reflexivity].
Qed.

(** A selection, by a known name or not, leaves the driver data alone. *)
Lemma select_pin_ctl_returns (k : kernel_t) (nm : string) (s : sys) :
  List.length (pinctrl_state (drv s)) = 3%nat ->
  returns (select_pin_ctl k nm s) (fun _ s' => drv s' = drv s).
Proof.
  intros Hp.
  destruct (pinctrl_state (drv s)) as [|lo [|hi [|irq [|]]]] eqn:Hpin;
    try discriminate Hp.
  unfold select_pin_ctl, pctl_names. cbn [select_pin_ctl_from].
  repeat match goal with
  | |- context [String.eqb ?a nm] => destruct (String.eqb a nm)
  end;
  run_prims; unfold index; rewrite ?Hpin; reflexivity.
Qed.

(** One step of a run whose driver data is known exactly, kept in the
    hypothesis [H : drv s = D] about the current state. *)
Ltac exact_step H :=
  lazymatch goal with
  | |- returns (bind (bind _ _) _ _) _ => rewrite run_bind_assoc
  | |- returns (bind (ret _) _ _) _ => rewrite run_ret
  | |- returns (bind (index vreg_conf 0) _ _) _ => rewrite run_index_vreg_conf
  | |- returns (bind (call _ _) _ ?s) _ =>
      lazymatch type of H with
      | drv s = ?D =>
          apply (returns_call (fun d => d = D) _ _ _ _ _ H);
          clear dependent s; intros ? s H
      end
  | |- returns (bind get_drv _ ?s) _ =>
      lazymatch type of H with
      | drv s = ?D =>
          apply (returns_get_drv (fun d => d = D) _ _ _ H);
          let d := fresh "d" in intros d ->
      end
  | |- returns (bind (modify_drv ?g) _ ?s) _ =>
      lazymatch type of H with
      | drv s = ?D =>
          apply (returns_modify_drv (fun d => d = g D));
          [ rewrite H; reflexivity
          | clear dependent s; intros s H ]
      end
  | |- returns ((if truthy 0 then _ else _) _) _ => rewrite truthy_zero
  | |- returns ((if truthy (- EINVAL) then _ else _) _) _ =>
      rewrite truthy_EINVAL
  | Hneg : (?v <? 0) = true |- returns ((if truthy ?v then _ else _) _) _ =>
      rewrite (truthy_negative v Hneg)
  | Htr : truthy ?v = true |- returns ((if truthy ?v then _ else _) _) _ =>
      rewrite Htr
  | |- returns (bind (if ?c then _ else _) _ _) _ => destruct c eqn:?
  | |- returns ((if ?c then _ else _) _) _ => destruct c eqn:?
  end.

Lemma probe_returns (k : kernel_t) (cfg : kconfig) (pdev : platform_device)
    (s : sys) :
  returns (fpc1020_probe k cfg pdev s)
    (fun rc s' =>
       rc = 0 ->
       attached_data (drv s')
       /\ (grandparent_name pdev = Some "platform" ->
           exists h, trace s' = h ++ [fb_register_client])).
Proof.
  unfold fpc1020_probe.
  apply (returns_call (fun _ => True) _ _ _ _ _ I). clear s. intros mem s _.
  destruct (mem =? NULL); [cbn; intros H; discriminate H|].
  apply (returns_modify_drv (fun d => d = fpc1020_zeroed)); [reflexivity|].
  clear s. intros s H.
  destruct (CONFIG_MACH_LONGCHEER cfg && negb (fpsensor cfg =? 1));
    [cbn; intros H0; discriminate H0|].
  destruct (of_node pdev =? NULL); [cbn; intros H0; discriminate H0|].
  unfold fpc1020_get_regulators, fpc1020_request_named_gpio, pctl_names.
  change (Z.to_nat FPC_VREG_MAX) with 1%nat.
  cbn [get_regulators_from lookup_pin_states_from].
  repeat exact_step H.
  all: try (cbn [returns ret]; intros H0; discriminate H0).
  assert (Hready : ready (drv s)).
  { rewrite H. split; [|reflexivity].
    match goal with
    | H1 : (_ <? 0) = false, H2 : (_ <? 0) = false |- _ =>
        apply Z.ltb_ge in H1, H2
    end.
    do 4 eexists.
    repeat split; first [reflexivity | eassumption]. }
  clear H.
  apply returns_bind. eapply returns_weaken.
  { apply select_pin_ctl_returns.
    destruct (attached_data_slots _ (proj1 Hready))
      as (? & ? & ? & ? & _ & _ & ->). reflexivity. }
  intros ? s1 Hs1. cbn beta in Hs1. rewrite <- Hs1 in Hready.
  apply returns_bind. eapply returns_weaken.
  { apply select_pin_ctl_returns.
    destruct (attached_data_slots _ (proj1 Hready))
      as (? & ? & ? & ? & _ & _ & ->). reflexivity. }
  intros ? s2 Hs2. cbn beta in Hs2. rewrite <- Hs2 in Hready.
  apply probe_irq_and_sysfs_returns. exact Hready.
Qed.

(** X4.  What a successful attach leaves behind.  [fpc1020_probe] always
    returns, from any state and whatever the kernel answers: it reads no
    array out of bounds.  When it returns 0, slot 0 of the regulator array
    holds a regulator that is neither [NULL] nor an error pointer and the
    other two slots are [NULL]; the three pin-control states and the
    pin-control handle are no error pointers; both GPIO numbers are
    non-negative; the wake flag is 0 and the display, proximity and
    finger-down flags are clear; the gate is as it was, so that it agrees
    with the fusion table when it was enabled. *)
Theorem probe_success_leaves_driver_attached (k : kernel_t) (cfg : kconfig)
    (pdev : platform_device) (s : sys) :
  exists rc s',
    fpc1020_probe k cfg pdev s = Done rc s'
    /\ irq_enabled s' = irq_enabled s
    /\ (rc = 0 ->
        attached_data (drv s')
        /\ wf_arrays s'
        /\ (irq_enabled s = true -> gate_agrees s')).
Proof.
  pose proof (probe_returns k cfg pdev s) as Hret.
  pose proof (keeps_probe k cfg pdev s) as Hgate.
  destruct (fpc1020_probe k cfg pdev s) as [rc s'|s'|s'];
    [|destruct Hret ..].
  cbn [returns state_of] in *.
  exists rc, s'. split; [reflexivity|]. split; [exact Hgate|].
  intros Hrc. destruct (Hret Hrc) as [Hd _]. split; [exact Hd|].
  pose proof Hd as (r0 & lo & hi & irq & Hv & _ & Hp & _ & _ & _ & _ & _ & _
                    & _ & Hfb & Hprox & _).
  split.
  - unfold wf_arrays. now rewrite Hv, Hp.
  - intros Hen. unfold gate_agrees. now rewrite Hgate, Hen, Hfb, Hprox.
Qed.

(** ** What attaching never calls *)

Lemma only_bind {A B} (allowed : kcall -> bool) (m : M A) (f : A -> M B) :
  only_calls allowed m -> (forall a, only_calls allowed (f a)) ->
  only_calls allowed (bind m f).
Proof.
  intros Hm Hf s. unfold bind.
  destruct (Hm s) as (c1 & Htr & Hc). destruct (m s) as [a s1|s1|s1].
  - destruct (Hf a s1) as (c2 & Htr2 & Hc2). cbn [state_of] in *.
    exists (c1 ++ c2). split; [now rewrite Htr2, Htr, app_assoc|].
    rewrite forallb_app, Hc, Hc2. reflexivity.
  - exists c1. auto.
  - exists c1. auto.
Qed.

Lemma only_ret {A} (allowed : kcall -> bool) (a : A) :
  only_calls allowed (ret a).
Proof. intros s. exists []. cbn. now rewrite app_nil_r. Qed.

Lemma only_call (allowed : kcall -> bool) (k : kernel_t) (c : kcall) :
  allowed c = true -> only_calls allowed (call k c).
Proof. intros Hc s. exists [c]. cbn. now rewrite Hc. Qed.

Lemma only_get_drv (allowed : kcall -> bool) : only_calls allowed get_drv.
Proof. intros s. exists []. cbn. now rewrite app_nil_r. Qed.

Lemma only_modify_drv (allowed : kcall -> bool)
    (f : fpc1020_data -> fpc1020_data) :
  only_calls allowed (modify_drv f).
Proof. intros s. exists []. cbn. now rewrite app_nil_r. Qed.

Lemma only_put_soc_symlink (allowed : kcall -> bool) (p : ptr) :
  only_calls allowed (put_soc_symlink p).
Proof. intros s. exists []. cbn. now rewrite app_nil_r. Qed.

Lemma only_index {A} (allowed : kcall -> bool) (a : list A) (i : Z) :
  only_calls allowed (index a i).
Proof.
  intros s. exists []. rewrite app_nil_r. unfold index.
  destruct (lookup a i); auto.
Qed.

Create HintDb only.
#[local] Hint Resolve only_ret only_get_drv only_modify_drv
  only_put_soc_symlink only_index : only.

Ltac only_step :=
  match goal with
  | |- only_calls _ (bind _ _) => apply only_bind; [|intros]
  | |- only_calls _ (call _ _) => apply only_call; reflexivity
  | |- only_calls _ (if ?c then _ else _) => destruct c
  | |- only_calls _ (match ?c with _ => _ end) => destruct c
  | |- only_calls _ _ => solve [auto with only]
  end.

Lemma only_index_vreg_conf {B} (allowed : kcall -> bool)
    (f : vreg_config -> M B) :
  only_calls allowed
    (f {| name := "vdd_ana"; vmin := 1800000; vmax := 1800000;
          ua_load := 6000 |}) ->
  only_calls allowed (bind (index vreg_conf 0) f).
Proof. intros H s. rewrite run_index_vreg_conf. apply H. Qed.

(** The loop over the regulators runs once, for [vdd_ana]. *)
Lemma get_regulators_only_vdd_ana (k : kernel_t) :
  only_calls no_other_regulator (fpc1020_get_regulators k).
Proof.
  unfold fpc1020_get_regulators.
  change (Z.to_nat FPC_VREG_MAX) with 1%nat. cbn [get_regulators_from].
  apply only_index_vreg_conf. repeat only_step.
Qed.

Lemma probe_only_vdd_ana (k : kernel_t) (cfg : kconfig)
    (pdev : platform_device) :
  only_calls no_other_regulator (fpc1020_probe k cfg pdev).
Proof.
  pose proof (get_regulators_only_vdd_ana k) as Hreg.
  unfold fpc1020_probe, probe_irq_and_sysfs, probe_soc_symlink,
    fpc1020_request_named_gpio, device_prepare, hw_reset, vreg_setup,
    select_pin_ctl, pctl_names.
  cbn [lookup_pin_states_from select_pin_ctl_from].
  repeat (only_step || exact Hreg).
Qed.

(** X5.  Attaching asks for one regulator.  Of the three rails of
    [vreg_conf], [fpc1020_probe] requests the regulator of [vdd_ana] only:
    no run of the probe, whatever the kernel answers, calls
    [devm_regulator_get] for [vcc_spi], [vdd_io] or any other name. *)
Theorem probe_requests_only_vdd_ana (k : kernel_t) (cfg : kconfig)
    (pdev : platform_device) (s : sys) :
  exists calls,
    trace (state_of (fpc1020_probe k cfg pdev s)) = trace s ++ calls
    /\ forall n, In (devm_regulator_get n) calls -> n = "vdd_ana".
Proof.
  destruct (probe_only_vdd_ana k cfg pdev s) as (calls & Htr & Hc).
  exists calls. split; [exact Htr|].
  intros n Hin. rewrite forallb_forall in Hc.
  apply Hc in Hin. now apply String.eqb_eq in Hin.
Qed.

(** Without a grandparent called [platform] the probe stops before its
    last part. *)
Lemma probe_without_platform_tail (k : kernel_t) (cfg : kconfig)
    (pdev : platform_device) :
  grandparent_name pdev <> Some "platform" ->
  only_calls no_probe_tail (fpc1020_probe k cfg pdev).
Proof.
  intros Hgp.
  unfold fpc1020_probe, probe_irq_and_sysfs, probe_soc_symlink,
    fpc1020_get_regulators, fpc1020_request_named_gpio, device_prepare,
    vreg_setup, select_pin_ctl, pctl_names.
  change (Z.to_nat FPC_VREG_MAX) with 1%nat.
  cbn [get_regulators_from lookup_pin_states_from select_pin_ctl_from].
  destruct (grandparent_name pdev) as [nm|].
  - destruct (String.eqb_spec nm "platform") as [-> | _];
      [now elim Hgp|].
    cbn [negb]. repeat only_step.
  - repeat only_step.
Qed.

(** *** The link pointer *)

Lemma link_ret {A} (a : A) : keeps_link (ret a).
Proof. intros s; reflexivity. Qed.

Lemma link_bind {A B} (m : M A) (f : A -> M B) :
  keeps_link m -> (forall a, keeps_link (f a)) -> keeps_link (bind m f).
Proof.
  intros Hm Hf s. unfold bind. specialize (Hm s).
  destruct (m s) as [a s1|s1|s1]; cbn [state_of] in *; [|exact Hm..].
  rewrite Hf. exact Hm.
Qed.

Lemma link_call (k : kernel_t) (c : kcall) : keeps_link (call k c).
Proof. intros s; reflexivity. Qed.

Lemma link_get_drv : keeps_link get_drv.
Proof. intros s; reflexivity. Qed.

Lemma link_modify_drv (f : fpc1020_data -> fpc1020_data) :
  keeps_link (modify_drv f).
Proof. intros s; reflexivity. Qed.

Lemma link_index {A} (a : list A) (i : Z) : keeps_link (index a i).
Proof. intros s. unfold index. destruct (lookup a i); reflexivity. Qed.

Create HintDb link.
#[local] Hint Resolve link_ret link_call link_get_drv link_modify_drv
  link_index : link.

Ltac link_step :=
  match goal with
  | |- keeps_link (bind _ _) => apply link_bind; [|intros]
  | |- keeps_link (if ?c then _ else _) => destruct c
  | |- keeps_link (match ?c with _ => _ end) => destruct c
  | |- keeps_link _ => solve [auto with link]
  end.

(** Without a grandparent called [platform] the probe leaves the link
    pointer alone. *)
Lemma probe_without_platform_keeps_link (k : kernel_t) (cfg : kconfig)
    (pdev : platform_device) :
  grandparent_name pdev <> Some "platform" ->
  keeps_link (fpc1020_probe k cfg pdev).
Proof.
  intros Hgp.
  unfold fpc1020_probe, probe_irq_and_sysfs, probe_soc_symlink,
    fpc1020_get_regulators, fpc1020_request_named_gpio, device_prepare,
    vreg_setup, select_pin_ctl, pctl_names.
  change (Z.to_nat FPC_VREG_MAX) with 1%nat.
  cbn [get_regulators_from lookup_pin_states_from select_pin_ctl_from].
  destruct (grandparent_name pdev) as [nm|].
  - destruct (String.eqb_spec nm "platform") as [-> | _];
      [now elim Hgp|].
    cbn [negb]. repeat link_step.
  - repeat link_step.
Qed.

(** X6.  Attaching a device outside the platform bus.  When the device has
    no grandparent, or one whose kobject is not called [platform],
    [fpc1020_probe] never creates the link under the devices directory,
    never makes the reset pulse and never registers for display
    notifications, also when it returns 0; the link pointer is left as it
    was. *)
Theorem probe_without_platform_skips_reset_and_notifier (k : kernel_t)
    (cfg : kconfig) (pdev : platform_device) (s : sys) :
  grandparent_name pdev <> Some "platform" ->
  let s' := state_of (fpc1020_probe k cfg pdev s) in
  exists calls,
    trace s' = trace s ++ calls
    /\ ~ In fb_register_client calls
    /\ ~ In kernfs_create_link calls
    /\ (forall g, ~ In (gpio_get_value g) calls)
    /\ soc_symlink s' = soc_symlink s.
Proof.
  intros Hgp s'.
  destruct (probe_without_platform_tail k cfg pdev Hgp s)
    as (calls & Htr & Hc).
  exists calls. split; [exact Htr|].
  rewrite forallb_forall in Hc.
  split; [|split; [|split]];
    [..|exact (probe_without_platform_keeps_link k cfg pdev Hgp s)];
    unfold not; intros;
    match goal with
    | Hin : In _ calls |- _ => apply Hc in Hin; discriminate Hin
    end.
Qed.

Lemma probe_without_platform_skips_reset_and_notifier_witness :
  grandparent_name orphan_pdev <> Some "platform"
  /\ fpc1020_probe kernel_ok board_cfg orphan_pdev module_loaded =
     Done 0 (state_of (fpc1020_probe kernel_ok board_cfg orphan_pdev
                         module_loaded))
  /\ ~ In fb_register_client
       (trace (state_of (fpc1020_probe kernel_ok board_cfg orphan_pdev
                           module_loaded))).
Proof.
  assert (Hgp : grandparent_name orphan_pdev <> Some "platform")
    by discriminate.
  split; [exact Hgp|]. split; [vm_compute; reflexivity|].
  destruct (probe_without_platform_skips_reset_and_notifier kernel_ok
              board_cfg orphan_pdev module_loaded Hgp)
    as (calls & Htr & Hfb & _).
  rewrite Htr. exact Hfb.
Defined.

(** X7.  A successful attach on the platform bus ends by registering for
    display notifications.  When the grandparent of the device is called
    [platform] and [fpc1020_probe] returns 0, the last call it made is
    [fb_register_client]. *)
Theorem probe_success_on_platform_registers_notifier (k : kernel_t)
    (cfg : kconfig) (pdev : platform_device) (s s' : sys) :
  grandparent_name pdev = Some "platform" ->
  fpc1020_probe k cfg pdev s = Done 0 s' ->
  exists h, trace s' = h ++ [fb_register_client].
Proof.
  intros Hgp Hrun. pose proof (probe_returns k cfg pdev s) as Hret.
  rewrite Hrun in Hret. cbn [returns] in Hret.
  destruct (Hret eq_refl) as [_ Hlast]. exact (Hlast Hgp).
Qed.

Lemma probe_success_on_platform_registers_notifier_witness :
  grandparent_name board_pdev = Some "platform"
  /\ fpc1020_probe kernel_ok board_cfg board_pdev module_loaded =
     Done 0 (state_of (fpc1020_probe kernel_ok board_cfg board_pdev
                         module_loaded))
  /\ exists h,
       trace (state_of (fpc1020_probe kernel_ok board_cfg board_pdev
                          module_loaded)) = h ++ [fb_register_client].
Proof.
  assert (Hrun : fpc1020_probe kernel_ok board_cfg board_pdev module_loaded =
                 Done 0 (state_of (fpc1020_probe kernel_ok board_cfg
                                     board_pdev module_loaded)))
    by (vm_compute; reflexivity).
  split; [reflexivity|]. split; [exact Hrun|].
  exact (probe_success_on_platform_registers_notifier kernel_ok board_cfg
           board_pdev module_loaded _ eq_refl Hrun).
Defined.

(** ** The command nodes, one by one *)

(** X8.  A write to [pinctl_set] selects by name.  With the three states in
    their slots, the write takes the lock, selects the state looked up
    under the name written when the name is one of [pctl_names], and
    releases the lock; it returns the count when the selection succeeded
    and the code of [pinctrl_select_state] when it failed.  For any other
    name nothing is selected and the result is [-EINVAL].  The driver data
    and the gate are left alone. *)
Theorem pinctl_set_store_selects_by_name (k : kernel_t) (s : sys)
    (lo hi irq : ptr) (buf : string) (count : Z) :
  pinctrl_state (drv s) = [lo; hi; irq] ->
  let p := fingerprint_pinctrl (drv s) in
  let selected st :=
    let rc := k (trace s ++ [mutex_lock]) (pinctrl_select_state p st) in
    Done (if truthy rc then rc else count)
         (log s [mutex_lock; pinctrl_select_state p st; mutex_unlock]) in
  pinctl_set_store k buf count s =
  if String.eqb "fpc1020_reset_reset" buf then selected lo
  else if String.eqb "fpc1020_reset_active" buf then selected hi
  else if String.eqb "fpc1020_irq_active" buf then selected irq
  else Done (- EINVAL) (log s [mutex_lock; mutex_unlock]).
Proof.
  intros Hpin p selected. subst selected p.
  unfold pinctl_set_store. run_prims.
  assert (Hpin1 : pinctrl_state (drv (log s [mutex_lock])) = [lo; hi; irq])
    by exact Hpin.
  destruct (select_pin_ctl_run k (log s [mutex_lock]) lo hi irq Hpin1)
    as (Hlo & Hhi & Hirq).
  destruct (String.eqb_spec "fpc1020_reset_reset" buf) as [<- | N1].
  { rewrite (bind_Done _ _ _ _ _ Hlo). run_prims. reflexivity. }
  destruct (String.eqb_spec "fpc1020_reset_active" buf) as [<- | N2].
  { rewrite (bind_Done _ _ _ _ _ Hhi). run_prims. reflexivity. }
  destruct (String.eqb_spec "fpc1020_irq_active" buf) as [<- | N3].
  { rewrite (bind_Done _ _ _ _ _ Hirq). run_prims. reflexivity. }
  assert (Hnot : ~ In buf pctl_names).
  { unfold pctl_names. cbn [In]. intros [E | [E | [E | []]]]; auto. }
  rewrite (bind_Done _ _ _ _ _
             (select_pin_ctl_unknown k buf (log s [mutex_lock]) Hnot)).
  run_prims. reflexivity.
Qed.

Lemma pinctl_set_store_selects_by_name_witness :
  pinctrl_state (drv attached) = [12304; 12320; 12336]
  /\ pinctl_set_store kernel_io_errors "fpc1020_irq_active" 18 attached =
     Done (- 5)
       (log attached [mutex_lock; pinctrl_select_state 12288 12336;
                      mutex_unlock])
  /\ pinctl_set_store kernel_ok "fpc1020_irq" 11 attached =
     Done (- EINVAL) (log attached [mutex_lock; mutex_unlock]).
Proof.
  split; [reflexivity|]. split.
  - exact (pinctl_set_store_selects_by_name kernel_io_errors attached
             12304 12320 12336 "fpc1020_irq_active" 18 eq_refl).
  - exact (pinctl_set_store_selects_by_name kernel_ok attached
             12304 12320 12336 "fpc1020_irq" 11 eq_refl).
Defined.

(** X9.  A write to [regulator_enable] switches one rail whatever it names.
    For a write that parses into one of the three rail names and [e] or
    [d], with a regulator in slot 0: under the lock, [e] enables the
    regulator of slot 0 with the voltage and load of [vdd_ana]; the write
    returns what the kernel answered to [regulator_enable] when that is not
    0, and the count when it is 0.  [d] disables that regulator when the
    kernel reports it enabled and always returns the count.  The name
    chosen makes no difference, and the driver data, the [prepared] flag
    included, is left alone. *)
Theorem regulator_enable_store_one_rail (k : kernel_t) (s : sys)
    (buf nm : string) (op : ascii) (count : Z) (r0 r1 r2 : ptr) :
  sscanf_name_op buf = (2, nm, op) ->
  In nm rail_names ->
  vreg (drv s) = [r0; r1; r2] ->
  r0 <> NULL ->
  let vdd_ana := {| name := "vdd_ana"; vmin := 1800000; vmax := 1800000;
                    ua_load := 6000 |} in
  (op = "e"%char ->
     let h := trace s ++ [mutex_lock] in
     let calls := vreg_enable_calls k h r0 vdd_ana in
     let rc := k (h ++ removelast calls) (regulator_enable r0) in
     last calls mutex_lock = regulator_enable r0
     /\ regulator_enable_store k buf count s =
        Done (if truthy rc then rc else count)
          (log s ([mutex_lock] ++ calls ++ [mutex_unlock])))
  /\ (op = "d"%char ->
        regulator_enable_store k buf count s =
        Done count
          (log s ([mutex_lock]
                  ++ vreg_disable_calls k (trace s ++ [mutex_lock]) r0
                  ++ [mutex_unlock]))).
Proof.
  intros Hscan Hin Hvreg Hnz vdd_ana.
  assert (Hrail : name_to_fpc_rail nm = 0).
  { apply name_to_fpc_rail_known. unfold rail_names in *. cbn [existsb].
    destruct Hin as [<- | [<- | [<- | []]]]; reflexivity. }
  assert (Hslot : lookup (vreg (drv (log s [mutex_lock]))) 0 = Some r0)
    by (cbn [drv log]; rewrite Hvreg; reflexivity).
  unfold regulator_enable_store. rewrite Hscan, Hrail.
  cbn [Z.eqb NUM_PARAMS_REG_ENABLE_SET Pos.eqb negb].
  split; intros ->; cbn [Ascii.eqb Bool.eqb]; run_prims.
  - cbv zeta. split.
    { unfold vreg_enable_calls.
      destruct (k (trace s ++ [mutex_lock]) (regulator_count_voltages r0)
                >? 0); reflexivity. }
    rewrite (bind_Done _ _ _ _ _
               (vreg_setup_enable_result k (log s [mutex_lock]) 0 r0 vdd_ana
                  Hslot eq_refl Hnz)).
    run_prims. unfold ret. reflexivity.
  - rewrite (bind_Done _ _ _ _ _
               (vreg_setup_disable_run k (log s [mutex_lock]) 0 r0 Hslot Hnz)).
    run_prims. unfold ret. rewrite truthy_zero.
    rewrite <- ?app_assoc. reflexivity.
Qed.

Lemma regulator_enable_store_one_rail_witness :
  sscanf_name_op "vcc_spi,e" = (2, "vcc_spi", "e"%char)
  /\ In "vcc_spi" rail_names
  /\ vreg (drv attached) = [8192; NULL; NULL]
  /\ 8192 <> NULL
  /\ regulator_enable_store kernel_io_errors "vcc_spi,e" 9 attached =
     Done (- 5)
       (log attached
          [mutex_lock; regulator_count_voltages 8192;
           regulator_set_voltage 8192 1800000 1800000;
           regulator_set_load 8192 6000; regulator_enable 8192;
           mutex_unlock])
  /\ regulator_enable_store kernel_ok "vcc_spi,e" 9 attached =
     Done 9
       (log attached
          [mutex_lock; regulator_count_voltages 8192;
           regulator_set_voltage 8192 1800000 1800000;
           regulator_set_load 8192 6000; regulator_enable 8192;
           mutex_unlock]).
Proof.
  assert (Hin : In "vcc_spi" rail_names) by (cbn; auto).
  assert (Hnz : 8192 <> NULL) by discriminate.
  do 4 (split; [first [exact Hin | exact Hnz | reflexivity]|]).
  split.
  - exact (proj2 (proj1 (regulator_enable_store_one_rail kernel_io_errors
                           attached "vcc_spi,e" "vcc_spi" "e" 9 8192 NULL NULL
                           eq_refl Hin eq_refl Hnz) eq_refl)).
  - exact (proj2 (proj1 (regulator_enable_store_one_rail kernel_ok
                           attached "vcc_spi,e" "vcc_spi" "e" 9 8192 NULL NULL
                           eq_refl Hin eq_refl Hnz) eq_refl)).
Defined.

(** X10.  Notifications that do not move the display state.  The callback
    returns 0 and does nothing for an event other than [FB_EVENT_BLANK];
    it returns [NOTIFY_OK] and does nothing when the event carries no data,
    and when the blank level is none of power-down, unblank and normal (as
    for the two suspend levels in between): the display state, the gate and
    the trace are as before. *)
Theorem fb_notif_callback_ignores_other_events (k : kernel_t) (s : sys) :
  (forall val evdata,
      val <> FB_EVENT_BLANK ->
      fpc_fb_notif_callback k val evdata s = Done 0 s)
  /\ fpc_fb_notif_callback k FB_EVENT_BLANK None s = Done NOTIFY_OK s
  /\ fpc_fb_notif_callback k FB_EVENT_BLANK (Some None) s = Done NOTIFY_OK s
  /\ (forall b,
        - 2 ^ 31 <= b < 2 ^ 31 ->
        b <> FB_BLANK_POWERDOWN -> b <> FB_BLANK_UNBLANK ->
        b <> FB_BLANK_NORMAL ->
        fpc_fb_notif_callback k FB_EVENT_BLANK (Some (Some b)) s
        = Done NOTIFY_OK s).
Proof.
  repeat split.
  - intros val evdata Hval. unfold fpc_fb_notif_callback.
    apply Z.eqb_neq in Hval. rewrite Hval. reflexivity.
  - intros b Hb H4 H0 H1. unfold fpc_fb_notif_callback.
    cbn [Z.eqb FB_EVENT_BLANK Pos.eqb negb].
    unfold FB_BLANK_POWERDOWN, FB_BLANK_UNBLANK, FB_BLANK_NORMAL in *.
    assert (Hm : b mod 2 ^ 32 <> 4 /\ b mod 2 ^ 32 <> 0 /\ b mod 2 ^ 32 <> 1).
    { destruct (Z.lt_ge_cases b 0) as [Hneg | Hpos].
      - assert (E : b mod 2 ^ 32 = b + 2 ^ 32).
        { symmetry. apply (Z.mod_unique b (2 ^ 32) (-1)); lia. }
        rewrite E. lia.
      - rewrite Z.mod_small by lia. auto. }
    destruct Hm as (M4 & M0 & M1).
    apply Z.eqb_neq in M4, M0, M1. rewrite M4, M0, M1. reflexivity.
Qed.

Lemma fb_notif_callback_ignores_other_events_witness :
  - 2 ^ 31 <= 3 < 2 ^ 31
  /\ fpc_fb_notif_callback kernel_ok FB_EVENT_BLANK (Some (Some 3)) attached
     = Done NOTIFY_OK attached.
Proof.
  assert (Hb : - 2 ^ 31 <= 3 < 2 ^ 31) by lia.
  split; [exact Hb|].
  apply (fb_notif_callback_ignores_other_events kernel_ok attached);
    [exact Hb | discriminate | discriminate | discriminate].
Defined.

(** X11.  Powering up and down again is a round trip on the driver.  From
    an unprepared driver with a regulator in slot 0, [device_prepare] with
    [true] and then with [false] returns, whatever the kernel answers, to
    the driver data and the gate it started from.  On the way the pins are
    selected reset-low, reset-high, reset-low, so that the sensor is left
    in reset; the rail is enabled three times and asked after three times,
    and only the regulator of slot 0 is disabled, at most three times. *)
Theorem device_prepare_round_trip (k : kernel_t) (s : sys)
    (lo hi irq r0 r1 r2 : ptr) :
  pinctrl_state (drv s) = [lo; hi; irq] ->
  vreg (drv s) = [r0; r1; r2] ->
  r0 <> NULL ->
  prepared (drv s) = false ->
  exists s2 calls,
    (device_prepare k true ;;; device_prepare k false) s = Done tt s2
    /\ trace s2 = trace s ++ calls
    /\ drv s2 = drv s
    /\ irq_enabled s2 = irq_enabled s
    /\ pin_selects calls = [lo; hi; lo]
    /\ rail_enables calls = [r0; r0; r0]
    /\ rail_queries calls = [r0; r0; r0]
    /\ incl (rail_disables calls) [r0]
    /\ (List.length (rail_disables calls) <= 3)%nat.
Proof.
  intros Hpin Hvreg Hr0 Hprep.
  destruct (device_prepare_enable_run k s lo hi irq r0 r1 r2 _
              Hpin Hvreg Hr0 Hprep eq_refl) as (h1 & h2 & h3 & Hup).
  match type of Hup with
  | _ = Done tt ?s1 =>
      destruct (device_prepare_disable_run k s1 lo hi irq r0 r1 r2
                  Hpin Hvreg Hr0 eq_refl) as (g1 & g2 & g3 & Hdown)
  end.
  eexists _, _. rewrite (bind_Done _ _ _ _ _ Hup), Hdown.
  split; [reflexivity|]. split.
  { cbn [trace upd_drv log]. rewrite <- app_assoc. reflexivity. }
  split.
  { cbn [drv upd_drv log]. destruct (drv s). cbn in Hprep. subst.
    reflexivity. }
  split; [reflexivity|].
  generalize (trace s ++
              [mutex_lock;
               pinctrl_select_state (fingerprint_pinctrl (drv s)) lo]).
  clear Hup Hdown. intros.
  split_rail_answers;
    repeat split; cbn;
    try (intros x Hx; cbn in Hx; cbn; tauto); try lia.
Qed.

Lemma device_prepare_round_trip_witness :
  pinctrl_state (drv attached) = [12304; 12320; 12336]
  /\ vreg (drv attached) = [8192; NULL; NULL]
  /\ 8192 <> NULL
  /\ prepared (drv attached) = false
  /\ exists s2 calls,
       (device_prepare kernel_io_errors true ;;;
        device_prepare kernel_io_errors false) attached = Done tt s2
       /\ trace s2 = trace attached ++ calls
       /\ drv s2 = drv attached
       /\ pin_selects calls = [12304; 12320; 12304].
Proof.
  assert (Hnz : 8192 <> NULL) by discriminate.
  repeat (split; [first [reflexivity | exact Hnz]|]).
  destruct (device_prepare_round_trip kernel_io_errors attached
              12304 12320 12336 8192 NULL NULL eq_refl eq_refl Hnz eq_refl)
    as (s2 & calls & Hrun & Htr & Hdrv & _ & Hsel & _).
  exists s2, calls. auto.
Defined.

Lemma ends_with_append_newline (w : string) :
  ends_with newline (w ++ String newline EmptyString)%string = true.
Proof.
  induction w as [|a w IH]; [reflexivity|].
  cbn [String.append ends_with].
  destruct (w ++ String newline EmptyString)%string eqn:E; [|exact IH].
  destruct w; discriminate E.
Qed.

Lemma append_newline_neq (w t : string) :
  ends_with newline t = false ->
  (w ++ String newline EmptyString)%string <> t.
Proof.
  intros Ht E. rewrite <- E, ends_with_append_newline in Ht. discriminate Ht.
Qed.

(** X12.  The word nodes take their word without a newline.  A write that
    ends in a newline, as a shell [echo] makes it, is rejected with
    [-EINVAL] by [device_prepare], [fingerdown_wait], [wakeup_enable] and
    [hw_reset], whatever comes before the newline: nothing is powered,
    reset or recorded, and the only calls made are the lock and unlock of
    [wakeup_enable]. *)
Theorem word_nodes_reject_trailing_newline (k : kernel_t) (s : sys)
    (w : string) (count : Z) :
  let buf := (w ++ String newline EmptyString)%string in
  device_prepare_store k buf count s = Done (- EINVAL) s
  /\ fingerdown_wait_store buf count s = Done (- EINVAL) s
  /\ wakeup_enable_store k buf count s =
     Done (- EINVAL) (log s [mutex_lock; mutex_unlock])
  /\ hw_reset_store k buf count s = Done (- EINVAL) s.
Proof.
  intros buf.
  destruct (malformed_write_rejected k s buf count) as (Hword & Hreset & _).
  assert (He : buf <> "enable") by (apply append_newline_neq; reflexivity).
  assert (Hd : buf <> "disable") by (apply append_newline_neq; reflexivity).
  assert (Hr : buf <> "reset") by (apply append_newline_neq; reflexivity).
  destruct (Hword He Hd) as (H1 & H2 & H3).
  repeat split; auto.
Qed.

(** ** The wake flag is written and never read *)

Lemma blind_bind {A B} (m1 m2 : M A) (f1 f2 : A -> M B) :
  wake_blind m1 m2 -> (forall a, wake_blind (f1 a) (f2 a)) ->
  wake_blind (bind m1 f1) (bind m2 f2).
Proof.
  intros Hm Hf s1 s2 Hs. unfold bind. specialize (Hm s1 s2 Hs).
  destruct (m1 s1) as [a1 t1|t1|t1], (m2 s2) as [a2 t2|t2|t2]; cbn in Hm;
    try contradiction; [|exact Hm..].
  destruct Hm as [<- Ht]. apply Hf. exact Ht.
Qed.

Lemma blind_ret {A} (a : A) : wake_blind (ret a) (ret a).
Proof. intros s1 s2 Hs. split; [reflexivity | exact Hs]. Qed.

(** The kernel answers by the trace, which is the same. *)
Lemma blind_call (k : kernel_t) (c : kcall) : wake_blind (call k c) (call k c).
Proof.
  intros s1 s2 (Hd & Hi & Hl & Ht). unfold call. cbn [same_outcome].
  rewrite Ht. split; [reflexivity|].
  repeat split; cbn; try apply Hd; congruence.
Qed.

Lemma blind_index {A} (a : list A) (i : Z) :
  wake_blind (index a i) (index a i).
Proof.
  intros s1 s2 Hs. unfold index. destruct (lookup a i); cbn; auto.
Qed.

Lemma blind_get_irq_enabled : wake_blind get_irq_enabled get_irq_enabled.
Proof. intros s1 s2 Hs. split; [apply Hs | exact Hs]. Qed.

Lemma blind_put_irq_enabled (b : bool) :
  wake_blind (put_irq_enabled b) (put_irq_enabled b).
Proof.
  intros s1 s2 (Hd & Hi & Hl & Ht). split; [reflexivity|].
  repeat split; cbn; try apply Hd; congruence.
Qed.

(** A change of the driver data that does not look at the wake flag. *)
Lemma blind_modify_drv (f : fpc1020_data -> fpc1020_data) :
  (forall d1 d2, same_but_wake d1 d2 -> same_but_wake (f d1) (f d2)) ->
  wake_blind (modify_drv f) (modify_drv f).
Proof.
  intros Hf s1 s2 (Hd & Hi & Hl & Ht). split; [reflexivity|].
  split; [apply Hf; exact Hd|]. cbn. auto.
Qed.

(** Reading the driver data gives two values that agree but for the flag. *)
Lemma blind_get_drv {B} (f1 f2 : fpc1020_data -> M B) :
  (forall d1 d2, same_but_wake d1 d2 -> wake_blind (f1 d1) (f2 d2)) ->
  wake_blind (bind get_drv f1) (bind get_drv f2).
Proof.
  intros Hf s1 s2 Hs. rewrite !run_get_drv. apply Hf; [apply Hs | exact Hs].
Qed.

Lemma same_but_wake_setter (d1 d2 : fpc1020_data) :
  same_but_wake d1 d2 ->
  (forall v, same_but_wake (set_prepared v d1) (set_prepared v d2))
  /\ (forall v, same_but_wake (set_fb_black v d1) (set_fb_black v d2))
  /\ (forall v, same_but_wake (set_wait_finger_down v d1)
                              (set_wait_finger_down v d2))
  /\ (forall v, same_but_wake (set_proximity_state v d1)
                              (set_proximity_state v d2))
  /\ (forall v1 v2, same_but_wake (set_wakeup_enabled v1 d1)
                                  (set_wakeup_enabled v2 d2)).
Proof.
  intros (E1 & E2 & E3 & E4 & E5 & E6 & E7 & E8 & E9 & E10).
  repeat split; cbn; assumption.
Qed.

Create HintDb blind.
#[local] Hint Resolve blind_ret blind_call blind_index blind_get_irq_enabled
  blind_put_irq_enabled : blind.

(** Walks through two copies of a run; after a read of the driver data the
    fields read from it are rewritten to those of the second copy. *)
Ltac blind_step :=
  match goal with
  | |- wake_blind (bind get_drv _) (bind get_drv _) =>
      let Hd := fresh "Hd" in
      apply blind_get_drv; intros ? ? Hd; cbn beta;
      let E1 := fresh in let E2 := fresh in let E3 := fresh in
      let E4 := fresh in let E5 := fresh in let E6 := fresh in
      let E7 := fresh in let E8 := fresh in let E9 := fresh in
      let E10 := fresh in
      destruct Hd as (E1 & E2 & E3 & E4 & E5 & E6 & E7 & E8 & E9 & E10);
      rewrite ?E1, ?E2, ?E3, ?E4, ?E5, ?E6, ?E7, ?E8, ?E9, ?E10
  | |- wake_blind (bind _ _) (bind _ _) => apply blind_bind; [|intros]
  | |- wake_blind (modify_drv _) (modify_drv _) =>
      apply blind_modify_drv; intros ? ? ?;
      apply same_but_wake_setter; assumption
  | |- wake_blind (if ?c then _ else _) (if ?c then _ else _) => destruct c
  | |- wake_blind (match ?c with _ => _ end) (match ?c with _ => _ end) =>
      destruct c
  | |- wake_blind _ _ => solve [auto with blind]
  end.
Ltac blinds := repeat blind_step.

Lemma blind_select_pin_ctl (k : kernel_t) (nm : string) :
  wake_blind (select_pin_ctl k nm) (select_pin_ctl k nm).
Proof.
  unfold select_pin_ctl. generalize 0 as i. generalize pctl_names as names.
  induction names as [|n rest IH]; intros i; cbn [select_pin_ctl_from].
  - blinds.
  - destruct (String.eqb n nm); [blinds | apply IH].
Qed.

Lemma blind_vreg_setup (k : kernel_t) (rail : Z) (enable : bool) :
  wake_blind (vreg_setup k rail enable) (vreg_setup k rail enable).
Proof. unfold vreg_setup. blinds. Qed.

#[local] Hint Resolve blind_select_pin_ctl blind_vreg_setup : blind.

Lemma blind_hw_reset (k : kernel_t) : wake_blind (hw_reset k) (hw_reset k).
Proof. unfold hw_reset. blinds. Qed.

Lemma blind_config_irq (k : kernel_t) (enabled : bool) :
  wake_blind (config_irq k enabled) (config_irq k enabled).
Proof. unfold config_irq. blinds. Qed.

Lemma blind_device_prepare (k : kernel_t) (enable : bool) :
  wake_blind (device_prepare k enable) (device_prepare k enable).
Proof. unfold device_prepare. blinds. Qed.

#[local] Hint Resolve blind_hw_reset blind_config_irq blind_device_prepare
  : blind.

Lemma blind_enter (k : kernel_t) (e : entry) :
  wake_blind (enter k e) (enter k e).
Proof.
  destruct e as [a buf count| |irq|val evdata]; cbn [enter].
  - destruct a; cbn [attr_store].
    + unfold pinctl_set_store. blinds.
    + unfold device_prepare_store. blinds.
    + unfold regulator_enable_store. blinds.
    + unfold hw_reset_store. blinds.
    + unfold wakeup_enable_store. blinds.
    + unfold clk_enable_store. blinds.
    + unfold irq_ack. blinds.
    + unfold fingerdown_wait_store. blinds.
    + unfold proximity_state_store. blinds.
  - unfold irq_get. blinds.
  - unfold fpc1020_irq_handler. blinds.
  - unfold fpc_fb_notif_callback. blinds.
Qed.

Lemma blind_enter_all (k : kernel_t) (es : list entry) :
  wake_blind (enter_all k es) (enter_all k es).
Proof.
  induction es as [|e es IH]; cbn [enter_all]; [apply blind_ret|].
  apply blind_bind; [apply blind_enter | intros _; exact IH].
Qed.


(** ** Detaching *)

Lemma run_get_soc_symlink {B} (f : ptr -> M B) (s : sys) :
  bind get_soc_symlink f s = f (soc_symlink s) s.
Proof. reflexivity. Qed.

Lemma run_deref {B} (p : ptr) (f : unit -> M B) (s : sys) :
  p <> NULL -> bind (deref p) f s = f tt s.
Proof.
  intros Hp. apply Z.eqb_neq in Hp. unfold bind, deref. now rewrite Hp.
Qed.

(** [NULL] is no error pointer: the link is read through it. *)
Lemma fpc1020_remove_null (k : kernel_t) (s : sys) :
  soc_symlink s = NULL -> fpc1020_remove k s = NullDeref s.
Proof.
  intros H. unfold fpc1020_remove, bind, get_soc_symlink, deref.
  rewrite H. reflexivity.
Qed.

Lemma fpc1020_remove_run (k : kernel_t) (s : sys) (r0 r1 r2 : ptr) :
  soc_symlink s <> NULL ->
  vreg (drv s) = [r0; r1; r2] ->
  r0 <> NULL ->
  let pre := (if IS_ERR (soc_symlink s) then [] else [kernfs_remove_by_name])
             ++ [fb_unregister_client; sysfs_remove_group; mutex_destroy;
                 wakeup_source_unregister (ttw_ws (drv s))] in
  let d1 := vreg_disable_calls k (trace s ++ pre) r0 in
  let d2 := vreg_disable_calls k (trace s ++ pre ++ d1) r0 in
  let d3 := vreg_disable_calls k (trace s ++ pre ++ d1 ++ d2) r0 in
  fpc1020_remove k s = Done 0 (log s (pre ++ d1 ++ d2 ++ d3)).
Proof.
  intros Hlink Hvreg Hr0 pre d1 d2 d3.
  assert (Hslot : lookup (vreg (drv s)) 0 = Some r0)
    by (rewrite Hvreg; reflexivity).
  unfold fpc1020_remove. rewrite run_get_soc_symlink.
  subst d3 d2 d1 pre.
  destruct (IS_ERR (soc_symlink s)); cbn [negb].
  - run_prims.
    run_disable Hslot Hr0. run_prims.
    run_disable Hslot Hr0. run_prims.
    run_disable Hslot Hr0. run_prims.
    unfold ret. cbn [trace log app]. rewrite <- ?app_assoc. cbn [app].
    reflexivity.
  - run_prims. rewrite (run_deref _ _ _ Hlink). run_prims.
    run_disable Hslot Hr0. run_prims.
    run_disable Hslot Hr0. run_prims.
    run_disable Hslot Hr0. run_prims.
    unfold ret. cbn [trace log app]. rewrite <- ?app_assoc. cbn [app].
    reflexivity.
Qed.

(** X14.  Detaching.  [fpc1020_remove] reads [soc_symlink->parent] unless
    the pointer is an error pointer.  After an attach outside the platform
    bus that found the pointer [NULL], as the module is loaded with, it is
    still [NULL] and the read goes through it: the run stops there, with
    nothing unregistered and no rail switched off.  With a pointer other
    than [NULL] and a regulator in slot 0, [fpc1020_remove] returns 0 after
    exactly these calls: the removal of the link unless the pointer is an
    error pointer, the four unregistrations, and three times a query of
    the rail followed by [regulator_disable] when the kernel answers that
    the rail is enabled.  The rail is asked after whatever [prepared]
    says, and the driver data is left as it was. *)
Theorem remove_reads_link_through_null (k : kernel_t) (cfg : kconfig)
    (pdev : platform_device) (s : sys) (r0 r1 r2 : ptr) :
  (soc_symlink s = NULL ->
   grandparent_name pdev <> Some "platform" ->
   forall s',
     fpc1020_probe k cfg pdev s = Done 0 s' ->
     fpc1020_remove k s' = NullDeref s')
  /\ (soc_symlink s <> NULL ->
      vreg (drv s) = [r0; r1; r2] ->
      r0 <> NULL ->
      let pre :=
        (if IS_ERR (soc_symlink s) then [] else [kernfs_remove_by_name])
        ++ [fb_unregister_client; sysfs_remove_group; mutex_destroy;
            wakeup_source_unregister (ttw_ws (drv s))] in
      let d1 := vreg_disable_calls k (trace s ++ pre) r0 in
      let d2 := vreg_disable_calls k (trace s ++ pre ++ d1) r0 in
      let d3 := vreg_disable_calls k (trace s ++ pre ++ d1 ++ d2) r0 in
      fpc1020_remove k s = Done 0 (log s (pre ++ d1 ++ d2 ++ d3))).
Proof.
  split.
  - intros Hnull Hgp s' Hrun. apply fpc1020_remove_null.
    pose proof (probe_without_platform_keeps_link k cfg pdev Hgp s) as Hk.
    rewrite Hrun in Hk. cbn [state_of] in Hk. now rewrite Hk.
  - apply fpc1020_remove_run.
Qed.

Lemma remove_reads_link_through_null_witness :
  soc_symlink module_loaded = NULL
  /\ grandparent_name orphan_pdev <> Some "platform"
  /\ (let s' := state_of (fpc1020_probe kernel_ok board_cfg orphan_pdev
                            module_loaded) in
      fpc1020_probe kernel_ok board_cfg orphan_pdev module_loaded = Done 0 s'
      /\ fpc1020_remove kernel_ok s' = NullDeref s')
  /\ soc_symlink powered_up <> NULL
  /\ vreg (drv powered_up) = [8192; NULL; NULL]
  /\ 8192 <> NULL
  /\ fpc1020_remove kernel_io_errors powered_up =
     Done 0
       (log powered_up
          [kernfs_remove_by_name; fb_unregister_client; sysfs_remove_group;
           mutex_destroy; wakeup_source_unregister 16384;
           regulator_is_enabled 8192; regulator_disable 8192;
           regulator_is_enabled 8192; regulator_disable 8192;
           regulator_is_enabled 8192; regulator_disable 8192]).
Proof.
  assert (Hgp : grandparent_name orphan_pdev <> Some "platform")
    by discriminate.
  assert (Hlink : soc_symlink powered_up <> NULL) by discriminate.
  assert (Hnz : 8192 <> NULL) by discriminate.
  assert (Hrun : fpc1020_probe kernel_ok board_cfg orphan_pdev module_loaded
                 = Done 0 (state_of (fpc1020_probe kernel_ok board_cfg
                                       orphan_pdev module_loaded)))
    by (vm_compute; reflexivity).
  split; [reflexivity|]. split; [exact Hgp|]. split.
  - split; [exact Hrun|].
    exact (proj1 (remove_reads_link_through_null kernel_ok board_cfg
                    orphan_pdev module_loaded 0 0 0) eq_refl Hgp _ Hrun).
  - split; [exact Hlink|]. split; [reflexivity|]. split; [exact Hnz|].
    exact (proj2 (remove_reads_link_through_null kernel_io_errors board_cfg
                    board_pdev powered_up 8192 NULL NULL)
             Hlink eq_refl Hnz).
Defined.
